(* ===== verification/_CoqProject ===== *)
-Q . S2P
Prelude.v
Csv.v
Frame.v
Filter.v
Daily.v
Resample.v
DayType.v
Calendar.v
Season.v
Dashboard.v
Missing.v
Loader.v
Page.v
