(* ===== verification/Prelude.v ===== *)
(** * A verified model of the bicycle-rental dashboard (src/dashboard.py)

    The program is one Streamlit script.  Each time the user touches the
    date-range widget, Streamlit re-runs the whole script, which
    - reads All_Data.csv, converts [dteday] to datetimes, sorts by [dteday]
      and takes the minimum and maximum date (lines 44-53);
    - reads the date-range widget, bounded by those dates, and unpacks it
      into [start_date, end_date] (lines 56-65);
    - keeps the rows whose date lies in the closed range (line 68);
    - resamples the kept rows per calendar day, summing [cnt]
      ([create_daily_orders_df], lines 14-29), and sums the result into
      the metric [total_orders] (line 75);
    - labels each kept row ['Weekday'] or ['Weekend'] from its [weekday]
      column and sums [cnt] per label ([create_weekday_weekend_df],
      lines 31-41);
    - builds a fixed four-row season table, maps season codes to labels
      and sorts it by count (lines 102-111), and places one value label
      beside each bar (lines 126-127).
    The charts themselves (seaborn, matplotlib) and the Streamlit widgets
    are library code: the model keeps what the script computes and hands
    to them (each [st.*] call as an element of the page, with the figures
    it passes), and the widget only as the values it can return.

    ** Library layout (each file opens with what it holds)
    - [Prelude] (this file): the [dash_scope] notations; pandas/numpy
      [int64] arithmetic with its wrap-around ([wrap64], [add64], [sum64]);
      sums of [Z] lists and their laws under permutation and filtering;
      the order on Python strings used when pandas sorts group keys; the
      [dash] hint database and the tactics the other files share.
    - [Csv]: the text of a CSV file as pandas' C tokenizer reads it: the
      state machine of [tokenizer.c] ([TokState], one [step] per
      character, [tokenize] with the end-of-input rule) for the default
      dialect (quotes, doubled quotes, LF / CR / CR LF line ends, blank
      lines skipped); a writer with minimal quoting; [str.split].
    - [Frame]: the data model.  A row of the dataset is the record [Row]
      with the columns the script reads ([dteday] as a day number,
      [weekday], [cnt]) and the column it adds ([day_type]); a DataFrame
      is a list of rows, in index order.  The class [Aggregation] is the
      interface between the aggregators and the script: an aggregation
      keeps the total of [cnt] and ignores the order of the rows.
    - [Filter]: the boolean mask of line 68 ([between_mask], [filter_range]).
    - [Daily]: [DataFrame.resample('D', on='dteday').agg({'cnt': 'sum'})]
      as pandas defines it (one bin per day from the first to the last
      date, empty bins summing to 0), and [create_daily_orders_df].
    - [Resample]: how pandas computes that resample: a stable mergesort by
      date and one walk over the bin edges ([resample_bins], an Equations
      definition by well-founded recursion on the days left).
    - [DayType]: the lambda of line 34 ([classify]), pandas'
      [groupby(key).sum()] with sorted keys ([groupby_sum]), and
      [create_weekday_weekend_df].
    - [Calendar]: [pd.to_datetime] on one ISO ["YYYY-MM-DD"] string
      (lines 16, 47): the parser, numpy's calendar C code
      ([get_datetimestruct_days], [set_datetimestruct_days],
      [is_leapyear]) transcribed with truncating division, and the
      nanosecond [Timestamp] bounds; errors as values of [DateError],
      with [FormatNotModelled] for a string of another form, which pandas
      may still parse.
    - [Season]: the fixed season table, [Series.map] with the dictionary,
      [sort_values] by count, and the bar labels.
    - [Dashboard]: one run of the script as a function of the dataset and
      the widget value ([run_script], with the unpacking of line 60 as an
      error path), and the first run of a session, with the widget at
      its default value [[min_date, max_date]].
    - [Missing]: lines 48-68 on a frame whose dates may be [NaT] (an
      empty [dteday] cell): [RawRow] with an [option Date], the sort with
      [NaT] rows last, [min]/[max] skipping [NaT], the mask of line 68
      dropping them, and [run_script_nat], the run on such a frame.
    - [Loader]: [pd.read_csv] (line 44) on the records of [Csv.tokenize]:
      the header, the field-count check with the implicit index of a
      first data line longer than the header, empty fields as [NaN],
      [int64] columns; the conversion of line 47 ([NaN] to [NaT]), and
      [run_file], the script from the file's
      text: the exceptions it raises ([AppError]) in the order the script
      meets them, in the sum monad of this file ([x ← m; k] on [E + A]).
    - [Page]: the page a run draws.  Each [st.*] call is an [Elem] (header,
      sidebar logo, date widget, metric, subheaders, figures with their
      bars, palette colours, value labels and titles); [dashboard] is the
      whole module body in [Page], a writer-and-exception monad whose
      exception stops the run and keeps what was drawn.

    ** What the theorems show
    - [Csv]: the tokenizer reads back every list of records the writer
      writes with LF or CR LF line ends, quoted fields with delimiters,
      quotes and line ends inside them included (round trip), numbering
      the lines; a CR LF file reads as its LF version; on text without
      quotes it is [str.split] on lines and fields; a quote left open
      stops it with the records before it and the EOF error.
    - [Prelude]: [sum64] is [wrap64] of the exact sum, hence invariant under
      permutation and additive over a partition of the rows by key
      ([sum64_partition]); it is the exact sum exactly when the exact sum
      fits in [int64] ([sum64_exact_iff]).
    - [Filter]: the result is the sub-sequence of the rows in range; the
      full span returns the frame unchanged; a one-day range keeps that day;
      a range before the data selects nothing.
    - [Daily]: the [i]-th row of the table is day [lo + i] with its sum, so
      the table is contiguous and ascending and fills days without rows with
      0 (a divergence from the spec); the totals partition the sum of [cnt].
    - [DayType]: the exact shape of the table (a ['Weekday'] row if some
      row has [weekday < 5], then a ['Weekend'] row if some row has
      [weekday >= 5]); one row only when one kind of day is present (a
      divergence from the spec); classification of 0..6; partition.
    - [Season]: any sorted permutation equals the merge-sorted table when
      counts are distinct (so pandas' unstable quicksort draws the same
      chart); the highlighted bar has the largest count; each label sits at
      its bar and reads back as its value.
    - [Resample]: the single pass equals [create_daily_orders_df] on every
      frame.
    - [Calendar]: every day of the [Timestamp] range prints and parses
      back to itself; non-dates and dates of years outside 1677..2262
      take the error paths; the rule [x >= 5] of line 34 marks Friday and Saturday as weekend
      under the UCI data's Sunday-first numbering (a spec gap).
    - [Dashboard]: the loader sorts a permutation of the rows; the metric
      is the sum of [cnt] over the selected range and equals the
      weekday/weekend total; the untouched widget shows the whole dataset; a
      reversed range shows empty tables; the view does not depend on the
      row order; a one-date widget value, which [st.date_input] returns
      while the user has picked only the start of a range, raises the
      unpacking error (a bug).
    - [Missing]: the sort of line 48 keeps every row, orders the dated
      rows by date and puts the [NaT] rows last in their order; the run
      on a frame with [NaT] rows is the run on its dated rows.
    - [Loader]: a file written from well-formed rows, empty dates
      included, loads back as those rows, and the script on that file is
      [run_script] on the rows that have a date (refinement; a silent
      drop of undated rows the spec's loader contract does not allow); a file whose data lines carry an unnamed index column
      loads as the same rows (implicit index, dropped by line 49); a line
      longer than the header
      and the first data line raises [ParserError] at the first such
      line; a quote never closed raises the EOF [ParserError]; a file
      whose count column is not named [cnt] loads, with its dates and
      weekdays, and the run on it raises [KeyError: 'cnt'] only at line
      71, after the widget (a divergence from the spec's loader
      contract).
    - [Page]: what the page shows above each exception; the day-type chart colours its
      bars by position, so a weekend-only range draws Weekend in the
      Weekday colour (a divergence from the comment of line 82).

    The claimed properties are numbered C1..C30 in their doc comments; a
    witness lemma after each group applies the hypothesised ones to the
    spec's two-row example, the season table or a small file.
    Some facts first stated as claims are now helper lemmas the claims
    use ([py_str_int_roundtrip], the [str.split] round trip), or are
    special cases of a claim kept as lemmas ([sort_by_date_spec],
    [filter_range_before_min], [filter_range_single_day], the spec's
    example [spec_example]).

    ** Choices of representation
    Dates are day numbers ([Z], days since 1970-01-01): the dataset's
    [dteday] has no time part, so a datetime64 value at midnight and its
    day number carry the same information and compare the same way.
    Integer columns are [Z] kept at the [int64] width: every sum the script
    takes goes through [sum64], which wraps modulo 2^64 as numpy does.
    No function needs fuel: all are structural except [resample_bins],
    defined by well-founded recursion on [hi - d + 1] with its equations.
    The calendar code is checked, not re-derived: the round trip of
    [set_datetimestruct_days] and [get_datetimestruct_days] is evaluated
    by [vm_compute] on each of the 213,503 days a [Timestamp] holds
    (-106751 .. 106751, i.e. 1677-09-22 .. 2262-04-11), and the year
    recurrence of [year_offset_days] on each year 0..9999, the years a
    four-digit string can name; the theorems need no day or year beyond
    these ranges, so the checks are exhaustive for them.

    ** Not modelled
    Of [pd.read_csv]: options other than the defaults the script uses
    (escape and comment characters, [skipinitialspace], other
    delimiters), a byte-order mark, duplicate column names (pandas renames
    them), blanks around numbers, the chunked reading of large files
    ([low_memory], replaced here by one pass over the whole text), and
    the frames pandas goes on with when a [weekday] or [cnt] cell is
    [NaN] or not an [int64] literal (a float64 or object column, whose
    sums would need floating-point arithmetic; the model stops with
    [NotModelled]); of [pd.to_datetime]: formats other than YYYY-MM-DD
    (a time part, unpadded fields, other separators or order, which
    pandas may infer and parse: [to_datetime] returns [FormatNotModelled]
    and the loader [NotModelled], claiming neither a date nor an error)
    and integer columns (read as nanoseconds since the epoch).
    Rendering itself: pixels, font sizes, tick styling and
    [sns.set(style='dark')] (the model keeps the calls and the data,
    titles, labels and colours they receive, not the drawing); the row
    index labels (no computation of the script reads them); the widget's
    interaction beyond the values it returns (each re-run Streamlit makes
    when the widget changes is [run_script] on the new value); and what Streamlit does
    with the [NaT] bounds of an empty dataset (the model stops that run
    with [NoDates]).

    ** Plan for the next revisions
    1. [Loader]: [NaN] cells of [weekday] and [cnt] as float64 columns,
       with the float sums of pandas, so that the run on such a file is
       modelled instead of stopped.
    2. [Dashboard]: Streamlit's own checks of the widget value (a default
       outside [min_value, max_value] raises), composed with [run_file].
    3. Bounds: a dataset of at most 2^32 rows with [0 <= cnt < 2^31]
       never wraps (an instance of [sum64_exact_iff] for the metric). *)

From Stdlib Require Import ZArith Lia List String OrdersEx.
From stdpp Require Import base list sorting.
Import ListNotations.

Declare Scope dash_scope.
Delimit Scope dash_scope with dash.
Open Scope Z_scope.

(** ** numpy [int64] arithmetic *)

(** Half of the [int64] range: the values are [-half64 <= z < half64]. *)
Definition half64 : Z := 2 ^ 63.
Definition modulus64 : Z := 2 ^ 64.

(** Two's-complement wrap-around of an exact integer to [int64]. *)
Definition wrap64 (z : Z) : Z := (z + half64) mod modulus64 - half64.

(** [a + b] on two [int64] values, as numpy adds them. *)
Definition add64 (a b : Z) : Z := wrap64 (a + b).

Infix "+64" := add64 (at level 50, left associativity) : dash_scope.
Open Scope dash_scope.

(** [Series.sum()] / [ndarray.sum()] on an [int64] column: a left fold of
    [+64] from 0. *)
Definition sum64 (l : list Z) : Z := fold_left add64 l 0.

Definition int64_ok (z : Z) : bool := (- half64 <=? z) && (z <? half64).

(** The exact sum, the reference the wrapped sums are compared with. *)
Definition sumZ (l : list Z) : Z := fold_right Z.add 0 l.

(** The rows of a list whose key is [k], in order: one group of a
    [groupby] or one bin of a [resample]. *)
Definition part {A K} `{EqDecision K} (key : A -> K) (k : K) (l : list A) : list A :=
  List.filter (fun x => bool_decide (key x = k)) l.

(** A bounded check: [f] holds at the [n] integers from [lo].  The
    components prove facts on a finite range of integers (the dates a
    pandas [Timestamp] can hold, the four-digit years) by evaluating it. *)
Fixpoint check_from (f : Z -> bool) (lo : Z) (n : nat) : bool :=
  match n with
  | O => true
  | S n' => f lo && check_from f (lo + 1) n'
  end.

(** ** Raised exceptions as values

    Code that may raise is modelled as a function into [E + A]: [inl e] is
    the exception [e] and [inr a] the value.  [sum E] is a monad, so the
    stdpp notation [x ← m; k] sequences such steps and [mapM] is a loop
    that stops at the first exception. *)

#[export] Instance sum_ret {E} : MRet (sum E) := fun A a => inr a.
#[export] Instance sum_bind {E} : MBind (sum E) :=
  fun A B f m => match m with inl e => inl e | inr a => f a end.

(** ** Python's order on strings, as pandas sorts group keys *)

Definition str_le (a b : string) : Prop := String_as_OT.compare a b <> Gt.

#[export] Instance str_le_dec : RelDecision str_le.
Proof. intros a b. unfold str_le. apply _. Defined.

(** ** Lemmas on [wrap64] *)

Lemma half64_modulus : modulus64 = 2 * half64.
Proof. reflexivity. Qed.

Lemma wrap64_range z : - half64 <= wrap64 z < half64.
Proof.
  unfold wrap64. pose proof (Z.mod_pos_bound (z + half64) modulus64).
  rewrite half64_modulus in *. unfold half64 in *. lia.
Qed.

Lemma wrap64_small z : - half64 <= z < half64 -> wrap64 z = z.
Proof.
  intros Hz. unfold wrap64. rewrite Z.mod_small.
  - lia.
  - rewrite half64_modulus. lia.
Qed.

Lemma wrap64_add_wrap_l a b : wrap64 (wrap64 a + b) = wrap64 (a + b).
Proof.
  unfold wrap64. f_equal.
  replace ((a + half64) mod modulus64 - half64 + b + half64)
    with ((a + half64) mod modulus64 + b) by lia.
  rewrite Z.add_mod_idemp_l by (unfold modulus64; lia). f_equal. lia.
Qed.

Lemma wrap64_add_wrap_r a b : wrap64 (a + wrap64 b) = wrap64 (a + b).
Proof. rewrite Z.add_comm, wrap64_add_wrap_l, Z.add_comm. reflexivity. Qed.

(** Wrapping an intermediate result of an [int64] addition chain changes
    nothing: the rewrite base [wrap_rw] pushes every inner [wrap64] out. *)
Create Rewrite HintDb wrap_rw.
#[export] Hint Rewrite wrap64_add_wrap_l wrap64_add_wrap_r : wrap_rw.

Ltac wrap_simp := unfold add64 in *; autorewrite with wrap_rw.

Lemma wrap64_0 : wrap64 0 = 0.
Proof. reflexivity. Qed.

(** ** Lemmas on [sumZ] *)

Lemma sumZ_app l1 l2 : sumZ (l1 ++ l2) = sumZ l1 + sumZ l2.
Proof. induction l1; simpl; lia. Qed.

Lemma sumZ_perm l1 l2 : Permutation l1 l2 -> sumZ l1 = sumZ l2.
Proof. induction 1; simpl; lia. Qed.

#[export] Instance sumZ_proper : Proper (Permutation ==> eq) sumZ.
Proof. intros ???. by apply sumZ_perm. Qed.

Lemma sumZ_nonneg l : Forall (fun z => 0 <= z) l -> 0 <= sumZ l.
Proof. induction 1; simpl; lia. Qed.

(** A sum over a list is the sum over the part a test keeps plus the sum
    over the part it rejects. *)
Lemma sumZ_filter_split {A} (p : A -> bool) (f : A -> Z) (l : list A) :
  sumZ (map f l) =
  sumZ (map f (List.filter p l)) + sumZ (map f (List.filter (fun x => negb (p x)) l)).
Proof. induction l as [|x l IH]; simpl; [done|]. destruct (p x); simpl; lia. Qed.

(** ** Lemmas on Python's list filters ([List.filter]) *)

Lemma Permutation_list_filter {A} (p : A -> bool) l1 l2 :
  Permutation l1 l2 -> Permutation (List.filter p l1) (List.filter p l2).
Proof.
  induction 1 as [|x l1 l2 _ IH|x y l|l1 l2 l3 _ IH1 _ IH2]; simpl.
  - done.
  - destruct (p x); [by constructor|done].
  - destruct (p x), (p y); try constructor; done.
  - by etrans.
Qed.

#[export] Instance list_filter_proper {A} (p : A -> bool) :
  Proper (Permutation ==> Permutation) (List.filter p).
Proof. intros ???. by apply Permutation_list_filter. Qed.

Lemma list_filter_filter {A} (p q : A -> bool) l :
  List.filter p (List.filter q l) = List.filter (fun x => q x && p x) l.
Proof. induction l as [|x l IH]; simpl; [done|]. destruct (q x); simpl; [destruct (p x)|]; by rewrite IH. Qed.

Lemma NoDup_map_injective {A B} (f : A -> B) (l : list A) :
  (forall x y, f x = f y -> x = y) -> NoDup l -> NoDup (map f l).
Proof.
  intros Hinj. induction 1 as [|x l Hx _ IH]; simpl; constructor; [|done].
  rewrite list_elem_of_In, in_map_iff. intros (y & Hy & Hin).
  apply Hx, list_elem_of_In. by rewrite <- (Hinj _ _ Hy).
Qed.

Lemma nth_error_combine_both {A B} (l1 : list A) (l2 : list B) i :
  nth_error (combine l1 l2) i =
  match nth_error l1 i, nth_error l2 i with Some a, Some b => Some (a, b) | _, _ => None end.
Proof.
  revert l2 i. induction l1 as [|x l1 IH]; intros [|y l2] [|i]; simpl; try done.
  - by destruct (nth_error l1 i).
Qed.

Lemma check_from_spec f lo n :
  check_from f lo n = true -> forall x, lo <= x < lo + Z.of_nat n -> f x = true.
Proof.
  revert lo. induction n as [|n IH]; intros lo; simpl; [lia|].
  intros [Hf Hr]%andb_prop x Hx.
  destruct (Z.eqb_spec x lo) as [->|Hne]; [done|]. apply (IH (lo + 1)); [done|lia].
Qed.

(** ** Lemmas on [sum64] *)

Lemma fold_add64_wrap l a : fold_left add64 l (wrap64 a) = wrap64 (a + sumZ l).
Proof.
  revert a. induction l as [|x l IH]; intros a; simpl.
  - by rewrite Z.add_0_r.
  - wrap_simp. rewrite IH. f_equal. lia.
Qed.

(** numpy's wrapped sum is the exact sum wrapped once. *)
Lemma sum64_spec l : sum64 l = wrap64 (sumZ l).
Proof. unfold sum64. rewrite <- wrap64_0. apply fold_add64_wrap. Qed.

Lemma sum64_perm l1 l2 : Permutation l1 l2 -> sum64 l1 = sum64 l2.
Proof. intros H. rewrite !sum64_spec. by rewrite H. Qed.

#[export] Instance sum64_proper : Proper (Permutation ==> eq) sum64.
Proof. intros ???. by apply sum64_perm. Qed.

Lemma sum64_app l1 l2 : sum64 (l1 ++ l2) = sum64 l1 +64 sum64 l2.
Proof.
  rewrite !sum64_spec, sumZ_app. by wrap_simp.
Qed.

Lemma sum64_nil : sum64 [] = 0.
Proof. reflexivity. Qed.

Lemma sum64_cons x l : sum64 (x :: l) = x +64 sum64 l.
Proof.
  rewrite !sum64_spec. simpl. by wrap_simp.
Qed.

(** Summing already-wrapped partial sums gives the wrapped exact total. *)
Lemma sum64_map_sum64 {A} (g : A -> list Z) (l : list A) :
  sum64 (map (fun x => sum64 (g x)) l) = wrap64 (sumZ (map (fun x => sumZ (g x)) l)).
Proof.
  induction l as [|x l IH]; simpl; [done|].
  rewrite sum64_cons, IH, sum64_spec. by wrap_simp.
Qed.

Lemma sum64_range l : - half64 <= sum64 l < half64.
Proof. rewrite sum64_spec. apply wrap64_range. Qed.

(** No overflow: when every element is non-negative and the exact total
    fits below 2^63, numpy's sum is the exact sum. *)
Lemma sum64_exact l :
  Forall (fun z => 0 <= z) l -> sumZ l < half64 -> sum64 l = sumZ l.
Proof.
  intros Hpos Hlt. rewrite sum64_spec. apply wrap64_small.
  pose proof (sumZ_nonneg l Hpos). unfold half64 in *. lia.
Qed.

(** ** Sums over a partition by key

    The aggregations of the script split the rows by a key (a calendar
    day, a day type) and sum each part.  When the keys enumerated are
    distinct and cover the key of every row, the parts sum to the whole. *)

Section Partition.
Context {A K : Type} `{EqDecision K} (key : A -> K) (f : A -> Z).

Lemma part_perm k l1 l2 : Permutation l1 l2 -> Permutation (part key k l1) (part key k l2).
Proof. apply Permutation_list_filter. Qed.

Lemma part_absent k l : (forall x, In x l -> key x <> k) -> part key k l = [].
Proof.
  intros H. induction l as [|x l IH]; simpl; [done|].
  rewrite bool_decide_eq_false_2 by (apply H; by left).
  apply IH. intros y Hy. apply H. by right.
Qed.

Lemma part_map (g : A -> A) k l :
  (forall x, key (g x) = key x) -> part key k (map g l) = map g (part key k l).
Proof.
  intros Hg. induction l as [|x l IH]; simpl; [done|]. rewrite Hg.
  destruct (bool_decide (key x = k)); simpl; by rewrite IH.
Qed.

Lemma part_other k k' l :
  k' <> k -> part key k' (List.filter (fun x => negb (bool_decide (key x = k))) l) = part key k' l.
Proof.
  intros Hne. unfold part. rewrite list_filter_filter. apply List.filter_ext.
  intros x. cbn beta. destruct (decide (key x = k)) as [E|E].
  - rewrite (bool_decide_eq_true_2 _ E), bool_decide_eq_false_2; [done|congruence].
  - by rewrite (bool_decide_eq_false_2 _ E).
Qed.

Lemma sumZ_partition (ks : list K) (l : list A) :
  NoDup ks -> (forall x, In x l -> In (key x) ks) ->
  sumZ (map (fun k => sumZ (map f (part key k l))) ks) = sumZ (map f l).
Proof.
  intros Hnd. revert l. induction Hnd as [|k ks Hk Hnd IH]; intros l Hcov; simpl.
  - destruct l as [|x l]; [done|]. destruct (Hcov x); by left.
  - rewrite (sumZ_filter_split (fun x => bool_decide (key x = k)) f l). f_equal.
    rewrite <- IH.
    + f_equal. apply map_ext_in. intros k' Hk'. rewrite part_other; [done|]. intros ->. by apply Hk, list_elem_of_In.
    + intros x Hx. apply filter_In in Hx as [Hx Hne].
      destruct (Hcov x Hx) as [E|?]; [|done].
      rewrite (bool_decide_eq_true_2 _ (eq_sym E)) in Hne. discriminate.
Qed.

Lemma sum64_partition (ks : list K) (l : list A) :
  NoDup ks -> (forall x, In x l -> In (key x) ks) ->
  sum64 (map (fun k => sum64 (map f (part key k l))) ks) = sum64 (map f l).
Proof.
  intros Hnd Hcov. by rewrite sum64_map_sum64, sumZ_partition, sum64_spec.
Qed.
End Partition.

(** C11. numpy's [int64] sum is the exact sum precisely when the exact
    sum lies in the [int64] range; outside it, the sum has wrapped around. *)
Theorem sum64_exact_iff l : sum64 l = sumZ l <-> - half64 <= sumZ l < half64.
Proof.
  rewrite sum64_spec. split.
  - intros <-. apply wrap64_range.
  - apply wrap64_small.
Qed.

(** ** Lemmas on the error monad *)

Lemma sum_bind_inr {E A B} (m : E + A) (k : A -> E + B) b :
  (x ← m; k x) = inr b <-> exists a, m = inr a /\ k a = inr b.
Proof.
  destruct m as [e|a]; simpl; split.
  - done.
  - intros (? & ? & _). done.
  - eauto.
  - intros (? & [= ->] & ?). done.
Qed.

Lemma sum_bind_inl {E A B} (m : E + A) (k : A -> E + B) e :
  (x ← m; k x) = inl e <-> m = inl e \/ exists a, m = inr a /\ k a = inl e.
Proof.
  destruct m as [e'|a]; simpl; split.
  - intros [= ->]. by left.
  - intros [?|(? & ? & _)]; congruence.
  - eauto.
  - intros [?|(? & [= ->] & ?)]; congruence.
Qed.

Section ErrorMonad.
Context {E A B : Type}.
Implicit Types (f : A -> E + B) (l : list A).

Lemma mapM_nil f : mapM f [] = inr [].
Proof. reflexivity. Qed.

Lemma mapM_cons f a l : mapM f (a :: l) = (b ← f a; bs ← mapM f l; inr (b :: bs)).
Proof. reflexivity. Qed.

Lemma mapM_inr f l bs : mapM f l = inr bs <-> Forall2 (fun a b => f a = inr b) l bs.
Proof.
  revert bs. induction l as [|a l IH]; intros bs; [rewrite mapM_nil|rewrite mapM_cons].
  - split; [intros [= <-]; constructor|intros H; inversion H; done].
  - rewrite sum_bind_inr. split.
    + intros (b & Hb & Hk). apply sum_bind_inr in Hk as (bs' & Hbs & [= <-]).
      constructor; [done|]. by apply IH.
    + intros H. inversion H as [|? b ? bs' Hb Hbs]; subst. exists b. split; [done|].
      apply sum_bind_inr. exists bs'. split; [by apply IH|done].
Qed.

(** The loop stops at the first element that raises. *)
Lemma mapM_inl f l e :
  mapM f l = inl e <->
  exists l1 a l2, l = l1 ++ a :: l2 /\ Forall (fun x => exists b, f x = inr b) l1 /\ f a = inl e.
Proof.
  induction l as [|a l IH]; [rewrite mapM_nil|rewrite mapM_cons].
  - split; [done|]. intros ([|] & ? & ? & ? & _); done.
  - rewrite sum_bind_inl. split.
    + intros [Ha|(b & Hb & Hk)]; [exists [], a, l; split; [done|split; [constructor|done]]|].
      apply sum_bind_inl in Hk as [Hk|(? & _ & [=])].
      apply IH in Hk as (l1 & a' & l2 & -> & Hl1 & Ha').
      exists (a :: l1), a', l2. split; [done|]. split; [constructor; eauto|done].
    + intros ([|a1 l1] & a' & l2 & Heq & Hl1 & Ha'); simpl in Heq; injection Heq as <- ->; [by left|].
      inversion Hl1 as [|? ? [b Hb] Hl1']; subst. right. exists b. split; [done|].
      apply sum_bind_inl. left. apply IH. by exists l1, a', l2.
Qed.

(** A loop over [map g l] that succeeds on every element. *)
Lemma mapM_map_inr {C} f (g : C -> A) (h : C -> B) (l : list C) :
  (forall x, In x l -> f (g x) = inr (h x)) -> mapM f (map g l) = inr (map h l).
Proof.
  intros H. apply mapM_inr. induction l as [|x l IH]; simpl; constructor.
  - apply H. by left.
  - apply IH. intros y Hy. apply H. by right.
Qed.

(** Every element succeeds, so the whole map does. *)
Lemma mapM_Forall_inr f l : Forall (fun a => exists b, f a = inr b) l -> exists bs, mapM f l = inr bs.
Proof.
  induction 1 as [|a l (b & Hb) _ (bs & Hbs)]; [by exists []|].
  exists (b :: bs). by rewrite mapM_cons, Hb, Hbs.
Qed.

Lemma mapM_inr_Forall f l bs (P : B -> Prop) :
  mapM f l = inr bs -> (forall a b, f a = inr b -> P b) -> Forall P bs.
Proof. intros H%mapM_inr HP. induction H; constructor; eauto. Qed.

Lemma mapM_length f l bs : mapM f l = inr bs -> length bs = length l.
Proof. intros H%mapM_inr. symmetry. by eapply Forall2_length. Qed.

End ErrorMonad.

(** ** Lemmas on [combine] *)

Section Combine.
Context {A B C : Type}.

(** Pairing with the second components of a second pairing. *)
Lemma combine_combine_snd (l1 : list A) (l2 : list B) (l3 : list C) :
  length l2 = length l3 -> map (fun p => (fst p, snd (snd p))) (combine l1 (combine l2 l3)) = combine l1 l3.
Proof.
  revert l2 l3. induction l1 as [|a l1 IH]; intros [|b l2] [|c l3] H; simpl in *; try done.
  f_equal. apply IH. lia.
Qed.

Lemma combine_map_r (l1 : list A) (l2 : list B) (g : B -> C) :
  combine l1 (map g l2) = map (fun p => (fst p, g (snd p))) (combine l1 l2).
Proof. revert l2. induction l1 as [|a l1 IH]; intros [|b l2]; simpl; f_equal; auto. Qed.

Lemma combine_map_map (l : list A) (f : A -> B) (g : A -> C) :
  combine (map f l) (map g l) = map (fun x => (f x, g x)) l.
Proof. induction l; simpl; f_equal; auto. Qed.

Lemma map_snd_combine (l1 : list A) (l2 : list B) :
  length l1 = length l2 -> map snd (combine l1 l2) = l2.
Proof. revert l2. induction l1 as [|a l1 IH]; intros [|b l2] H; simpl in *; try done. f_equal. auto. Qed.

Lemma combine_app (l1 l1' : list A) (l2 l2' : list B) :
  length l1 = length l2 -> combine (l1 ++ l1') (l2 ++ l2') = combine l1 l2 ++ combine l1' l2'.
Proof. revert l2. induction l1 as [|a l1 IH]; intros [|b l2] H; simpl in *; try done. f_equal. auto. Qed.

Lemma zip_with_map_map {D} (f : B -> C -> D) (g : A -> B) (h : A -> C) (l : list A) :
  zip_with f (map g l) (map h l) = map (fun x => f (g x) (h x)) l.
Proof. induction l; simpl; f_equal; auto. Qed.

End Combine.

Lemma filter_all_true {A} (f : A -> bool) (l : list A) :
  (forall x, In x l -> f x = true) -> List.filter f l = l.
Proof. induction l as [|x l IH]; intros H; simpl; [done|]. rewrite H by (by left). f_equal. auto with datatypes. Qed.

(** ** Lemmas on the string order *)

Lemma str_compare_cases a b :
  String_as_OT.compare a b = Eq /\ a = b \/
  String_as_OT.compare a b = Lt /\ String_as_OT.lt a b \/
  String_as_OT.compare a b = Gt /\ String_as_OT.lt b a.
Proof. destruct (String_as_OT.compare_spec a b); auto. Qed.

Lemma str_le_iff a b : str_le a b <-> String_as_OT.lt a b \/ a = b.
Proof.
  unfold str_le. pose proof String_as_OT.lt_strorder as [Hirr _].
  destruct (str_compare_cases a b) as [[-> ->]|[[-> Hl]|[-> Hl]]];
    split; intros H; auto; try congruence.
  exfalso. destruct H as [H| ->]; eapply Hirr; [etrans|]; eauto.
Qed.

#[export] Instance str_le_trans : Transitive str_le.
Proof.
  intros a b c. rewrite !str_le_iff.
  pose proof String_as_OT.lt_strorder as [_ Htr].
  intros [Hab| ->] [Hbc| ->]; auto. left. etrans; eauto.
Qed.

#[export] Instance str_le_total : Total str_le.
Proof.
  intros a b. rewrite !str_le_iff.
  destruct (str_compare_cases a b) as [[_ ->]|[[_ Hl]|[_ Hl]]]; auto.
Qed.

Lemma str_le_antisym a b : str_le a b -> str_le b a -> a = b.
Proof.
  rewrite !str_le_iff. pose proof String_as_OT.lt_strorder as [Hirr _].
  intros [Hab| ->] [Hba| ?]; auto. exfalso. eapply Hirr. etrans; eauto.
Qed.

#[export] Instance str_le_antisymm : AntiSymm eq str_le.
Proof. intros a b. apply str_le_antisym. Qed.

(** ** Automation shared by the components *)

Create HintDb dash discriminated.
Create Rewrite HintDb dash_rw.
#[export] Hint Rewrite sum64_app sum64_cons sum64_nil sumZ_app : dash_rw.
#[export] Hint Resolve sum64_range wrap64_range sumZ_nonneg : dash.

(** Turn the boolean comparisons the code makes on [Z] into propositions. *)
Ltac zbool :=
  repeat match goal with
  | H : (_ <=? _) = true |- _ => apply Z.leb_le in H
  | H : (_ <=? _) = false |- _ => apply Z.leb_gt in H
  | H : (_ <? _) = true |- _ => apply Z.ltb_lt in H
  | H : (_ <? _) = false |- _ => apply Z.ltb_ge in H
  | H : (_ =? _) = true |- _ => apply Z.eqb_eq in H
  | H : (_ =? _) = false |- _ => apply Z.eqb_neq in H
  | H : (_ && _) = true |- _ => apply andb_prop in H as [? ?]
  end.

(** Case on every boolean comparison of the goal and close what [lia] can. *)
Ltac zcase :=
  repeat match goal with
  | |- context [?a <=? ?b] => destruct (Z.leb_spec a b)
  | |- context [?a <? ?b] => destruct (Z.ltb_spec a b)
  | |- context [?a =? ?b] => destruct (Z.eqb_spec a b)
  end; simpl; try reflexivity; try lia.

(** Run the steps of the error monad whose value is known. *)
Ltac bind_simp := cbn [mbind sum_bind].

(** Arithmetic with division and remainder by constants (digits of a
    printed number): [lia] after naming quotients and remainders. *)
Ltac zdiv := Z.div_mod_to_equations; lia.
