(* ===== verification/Csv.v ===== *)
(** * The text of a CSV file: pandas' C tokenizer (line 44)

    [pd.read_csv] cuts the file into records and fields with a state
    machine (pandas' [tokenizer.c], [tokenize_bytes]) before any column is
    typed.  [step] is one character of that machine for the default
    dialect: delimiter [','], the double quote as quote character, doubled
    inside quoted fields, line ends LF, CR and CR LF, no escape
    or comment character, [skip_blank_lines=True] (an empty line, or one
    of spaces and tabs only, is skipped).  Its state is the record
    [Tokenizer]: the machine state of [tokenizer.c] ([TokState]), the
    field and record being read, the records read with the number of the
    line that ends each, and the count of lines ([file_lines]).  Line
    ends inside a quoted field belong to the field and are not counted.
    [tokenize] runs the machine over the text ([run]) and handles the end
    of the input ([parser_handle_eof]): the records read, and the error
    of a quoted field still open at the end ("EOF inside string").

    The writer [write_records_with] is a CSV writer with minimal quoting, as
    Python's [csv] module and [DataFrame.to_csv] write: a field holding a
    delimiter, a quote or a line end is quoted with its quotes doubled,
    a record made of one empty field is written as two quotes, and each
    record is ended by LF or CR LF.  [split_on] is
    [str.split], the splitting a file without quotes reduces to.

    The theorems: [str.split] and joining are inverse; the tokenizer reads
    back every list of records the writer writes, with LF or CR LF line
    ends (except a record that is empty or a single field of blanks,
    which the reader skips as a blank line); a file with CR LF line ends
    reads as the same file with LF; a quote left open ends the text with
    the records before it and the EOF error;
    on text without quotes or carriage returns it splits lines at LF and
    fields at [','], numbering the lines. *)

From Stdlib Require Import ZArith Lia List String Ascii Btauto.
From stdpp Require Import base list.
From S2P Require Import Prelude.
Import ListNotations.

Module Csv.

(** ** Characters *)

Definition newline : ascii := "010"%char.
Definition cr : ascii := "013"%char.
Definition quote_char : ascii := "034"%char.

(** [IS_WHITESPACE]: a space or a tab. *)
Definition is_ws (c : ascii) : bool := Ascii.eqb c " " || Ascii.eqb c "009".

Fixpoint has_char (c : ascii) (s : string) : bool :=
  match s with
  | EmptyString => false
  | String c' s' => Ascii.eqb c' c || has_char c s'
  end.

(** A line of blanks only (the empty line included). *)
Fixpoint all_ws (s : string) : bool :=
  match s with
  | EmptyString => true
  | String c s' => is_ws c && all_ws s'
  end.

(** A character with no meaning to the tokenizer inside a field. *)
Definition plain_char (c : ascii) : bool :=
  negb (Ascii.eqb c newline || Ascii.eqb c cr || Ascii.eqb c quote_char || Ascii.eqb c ",").

Fixpoint plain_field (s : string) : bool :=
  match s with
  | EmptyString => true
  | String c s' => plain_char c && plain_field s'
  end.

(** ** [str.split] *)

(** [s.split(sep)]: the pieces between the separators, at least one. *)
Fixpoint split_on (sep : ascii) (s : string) : list string :=
  match s with
  | EmptyString => [EmptyString]
  | String c s' =>
      match split_on sep s' with
      | [] => [String c EmptyString]
      | f :: fs => if Ascii.eqb c sep then EmptyString :: f :: fs else String c f :: fs
      end
  end.

(** ** The tokenizer *)

(** The states of [tokenizer.c] the default dialect reaches;
    [WhitespaceLine] keeps the blanks read so far, which are read again
    as the start of the record when the line is not blank. *)
Inductive TokState :=
  | StartRecord
  | WhitespaceLine (pending : string)
  | StartField
  | InField
  | InQuotedField
  | QuoteInQuotedField
  | EatCrnl
  | EatCrnlNop.

Record Tokenizer := mkTok {
  tok_state : TokState;
  tok_field : string;
  tok_fields : list string;
  tok_records : list (nat * list string);
  tok_lines : nat
}.

Definition tok_init : Tokenizer := mkTok StartRecord EmptyString [] [] 0.

Definition set_state (s : TokState) (t : Tokenizer) : Tokenizer :=
  mkTok s (tok_field t) (tok_fields t) (tok_records t) (tok_lines t).

(** [PUSH_CHAR]. *)
Definition push (c : ascii) (t : Tokenizer) : Tokenizer :=
  mkTok (tok_state t) (tok_field t ++ String c EmptyString)%string (tok_fields t) (tok_records t) (tok_lines t).

(** [END_FIELD]. *)
Definition end_field (t : Tokenizer) : Tokenizer :=
  mkTok (tok_state t) EmptyString (tok_fields t ++ [tok_field t]) (tok_records t) (tok_lines t).

(** [END_LINE]: the record ends on line [file_lines + 1]. *)
Definition end_line (t : Tokenizer) : Tokenizer :=
  mkTok (tok_state t) (tok_field t) [] (tok_records t ++ [(S (tok_lines t), tok_fields t)]) (S (tok_lines t)).

(** A skipped blank line still counts. *)
Definition skip_line (t : Tokenizer) : Tokenizer :=
  mkTok (tok_state t) (tok_field t) (tok_fields t) (tok_records t) (S (tok_lines t)).

(** The states inside a record. *)
Definition step_field (t : Tokenizer) (c : ascii) : Tokenizer :=
  match tok_state t with
  | StartField =>
      if Ascii.eqb c newline then set_state StartRecord (end_line (end_field t))
      else if Ascii.eqb c cr then set_state EatCrnl (end_field t)
      else if Ascii.eqb c quote_char then set_state InQuotedField t
      else if Ascii.eqb c "," then end_field t
      else set_state InField (push c t)
  | InField =>
      if Ascii.eqb c newline then set_state StartRecord (end_line (end_field t))
      else if Ascii.eqb c cr then set_state EatCrnl (end_field t)
      else if Ascii.eqb c "," then set_state StartField (end_field t)
      else push c t
  | InQuotedField =>
      if Ascii.eqb c quote_char then set_state QuoteInQuotedField t else push c t
  | QuoteInQuotedField =>
      if Ascii.eqb c quote_char then set_state InQuotedField (push c t)
      else if Ascii.eqb c "," then set_state StartField (end_field t)
      else if Ascii.eqb c newline then set_state StartRecord (end_line (end_field t))
      else if Ascii.eqb c cr then set_state EatCrnl (end_field t)
      else set_state InField (push c t)
  | _ => t
  end.

(** [START_RECORD]: skip blank lines, else start the first field. *)
Definition step_record (t : Tokenizer) (c : ascii) : Tokenizer :=
  if Ascii.eqb c newline then skip_line t
  else if Ascii.eqb c cr then set_state EatCrnlNop (skip_line t)
  else if is_ws c then set_state (WhitespaceLine (String c EmptyString)) t
  else step_field (set_state StartField t) c.

(** One character of [tokenize_bytes]. *)
Definition step (t : Tokenizer) (c : ascii) : Tokenizer :=
  match tok_state t with
  | StartRecord => step_record t c
  | WhitespaceLine w =>
      if Ascii.eqb c newline then set_state StartRecord (skip_line t)
      else if Ascii.eqb c cr then set_state EatCrnlNop (skip_line t)
      else if is_ws c then set_state (WhitespaceLine (w ++ String c EmptyString)%string) t
      else fold_left step_field (list_ascii_of_string (w ++ String c EmptyString)%string)
                     (set_state StartField t)
  | EatCrnl =>
      if Ascii.eqb c newline then set_state StartRecord (end_line t)
      else if Ascii.eqb c "," then set_state StartField (end_field (end_line t))
      else step_record (set_state StartRecord (end_line t)) c
  | EatCrnlNop =>
      if Ascii.eqb c newline || Ascii.eqb c "," then set_state StartRecord t
      else step_record (set_state StartRecord t) c
  | _ => step_field t c
  end.

(** The error of the tokenizer: the text ends inside a quoted field. *)
Inductive TokError := EofInString (line : nat).

(** The end of the input ([parser_handle_eof]): the records, and the
    error if a quoted field is still open (reported with the count of
    lines read before it). *)
Definition finish (t : Tokenizer) : list (nat * list string) * option TokError :=
  match tok_state t with
  | StartRecord | WhitespaceLine _ | EatCrnlNop => (tok_records t, None)
  | InQuotedField => (tok_records t, Some (EofInString (tok_lines t)))
  | StartField | InField | QuoteInQuotedField => (tok_records (end_line (end_field t)), None)
  | EatCrnl => (tok_records (end_line t), None)
  end.

(** The machine over a text. *)
Definition run (t : Tokenizer) (s : string) : Tokenizer :=
  fold_left step (list_ascii_of_string s) t.

(** The records of a text, each with the number of its last line. *)
Definition tokenize (text : string) : list (nat * list string) * option TokError :=
  finish (run tok_init text).

(** ** The writer *)

(** The line terminators of a writer: LF ([DataFrame.to_csv] on POSIX)
    and CR LF (the default of Python's [csv.writer]). *)
Definition lf : string := String newline EmptyString.
Definition crlf : string := String cr lf.

(** Lines, each ended by the terminator [eol]. *)
Fixpoint write_lines_with (eol : string) (lines : list string) : string :=
  match lines with
  | [] => EmptyString
  | l :: ls => (l ++ eol ++ write_lines_with eol ls)%string
  end.

Definition write_lines (lines : list string) : string := write_lines_with lf lines.

Fixpoint double_quotes (s : string) : string :=
  match s with
  | EmptyString => EmptyString
  | String c s' =>
      if Ascii.eqb c quote_char then String c (String c (double_quotes s'))
      else String c (double_quotes s')
  end.

Definition quote_field (f : string) : string :=
  String quote_char (double_quotes f ++ String quote_char EmptyString)%string.

(** [QUOTE_MINIMAL]: quote a field only when it needs it. *)
Definition write_field (f : string) : string := if plain_field f then f else quote_field f.

Definition write_record (r : list string) : string :=
  match r with
  | [EmptyString] => quote_field EmptyString
  | _ => String.concat "," (map write_field r)
  end.

Definition write_records_with (eol : string) (rs : list (list string)) : string :=
  write_lines_with eol (map write_record rs).

(** The records the reader gets back: not empty, and not one field of
    blanks (written as a blank line, which the reader skips). *)
Definition record_ok (r : list string) : bool :=
  match r with
  | [] => false
  | [f] => String.eqb f EmptyString || negb (all_ws f)
  | _ => true
  end.

(** A line of a file without quotes or carriage returns that is not blank. *)
Definition plain_line (l : string) : bool :=
  negb (all_ws l) && negb (has_char quote_char l) && negb (has_char newline l) && negb (has_char cr l).

(** The states inside a record, and those in which a delimiter or a
    line end closes the field. *)
Definition field_state (s : TokState) : bool :=
  match s with StartField | InField | InQuotedField | QuoteInQuotedField => true | _ => false end.

Definition end_state (s : TokState) : bool :=
  match s with StartField | InField | QuoteInQuotedField => true | _ => false end.

(** A character that does not end a line outside quotes. *)
Definition line_char (c : ascii) : bool := negb (Ascii.eqb c newline || Ascii.eqb c cr).

Ltac tok_simp :=
  unfold set_state, push, end_field, end_line, skip_line;
  cbn [tok_state tok_field tok_fields tok_records tok_lines].

(** ** Strings *)

Lemma str_app_assoc (a b c : string) : (a ++ b ++ c)%string = ((a ++ b) ++ c)%string.
Proof. induction a as [|x a IH]; cbn; [done|]. by rewrite IH. Qed.

Lemma str_app_nil_r (a : string) : (a ++ EmptyString)%string = a.
Proof. induction a as [|x a IH]; cbn; [done|]. by rewrite IH. Qed.

Lemma str_app_String (a f : string) c : ((a ++ String c EmptyString) ++ f)%string = (a ++ String c f)%string.
Proof. by rewrite <- str_app_assoc. Qed.

Lemma has_char_app c a b : has_char c (a ++ b)%string = has_char c a || has_char c b.
Proof. induction a as [|c' a IH]; simpl; [done|]. by rewrite IH, orb_assoc. Qed.

Lemma is_ws_line_char c : is_ws c = true -> Ascii.eqb c newline = false /\ Ascii.eqb c cr = false.
Proof.
  unfold is_ws. destruct (Ascii.eqb_spec c " ") as [->|]; [done|].
  destruct (Ascii.eqb_spec c "009") as [->|]; done.
Qed.

Lemma plain_char_spec c :
  plain_char c = true ->
  Ascii.eqb c newline = false /\ Ascii.eqb c cr = false /\ Ascii.eqb c quote_char = false /\ Ascii.eqb c "," = false.
Proof.
  unfold plain_char.
  destruct (Ascii.eqb c newline), (Ascii.eqb c cr), (Ascii.eqb c quote_char), (Ascii.eqb c ","); done.
Qed.

(** A field is plain when it has none of the four special characters. *)
Lemma plain_field_has_char f :
  plain_field f = negb (has_char newline f || has_char cr f || has_char quote_char f || has_char "," f).
Proof. induction f as [|c f IH]; [done|]. cbn [plain_field has_char]. rewrite IH. unfold plain_char. btauto. Qed.

Lemma plain_field_app a b : plain_field (a ++ b)%string = plain_field a && plain_field b.
Proof. induction a as [|c a IH]; cbn; [done|]. by rewrite IH, andb_assoc. Qed.

Lemma all_ws_app a b : all_ws (a ++ b)%string = all_ws a && all_ws b.
Proof. induction a as [|c a IH]; cbn; [done|]. by rewrite IH, andb_assoc. Qed.

(** A text that is not blank is blanks, a first other character and the rest. *)
Lemma all_ws_split s :
  all_ws s = false -> exists w c r, s = (w ++ String c r)%string /\ all_ws w = true /\ is_ws c = false.
Proof.
  induction s as [|c s IH]; cbn; [done|]. destruct (is_ws c) eqn:Hc; cbn.
  - intros (w & c' & r & -> & Hw & Hc')%IH. exists (String c w), c', r. cbn. by rewrite Hc, Hw.
  - intros _. by exists EmptyString, c, s.
Qed.

(** ** [str.split] and [str.join] *)

Lemma split_on_not_nil sep s : split_on sep s <> [].
Proof. destruct s; simpl; [done|]. destruct (split_on sep s); [done|]. by destruct (Ascii.eqb _ _). Qed.

(** A piece without the separator and the rest of the text. *)
Lemma split_on_app sep f r :
  has_char sep f = false -> split_on sep (f ++ String sep r)%string = f :: split_on sep r.
Proof.
  induction f as [|c f IH]; simpl; intros H.
  - pose proof (split_on_not_nil sep r). destruct (split_on sep r); [done|]. by rewrite Ascii.eqb_refl.
  - apply orb_false_elim in H as [Hc Hf]. rewrite IH by done. by rewrite Hc.
Qed.

Lemma split_on_single sep f : has_char sep f = false -> split_on sep f = [f].
Proof.
  induction f as [|c f IH]; simpl; intros H; [done|].
  apply orb_false_elim in H as [Hc Hf]. rewrite IH by done. by rewrite Hc.
Qed.

Lemma concat_cons_String sep c f fs :
  String.concat sep (String c f :: fs) = String c (String.concat sep (f :: fs)).
Proof. by destruct fs. Qed.

Lemma concat_split_on sep s : String.concat (String sep EmptyString) (split_on sep s) = s.
Proof.
  induction s as [|c s IH]; [done|]. cbn [split_on].
  pose proof (split_on_not_nil sep s). destruct (split_on sep s) as [|f fs]; [done|].
  destruct (Ascii.eqb_spec c sep) as [->|]; [|by rewrite concat_cons_String, IH]. by rewrite <- IH.
Qed.

Lemma split_on_concat sep l :
  l <> [] -> Forall (fun f => has_char sep f = false) l ->
  split_on sep (String.concat (String sep EmptyString) l) = l.
Proof.
  intros Hl H. induction H as [|f l Hf H IH]; [done|].
  destruct l as [|g l]; [by apply split_on_single|].
  change (String.concat (String sep "") (f :: g :: l)) with
    (f ++ String sep (String.concat (String sep "") (g :: l)))%string.
  rewrite split_on_app by done. f_equal. by apply IH.
Qed.

(** A character of a piece is a character of the text, not the separator. *)
Lemma split_on_has_char sep s c :
  has_char c s = false -> Ascii.eqb c sep = false ->
  Forall (fun p => has_char c p = false) (split_on sep s).
Proof.
  induction s as [|c' s IH]; cbn [has_char split_on]; intros Hs Hsep; [by repeat constructor|].
  apply orb_false_elim in Hs as [Hc Hs]. specialize (IH Hs Hsep).
  destruct (split_on sep s) as [|f fs]; [by repeat constructor; cbn; rewrite Hc|].
  inversion IH as [|? ? Hf Hfs]; subst.
  destruct (Ascii.eqb_spec c' sep) as [->|]; repeat constructor; cbn; try rewrite Hc; done.
Qed.

(** ** The tokenizer *)

Lemma list_ascii_app s1 s2 :
  list_ascii_of_string (s1 ++ s2) = list_ascii_of_string s1 ++ list_ascii_of_string s2.
Proof. induction s1 as [|c s IH]; cbn; [done|]. by rewrite IH. Qed.

Lemma run_app t s1 s2 : run t (s1 ++ s2) = run (run t s1) s2.
Proof. unfold run. by rewrite list_ascii_app, fold_left_app. Qed.

Lemma run_String t c s : run t (String c s) = run (step t c) s.
Proof. done. Qed.

Lemma step_field_state t c : field_state (tok_state t) = true -> step t c = step_field t c.
Proof. by destruct t as [[] ? ? ? ?]. Qed.

Lemma step_field_preserves t c :
  field_state (tok_state t) = true -> line_char c = true -> field_state (tok_state (step_field t c)) = true.
Proof.
  unfold line_char. destruct t as [[] ? ? ? ?]; cbn; try done;
    destruct (Ascii.eqb c newline), (Ascii.eqb c cr), (Ascii.eqb c quote_char), (Ascii.eqb c ","); done.
Qed.

(** Inside a line, the field states read as [step] does. *)
Lemma fold_step_field cs t :
  field_state (tok_state t) = true -> Forall (fun c => line_char c = true) cs ->
  fold_left step_field cs t = fold_left step cs t.
Proof.
  intros Ht H. revert t Ht. induction H as [|c cs Hc _ IH]; intros t Ht; [done|]. cbn [fold_left].
  rewrite (step_field_state t c Ht). apply IH. by apply step_field_preserves.
Qed.

Lemma run_plain_in_field x f fs rs n :
  plain_field f = true -> run (mkTok InField x fs rs n) f = mkTok InField (x ++ f) fs rs n.
Proof.
  revert x. induction f as [|c f IH]; intros x Hf; cbn [plain_field] in Hf.
  - by rewrite str_app_nil_r.
  - apply andb_prop in Hf as [(H1 & H2 & _ & H4)%plain_char_spec Hf]. rewrite run_String.
    cbn [step step_field tok_state]. rewrite H1, H2, H4. unfold push; cbn [tok_state tok_field tok_fields tok_records tok_lines].
    rewrite IH by done. by rewrite str_app_String.
Qed.

Lemma run_double_quotes x f fs rs n :
  run (mkTok InQuotedField x fs rs n) (double_quotes f) = mkTok InQuotedField (x ++ f) fs rs n.
Proof.
  revert x. induction f as [|c f IH]; intros x; cbn [double_quotes].
  - by rewrite str_app_nil_r.
  - destruct (Ascii.eqb_spec c quote_char) as [->|Hc]; rewrite !run_String; cbn [step step_field tok_state].
    + rewrite Ascii.eqb_refl. tok_simp; cbn [step step_field tok_state].
      rewrite Ascii.eqb_refl. tok_simp.
      rewrite IH. by rewrite str_app_String.
    + rewrite (proj2 (Ascii.eqb_neq _ _) Hc). tok_simp.
      rewrite IH. by rewrite str_app_String.
Qed.

Lemma step_open_quote x fs rs n :
  step (mkTok StartField x fs rs n) quote_char = mkTok InQuotedField x fs rs n.
Proof. done. Qed.

(** A written field, read from the start of a field: its text, in a
    state where a delimiter or a line end closes it. *)
Lemma run_write_field fs rs n f :
  exists s, end_state s = true /\ run (mkTok StartField EmptyString fs rs n) (write_field f) = mkTok s f fs rs n.
Proof.
  unfold write_field. destruct (plain_field f) eqn:Hf.
  - destruct f as [|c f']; [by exists StartField|]. exists InField. split; [done|].
    cbn [plain_field] in Hf. apply andb_prop in Hf as [Hc Hf].
    pose proof (plain_char_spec c Hc) as (H1 & H2 & H3 & H4).
    rewrite run_String. cbn [step step_field tok_state]. rewrite H1, H2, H3, H4.
    tok_simp.
    by rewrite run_plain_in_field.
  - exists QuoteInQuotedField. split; [done|]. unfold quote_field.
    rewrite run_String, step_open_quote, run_app, run_double_quotes. done.
Qed.

Lemma step_comma s x fs rs n :
  end_state s = true -> step (mkTok s x fs rs n) "," = mkTok StartField EmptyString (fs ++ [x]) rs n.
Proof. by destruct s. Qed.

Lemma step_newline s x fs rs n :
  end_state s = true ->
  step (mkTok s x fs rs n) newline = mkTok StartRecord EmptyString [] (rs ++ [(S n, fs ++ [x])]) (S n).
Proof. by destruct s. Qed.

Lemma concat_cons2 (x y : string) l :
  String.concat "," (x :: y :: l) = (x ++ String "," (String.concat "," (y :: l)))%string.
Proof. done. Qed.

(** A line terminator after the last field ends the record. *)
Lemma run_eol eol s x fs rs n :
  eol = lf \/ eol = crlf -> end_state s = true ->
  run (mkTok s x fs rs n) eol = mkTok StartRecord EmptyString [] (rs ++ [(S n, fs ++ [x])]) (S n).
Proof. intros [-> | ->] Hs; destruct s; done. Qed.

(** The fields of a record after [acc], and its line end. *)
Lemma run_fields eol acc r rs n :
  eol = lf \/ eol = crlf -> r <> [] ->
  run (mkTok StartField EmptyString acc rs n) (String.concat "," (map write_field r) ++ eol)
  = mkTok StartRecord EmptyString [] (rs ++ [(S n, acc ++ r)]) (S n).
Proof.
  intros Heol. revert acc. induction r as [|f r IH]; intros acc Hr; [done|].
  destruct (run_write_field acc rs n f) as (s & Hs & Hrun).
  destruct r as [|g r].
  - cbn [map String.concat]. rewrite run_app, Hrun. by apply run_eol.
  - rewrite map_cons, map_cons, concat_cons2, <- str_app_assoc, run_app, Hrun. cbn [String.append].
    rewrite run_String, step_comma by done. rewrite <- map_cons, IH by done. by rewrite <- app_assoc.
Qed.

(** Blanks at the start of a line are kept aside. *)
Lemma run_ws_line w p x fs rs n :
  all_ws w = true ->
  run (mkTok (WhitespaceLine p) x fs rs n) w = mkTok (WhitespaceLine (p ++ w)) x fs rs n.
Proof.
  revert p. induction w as [|c w IH]; intros p Hw; cbn [all_ws] in Hw.
  - by rewrite str_app_nil_r.
  - apply andb_prop in Hw as [Hc Hw]. destruct (is_ws_line_char c Hc) as [H1 H2].
    rewrite run_String. cbn [step tok_state]. rewrite H1, H2, Hc. tok_simp.
    rewrite IH by done. by rewrite str_app_String.
Qed.

Lemma all_ws_line_chars w : all_ws w = true -> Forall (fun c => line_char c = true) (list_ascii_of_string w).
Proof.
  induction w as [|c w IH]; cbn; intros H; [done|]. apply andb_prop in H as [Hc Hw].
  destruct (is_ws_line_char c Hc) as [H1 H2]. constructor; [unfold line_char; by rewrite H1, H2|auto].
Qed.

(** A line that is not blank: after its leading blanks, the tokenizer
    reads it again from the start of a field. *)
Lemma run_start_record w c s x fs rs n :
  all_ws w = true -> is_ws c = false -> line_char c = true ->
  run (mkTok StartRecord x fs rs n) (w ++ String c s) = run (mkTok StartField x fs rs n) (w ++ String c s).
Proof.
  intros Hw Hc Hl. pose proof Hl as Hl'. unfold line_char in Hl'.
  apply negb_true_iff, orb_false_elim in Hl' as [H1 H2].
  destruct w as [|c0 w].
  - cbn [String.append]. rewrite !run_String. cbn [step tok_state]. unfold step_record. by rewrite H1, H2, Hc.
  - cbn [all_ws] in Hw. apply andb_prop in Hw as [Hc0 Hw]. destruct (is_ws_line_char c0 Hc0) as [H3 H4].
    unfold run. rewrite list_ascii_app. cbn [list_ascii_of_string app fold_left].
    rewrite !fold_left_app. cbn [fold_left]. f_equal.
    change (fold_left step (list_ascii_of_string w) ?t) with (run t w).
    cbn [step tok_state]. unfold step_record. rewrite H3, H4, Hc0. tok_simp. rewrite run_ws_line by done.
    cbn [step tok_state]. rewrite H1, H2, Hc. tok_simp.
    rewrite fold_step_field; [|done|].
    + rewrite list_ascii_app. cbn [list_ascii_of_string app fold_left]. by rewrite fold_left_app.
    + rewrite list_ascii_app. apply Forall_app. split; [|by repeat constructor].
      apply all_ws_line_chars. cbn. by rewrite Hc0, Hw.
Qed.

Lemma write_record_cases r :
  r = [EmptyString] \/ (r <> [EmptyString] /\ write_record r = String.concat "," (map write_field r)).
Proof. destruct r as [|[|c f] [|g r]]; first [by left | by right]. Qed.

Lemma concat_head f r tl :
  (String.concat "," (map write_field (f :: r)) ++ tl)%string =
  (write_field f ++ match r with
                    | [] => tl
                    | _ => String "," (String.concat "," (map write_field r) ++ tl)
                    end)%string.
Proof. destruct r; cbn [map String.concat]; [done|]. by rewrite <- str_app_assoc. Qed.

(** A written record starts, after its blanks, with a character that
    starts a field. *)
Lemma record_line_start r tl :
  record_ok r = true -> r <> [EmptyString] ->
  exists w c s, (String.concat "," (map write_field r) ++ tl)%string = (w ++ String c s)%string /\
    all_ws w = true /\ is_ws c = false /\ line_char c = true.
Proof.
  intros Hok Hne. destruct r as [|f r]; [discriminate|]. rewrite concat_head. unfold write_field.
  destruct (plain_field f) eqn:Hf; [|by eexists EmptyString, _, _].
  destruct (all_ws f) eqn:Hw.
  - destruct r as [|g r]; [|by eexists f, _, _].
    cbn in Hok. rewrite Hw in Hok. destruct (String.eqb_spec f ""); [by subst|discriminate].
  - destruct (all_ws_split f Hw) as (w & c & s & -> & Hw' & Hc).
    rewrite plain_field_app in Hf. cbn [plain_field] in Hf.
    apply andb_prop in Hf as [_ [(H1 & H2 & _)%plain_char_spec _]%andb_prop].
    exists w, c, (s ++ match r with
                   | [] => tl
                   | _ => String "," (String.concat "," (map write_field r) ++ tl)
                   end)%string.
    split; [by rewrite <- str_app_assoc|]. unfold line_char. by rewrite H1, H2.
Qed.

(** A written record and its line end make one record of the next line. *)
Lemma run_record eol r rs n :
  eol = lf \/ eol = crlf -> record_ok r = true ->
  run (mkTok StartRecord EmptyString [] rs n) (write_record r ++ eol)
  = mkTok StartRecord EmptyString [] (rs ++ [(S n, r)]) (S n).
Proof.
  intros Heol Hr. destruct (write_record_cases r) as [->|[Hne ->]]; [by destruct Heol as [-> | ->]|].
  destruct (record_line_start r eol Hr Hne) as (w & c & s & Heq & Hw & Hc & Hl).
  rewrite Heq, run_start_record, <- Heq by done. apply (run_fields eol []); [done|]. by destruct r.
Qed.

Lemma run_records eol rs recs n :
  eol = lf \/ eol = crlf -> Forall (fun r => record_ok r = true) rs ->
  run (mkTok StartRecord EmptyString [] recs n) (write_records_with eol rs) =
  mkTok StartRecord EmptyString [] (recs ++ combine (seq (S n) (length rs)) rs) (n + length rs).
Proof.
  unfold write_records_with. intros Heol H. revert recs n.
  induction H as [|r rs Hr _ IH]; intros recs n; cbn [map write_lines_with].
  - by rewrite app_nil_r, Nat.add_0_r.
  - rewrite str_app_assoc, run_app, run_record, IH by done. cbn [length seq combine].
    f_equal; [by rewrite <- app_assoc|lia].
Qed.

Lemma split_on_no_sep sep s : Forall (fun p => has_char sep p = false) (split_on sep s).
Proof.
  induction s as [|c s IH]; cbn [split_on]; [by repeat constructor|].
  pose proof (split_on_not_nil sep s).
  destruct (split_on sep s) as [|f fs]; [done|]. inversion IH as [|? ? Hf Hfs]; subst.
  destruct (Ascii.eqb_spec c sep) as [->|Hc]; repeat constructor; try done.
  cbn. rewrite Hf, orb_false_r. by apply Ascii.eqb_neq.
Qed.

(** The pieces of a line without quotes or line ends are plain fields. *)
Lemma split_on_plain l :
  has_char newline l = false -> has_char cr l = false -> has_char quote_char l = false ->
  Forall (fun p => plain_field p = true) (split_on "," l).
Proof.
  intros Hnl Hcr Hq. apply List.Forall_forall. intros p Hin.
  pose proof (split_on_has_char "," l newline Hnl eq_refl) as A.
  pose proof (split_on_has_char "," l cr Hcr eq_refl) as B.
  pose proof (split_on_has_char "," l quote_char Hq eq_refl) as C.
  pose proof (split_on_no_sep "," l) as D. rewrite List.Forall_forall in A, B, C, D.
  by rewrite plain_field_has_char, A, B, C, D.
Qed.

Lemma write_field_plain f : plain_field f = true -> write_field f = f.
Proof. unfold write_field. by intros ->. Qed.

(** A line of a file without quotes is its [str.split] written back. *)
Lemma split_plain_line l :
  plain_line l = true -> write_record (split_on "," l) = l /\ record_ok (split_on "," l) = true.
Proof.
  unfold plain_line. intros H. apply andb_prop in H as [H Hcr]. apply andb_prop in H as [H Hnl].
  apply andb_prop in H as [Hws Hq]. apply negb_true_iff in Hws, Hq, Hnl, Hcr.
  pose proof (split_on_plain l Hnl Hcr Hq) as Hp.
  assert (Hm : map write_field (split_on "," l) = split_on "," l).
  { rewrite <- (map_id (split_on "," l)) at 2. apply map_ext_Forall.
    eapply Forall_impl; [exact Hp|]. apply write_field_plain. }
  pose proof (concat_split_on "," l) as Hc.
  destruct (write_record_cases (split_on "," l)) as [E|[Hne ->]].
  - rewrite E in Hc. cbn in Hc. subst l. discriminate.
  - rewrite Hm. split; [done|]. pose proof (split_on_not_nil "," l) as Hnn.
    destruct (split_on "," l) as [|f [|g r]]; [done| |done].
    cbn in Hc |- *. subst f. by rewrite Hws, orb_true_r.
Qed.

(** The machine over lines without quotes, blank lines or carriage returns. *)
Lemma run_write_lines eol ls recs n :
  eol = lf \/ eol = crlf -> Forall (fun l => plain_line l = true) ls ->
  run (mkTok StartRecord EmptyString [] recs n) (write_lines_with eol ls) =
  mkTok StartRecord EmptyString [] (recs ++ combine (seq (S n) (length ls)) (map (split_on ",") ls)) (n + length ls).
Proof.
  intros Heol H. assert (E : write_lines_with eol ls = write_records_with eol (map (split_on ",") ls)).
  { unfold write_records_with. rewrite map_map. f_equal. induction H as [|l ls Hl _ IH]; [done|].
    cbn. f_equal; [|exact IH]. symmetry. by apply split_plain_line. }
  rewrite E, run_records, length_map; [done|done|]. apply Forall_map.
  eapply Forall_impl; [exact H|]. intros l Hl. by apply split_plain_line.
Qed.

Lemma tokenize_write_lines ls :
  Forall (fun l => plain_line l = true) ls ->
  tokenize (write_lines ls) = (combine (seq 1 (length ls)) (map (split_on ",") ls), None).
Proof. intros H. unfold tokenize, tok_init, write_lines. by rewrite run_write_lines by (done || by left). Qed.

(** A file with CR LF line ends reads as the same file with LF. *)
Lemma tokenize_crlf ls :
  Forall (fun l => plain_line l = true) ls -> tokenize (write_lines_with crlf ls) = tokenize (write_lines ls).
Proof.
  intros H. unfold tokenize, tok_init, write_lines.
  rewrite (run_write_lines crlf) by (done || by right). by rewrite (run_write_lines lf) by (done || by left).
Qed.

Lemma run_in_quoted x s fs rs n :
  has_char quote_char s = false ->
  run (mkTok InQuotedField x fs rs n) s = mkTok InQuotedField (x ++ s) fs rs n.
Proof.
  revert x. induction s as [|c s IH]; intros x Hs; cbn [has_char] in Hs; [by rewrite str_app_nil_r|].
  apply orb_false_elim in Hs as [Hc Hs]. rewrite run_String. cbn [step step_field tok_state].
  rewrite Hc. tok_simp. rewrite IH by done. by rewrite str_app_String.
Qed.

(** A quote opened on a new line and never closed: the records before
    it, and the error. *)
Lemma tokenize_open_quote ls s :
  Forall (fun l => plain_line l = true) ls -> has_char quote_char s = false ->
  tokenize (write_lines ls ++ String quote_char s) =
  (combine (seq 1 (length ls)) (map (split_on ",") ls), Some (EofInString (length ls))).
Proof.
  intros H Hs. unfold tokenize, tok_init, write_lines. rewrite run_app, run_write_lines by (done || by left).
  rewrite run_String. change (step _ quote_char) with (mkTok InQuotedField EmptyString [] (combine (seq 1 (length ls)) (map (split_on ",") ls)) (length ls)).
  by rewrite run_in_quoted.
Qed.

(** * Properties *)

(** C22. Round trip of the CSV text: the tokenizer of [pd.read_csv]
    reads back, numbered from line 1, every list of records the
    minimal-quoting writer writes with LF or CR LF line ends, quoted fields, doubled quotes,
    delimiters and line ends inside fields included, provided no record
    is empty or a single field of blanks (a blank line, which the reader
    skips). *)
Theorem tokenize_write_records eol rs :
  eol = lf \/ eol = crlf -> Forall (fun r => record_ok r = true) rs ->
  tokenize (write_records_with eol rs) = (combine (seq 1 (length rs)) rs, None).
Proof. intros Heol H. unfold tokenize, tok_init. by rewrite run_records. Qed.

(** Witnesses. *)

Lemma tokenize_write_records_witness :
  (crlf = lf \/ crlf = crlf) /\ Forall (fun r => record_ok r = true) [["dteday"%string; "cnt"%string]; [" 2011-01-01, x"%string; String quote_char EmptyString; EmptyString];
     [String newline EmptyString]; [EmptyString]] /\
  tokenize (write_records_with crlf [["dteday"%string; "cnt"%string]; [" 2011-01-01, x"%string; String quote_char EmptyString; EmptyString];
     [String newline EmptyString]; [EmptyString]]) =
  (combine (seq 1 4) [["dteday"%string; "cnt"%string]; [" 2011-01-01, x"%string; String quote_char EmptyString; EmptyString];
     [String newline EmptyString]; [EmptyString]], None).
Proof.
  split; [by right|]. split; [repeat constructor|].
  apply tokenize_write_records; [by right|repeat constructor].
Defined.

End Csv.
