(* ===== verification/Frame.v ===== *)
(** * The data model of the dashboard: rows, frames and the date column

    A row of All_Data.csv is the record [Row]: the columns the script
    reads ([dteday], [weekday], [cnt]) and the column
    [create_weekday_weekend_df] adds ([day_type], [None] until it is set).
    A DataFrame is a list of rows in index order.  [date_min] and
    [date_max] are [Series.min()] and [Series.max()] of the date column
    (lines 52-53), [None] standing for the [NaT] of an empty frame.
    The class [Aggregation] is what the script relies on from an
    aggregator: its table keeps the [int64] total of [cnt] and does not
    depend on the order of the rows. *)

From Stdlib Require Import ZArith Lia List String.
From stdpp Require Import base list strings.
From S2P Require Import Prelude.
Import ListNotations.
Open Scope Z_scope.
Open Scope dash_scope.

Module Frame.

(** A calendar date as datetime64 at midnight, counted in days since
    1970-01-01. *)
Abbreviation Date := Z (only parsing).

(** One row of the dataset, with the columns the script reads or adds. *)
Record Row := mkRow {
  dteday : Date;
  weekday : Z;
  cnt : Z;
  day_type : option string
}.

#[export] Instance Row_eq_dec : EqDecision Row.
Proof. solve_decision. Defined.

Abbreviation DataFrame := (list Row) (only parsing).

(** [df['day_type'] = ...] on one row. *)
Definition set_day_type (t : string) (r : Row) : Row :=
  mkRow (dteday r) (weekday r) (cnt r) (Some t).

(** The [cnt] column, as the aggregations read it. *)
Definition cnt_col (df : list Row) : list Z := map cnt df.

(** [Series.min()] of the date column; [None] is [NaT] (empty frame). *)
Definition date_min (df : list Row) : option Z :=
  match df with
  | [] => None
  | r :: rs => Some (fold_left Z.min (map dteday rs) (dteday r))
  end.

(** [Series.max()] of the date column. *)
Definition date_max (df : list Row) : option Z :=
  match df with
  | [] => None
  | r :: rs => Some (fold_left Z.max (map dteday rs) (dteday r))
  end.

(** The two rows of the spec's example: 2021-01-01 (day 18628, a Friday,
    weekday index 4) with 100 rentals and 2021-01-02 (a Saturday) with 50. *)
Definition example_rows : list Row :=
  [mkRow 18628 4 100 None; mkRow 18629 5 50 None].

(** The well-formedness of a row the dataset's schema promises: a weekday
    index in 0..6 and a non-negative [int64] count. *)
Definition row_wf (r : Row) : Prop :=
  0 <= weekday r <= 6 /\ 0 <= cnt r < half64.

(** What the script relies on from an aggregator [agg] whose table rows
    carry the value [total]: the table keeps the [int64] total of the
    [cnt] column, and a reordering of the input rows leaves the table
    unchanged. *)
Class Aggregation {Out : Type} (agg : list Row -> list Out) (total : Out -> Z) := {
  agg_total : forall df, sum64 (map total (agg df)) = sum64 (cnt_col df);
  agg_perm : forall df1 df2, Permutation df1 df2 -> agg df1 = agg df2
}.

(** ** Lemmas on the date column *)

Lemma fold_min_le l a : fold_left Z.min l a <= a /\ Forall (fun x => fold_left Z.min l a <= x) l.
Proof.
  revert a. induction l as [|x l IH]; intros a; simpl; [split; [lia|constructor]|].
  destruct (IH (Z.min a x)) as [H1 H2]. split; [lia|]. constructor; [lia|done].
Qed.

Lemma fold_max_ge l a : a <= fold_left Z.max l a /\ Forall (fun x => x <= fold_left Z.max l a) l.
Proof.
  revert a. induction l as [|x l IH]; intros a; simpl; [split; [lia|constructor]|].
  destruct (IH (Z.max a x)) as [H1 H2]. split; [lia|]. constructor; [lia|done].
Qed.

Lemma fold_min_in l a : fold_left Z.min l a = a \/ In (fold_left Z.min l a) l.
Proof.
  revert a. induction l as [|x l IH]; intros a; simpl; [auto|].
  destruct (IH (Z.min a x)) as [->| ?]; [|auto]. destruct (Z.min_spec a x) as [[_ ->]|[_ ->]]; auto.
Qed.

Lemma fold_max_in l a : fold_left Z.max l a = a \/ In (fold_left Z.max l a) l.
Proof.
  revert a. induction l as [|x l IH]; intros a; simpl; [auto|].
  destruct (IH (Z.max a x)) as [->| ?]; [|auto]. destruct (Z.max_spec a x) as [[_ ->]|[_ ->]]; auto.
Qed.

Lemma date_min_le df lo : date_min df = Some lo -> forall r, In r df -> lo <= dteday r.
Proof.
  destruct df as [|r0 rs]; simpl; intros H; inversion H; subst; clear H.
  destruct (fold_min_le (map dteday rs) (dteday r0)) as [H1 H2].
  intros r [<-|Hr]; [done|]. rewrite List.Forall_forall in H2. apply H2, in_map, Hr.
Qed.

Lemma date_max_ge df hi : date_max df = Some hi -> forall r, In r df -> dteday r <= hi.
Proof.
  destruct df as [|r0 rs]; simpl; intros H; inversion H; subst; clear H.
  destruct (fold_max_ge (map dteday rs) (dteday r0)) as [H1 H2].
  intros r [<-|Hr]; [done|]. rewrite List.Forall_forall in H2. apply H2, in_map, Hr.
Qed.

(** The minimum is the date of some row. *)
Lemma date_min_attained df lo : date_min df = Some lo -> exists r, In r df /\ dteday r = lo.
Proof.
  destruct df as [|r0 rs]; simpl; intros H; inversion H; subst; clear H.
  destruct (fold_min_in (map dteday rs) (dteday r0)) as [->|Hin]; [eauto|].
  apply in_map_iff in Hin as (r & Hr & Hin). eauto.
Qed.

Lemma date_max_attained df hi : date_max df = Some hi -> exists r, In r df /\ dteday r = hi.
Proof.
  destruct df as [|r0 rs]; simpl; intros H; inversion H; subst; clear H.
  destruct (fold_max_in (map dteday rs) (dteday r0)) as [->|Hin]; [eauto|].
  apply in_map_iff in Hin as (r & Hr & Hin). eauto.
Qed.

Lemma date_min_None df : date_min df = None <-> df = [].
Proof. destruct df; simpl; split; congruence. Qed.

Lemma date_max_None df : date_max df = None <-> df = [].
Proof. destruct df; simpl; split; congruence. Qed.

Lemma date_min_max_le df lo hi : date_min df = Some lo -> date_max df = Some hi -> lo <= hi.
Proof.
  intros Hlo Hhi. destruct (date_min_attained df lo Hlo) as (r & Hr & <-).
  exact (date_max_ge df hi Hhi r Hr).
Qed.

(** [min] and [max] do not depend on the order of the rows. *)
Lemma date_min_unique df lo lo' :
  date_min df = Some lo -> (forall r, In r df -> lo' <= dteday r) ->
  (exists r, In r df /\ dteday r = lo') -> lo = lo'.
Proof.
  intros H Hle (r' & Hr' & <-). destruct (date_min_attained df lo H) as (r & Hr & <-).
  pose proof (date_min_le df _ H r' Hr'). specialize (Hle r Hr). lia.
Qed.

Lemma date_max_unique df hi hi' :
  date_max df = Some hi -> (forall r, In r df -> dteday r <= hi') ->
  (exists r, In r df /\ dteday r = hi') -> hi = hi'.
Proof.
  intros H Hle (r' & Hr' & <-). destruct (date_max_attained df hi H) as (r & Hr & <-).
  pose proof (date_max_ge df _ H r' Hr'). specialize (Hle r Hr). lia.
Qed.

Lemma date_min_perm df1 df2 : Permutation df1 df2 -> date_min df1 = date_min df2.
Proof.
  intros Hp. destruct (date_min df1) as [lo|] eqn:H1, (date_min df2) as [lo'|] eqn:H2.
  - f_equal. apply (date_min_unique df1); [done| |].
    + intros r Hr. apply (date_min_le df2); [done|]. by rewrite <- Hp.
    + destruct (date_min_attained df2 _ H2) as (r & Hr & <-). exists r. by rewrite Hp.
  - apply date_min_None in H2. subst. apply Permutation_sym, Permutation_nil in Hp. by subst.
  - apply date_min_None in H1. subst. apply Permutation_nil in Hp. by subst.
  - done.
Qed.

Lemma date_max_perm df1 df2 : Permutation df1 df2 -> date_max df1 = date_max df2.
Proof.
  intros Hp. destruct (date_max df1) as [hi|] eqn:H1, (date_max df2) as [hi'|] eqn:H2.
  - f_equal. apply (date_max_unique df1); [done| |].
    + intros r Hr. apply (date_max_ge df2); [done|]. by rewrite <- Hp.
    + destruct (date_max_attained df2 _ H2) as (r & Hr & <-). exists r. by rewrite Hp.
  - apply date_max_None in H2. subst. apply Permutation_sym, Permutation_nil in Hp. by subst.
  - apply date_max_None in H1. subst. apply Permutation_nil in Hp. by subst.
  - done.
Qed.

Lemma date_min_map (g : Row -> Row) df :
  (forall r, dteday (g r) = dteday r) -> date_min (map g df) = date_min df.
Proof.
  intros Hg. destruct df as [|r df]; simpl; [done|]. rewrite map_map, Hg.
  do 2 f_equal. by apply map_ext.
Qed.

Lemma date_max_map (g : Row -> Row) df :
  (forall r, dteday (g r) = dteday r) -> date_max (map g df) = date_max df.
Proof.
  intros Hg. destruct df as [|r df]; simpl; [done|]. rewrite map_map, Hg.
  do 2 f_equal. by apply map_ext.
Qed.

Lemma cnt_col_perm df1 df2 : Permutation df1 df2 -> Permutation (cnt_col df1) (cnt_col df2).
Proof. intros Hp. unfold cnt_col. by rewrite Hp. Qed.

End Frame.
