(* ===== verification/Filter.v ===== *)
(** * The date-range filter of line 68

    [main_df = all_df[(all_df["dteday"] >= pd.to_datetime(start_date)) &
                      (all_df["dteday"] <= pd.to_datetime(end_date))]]
    A boolean mask, true when the row's date lies in the closed range,
    selects the rows in index order into a new frame.  The theorems give
    the rows kept, the order kept, the full range returning the frame
    unchanged, the one-day range and the empty range. *)

From Stdlib Require Import ZArith Lia List.
From stdpp Require Import base list.
From S2P Require Import Prelude Frame.
Import ListNotations Frame.
Open Scope Z_scope.

Module Filter.

(** The mask [(dteday >= start) & (dteday <= end)] on one row. *)
Definition between_mask (start_date end_date : Date) (r : Row) : bool :=
  (start_date <=? dteday r) && (dteday r <=? end_date).

(** [all_df[mask]]: the rows the mask keeps, in their order. *)
Definition filter_range (df : list Row) (start_date end_date : Date) : list Row :=
  List.filter (between_mask start_date end_date) df.

Lemma between_mask_true s e r :
  between_mask s e r = true <-> s <= dteday r <= e.
Proof. unfold between_mask. rewrite andb_true_iff, Z.leb_le, Z.leb_le. done. Qed.

Lemma between_mask_false s e r :
  between_mask s e r = false <-> dteday r < s \/ e < dteday r.
Proof.
  rewrite <- not_true_iff_false, between_mask_true. lia.
Qed.

(** A row is kept exactly when it is a row of the frame with a date in
    the closed range. *)
Lemma filter_range_In df s e r :
  In r (filter_range df s e) <-> In r df /\ s <= dteday r <= e.
Proof. unfold filter_range. by rewrite filter_In, between_mask_true. Qed.

Lemma filter_range_app df1 df2 s e :
  filter_range (df1 ++ df2) s e = filter_range df1 s e ++ filter_range df2 s e.
Proof. apply List.filter_app. Qed.

Lemma filter_range_perm df1 df2 s e :
  Permutation df1 df2 -> Permutation (filter_range df1 s e) (filter_range df2 s e).
Proof. apply Permutation_list_filter. Qed.

(** The mask keeps every row when every date is in range. *)
Lemma filter_range_all df s e :
  (forall r, In r df -> s <= dteday r <= e) -> filter_range df s e = df.
Proof.
  intros H. unfold filter_range. apply forallb_filter_id, forallb_forall.
  intros r Hr. by apply between_mask_true, H.
Qed.

(** The mask drops every row when no date is in range. *)
Lemma filter_range_none df s e :
  (forall r, In r df -> dteday r < s \/ e < dteday r) -> filter_range df s e = [].
Proof.
  intros H. unfold filter_range. induction df as [|r df IH]; simpl; [done|].
  rewrite (proj2 (between_mask_false s e r)); [|by apply H; left].
  apply IH. intros r' Hr'. apply H. by right.
Qed.

#[export] Hint Rewrite filter_range_app : dash_rw.

(** ** The filter's contract *)

(** C20. The filter returns the sub-sequence of the frame made of the rows
    whose date lies in the closed range: every such row, no other, in the
    frame's order. *)
Theorem filter_range_subsequence df s e :
  filter_range df s e `sublist_of` df /\
  (forall r, In r (filter_range df s e) <-> In r df /\ s <= dteday r <= e).
Proof.
  split; [|apply filter_range_In]. unfold filter_range.
  induction df as [|r df IH]; simpl; [done|].
  destruct (between_mask s e r); [by apply sublist_skip|by apply sublist_cons].
Qed.

(** C4. Filtering with the first and last dates of the frame, the
    widget's default, returns the frame unchanged, in content and order. *)
Theorem filter_range_full_span df lo hi :
  date_min df = Some lo -> date_max df = Some hi -> filter_range df lo hi = df.
Proof.
  intros Hlo Hhi. apply filter_range_all. intros r Hr.
  split; [exact (date_min_le df lo Hlo r Hr)|exact (date_max_ge df hi Hhi r Hr)].
Qed.

(** A one-day range keeps exactly the rows of that day, in order
    (possibly none). *)
Theorem filter_range_single_day df d :
  filter_range df d d = List.filter (fun r => dteday r =? d) df.
Proof. apply List.filter_ext. intros r. unfold between_mask. zcase. Qed.

(** A range that ends before the first date of the frame selects no
    row; the filter does not fail. *)
Theorem filter_range_before_min df lo s e :
  date_min df = Some lo -> e < lo -> filter_range df s e = [].
Proof.
  intros Hlo He. apply filter_range_none. intros r Hr.
  pose proof (date_min_le df lo Hlo r Hr). lia.
Qed.

(** ** Witnesses *)

Lemma filter_range_full_span_witness : filter_range example_rows 18628 18629 = example_rows.
Proof. apply filter_range_full_span; reflexivity. Defined.

Lemma filter_range_before_min_witness : filter_range example_rows 18000 18600 = [].
Proof. apply (filter_range_before_min example_rows 18628); [reflexivity|lia]. Defined.

End Filter.
