(* ===== verification/Daily.v ===== *)
(** * [create_daily_orders_df] (lines 14-29): the daily resample

    [df.resample(rule='D', on='dteday').agg({"cnt": "sum"})] cuts the time
    axis into one-day bins, from the bin of the earliest date to the bin
    of the latest, and sums [cnt] in each bin; a day with no row is a bin
    whose sum is 0, and an empty frame gives an empty table.
    [reset_index] and [rename] turn the result into the two columns
    [dteday] and [total_rentals] of [DailyTotal].  The assignment of
    line 16 converts a column that is already datetime64 (line 47), so it
    writes back the values it reads and is not a separate step here.

    The theorems: the table is the contiguous ascending run of days from
    the first date to the last, each with the [int64] sum of its rows; the
    table keeps the total of [cnt]; it depends only on the multiset of
    rows; and it has a row for every day of the span, not only for the
    days that occur in the data. *)

From Stdlib Require Import ZArith Lia List.
From stdpp Require Import base list.
From S2P Require Import Prelude Frame.
Import ListNotations Frame.
Open Scope Z_scope.
Open Scope dash_scope.

Module Daily.

(** One row of [daily_orders_df]. *)
Record DailyTotal := mkDaily {
  daily_dteday : Date;
  total_rentals : Z
}.

#[export] Instance DailyTotal_eq_dec : EqDecision DailyTotal.
Proof. solve_decision. Defined.

(** The one-day bins from [lo] to [hi], in ascending order. *)
Definition days_between (lo hi : Date) : list Date :=
  map (fun i => lo + Z.of_nat i) (seq 0 (Z.to_nat (hi - lo + 1))).

(** The [int64] sum of [cnt] over the rows of day [d]. *)
Definition bin_sum (df : list Row) (d : Date) : Z :=
  sum64 (map cnt (part dteday d df)).

(** [create_daily_orders_df df]: resample per day and sum [cnt]. *)
Definition create_daily_orders_df (df : list Row) : list DailyTotal :=
  match date_min df, date_max df with
  | Some lo, Some hi => map (fun d => mkDaily d (bin_sum df d)) (days_between lo hi)
  | _, _ => []
  end.

(** ** The bins *)

Lemma days_between_In lo hi d : In d (days_between lo hi) <-> lo <= d <= hi.
Proof.
  unfold days_between. rewrite in_map_iff. split.
  - intros (i & <- & Hi). apply in_seq in Hi. lia.
  - intros Hd. exists (Z.to_nat (d - lo)). split; [lia|]. apply in_seq. lia.
Qed.

Lemma days_between_nth lo hi (i : nat) :
  nth_error (days_between lo hi) i =
  if (Z.of_nat i <? hi - lo + 1) then Some (lo + Z.of_nat i) else None.
Proof.
  unfold days_between. rewrite nth_error_map, nth_error_seq.
  destruct (Nat.ltb_spec i (Z.to_nat (hi - lo + 1))), (Z.ltb_spec (Z.of_nat i) (hi - lo + 1));
    simpl; [done|lia|lia|done].
Qed.

Lemma days_between_NoDup lo hi : NoDup (days_between lo hi).
Proof.
  unfold days_between. apply NoDup_map_injective; [intros i j H; lia|].
  apply NoDup_ListNoDup, seq_NoDup.
Qed.

Lemma bin_sum_perm df1 df2 d : Permutation df1 df2 -> bin_sum df1 d = bin_sum df2 d.
Proof. intros Hp. unfold bin_sum. apply sum64_perm, Permutation_map, part_perm, Hp. Qed.

(** A day that no row has sums to 0. *)
Lemma bin_sum_absent df d : (forall r, In r df -> dteday r <> d) -> bin_sum df d = 0.
Proof. intros H. unfold bin_sum. by rewrite part_absent. Qed.

Lemma create_daily_orders_df_span df lo hi :
  date_min df = Some lo -> date_max df = Some hi ->
  create_daily_orders_df df = map (fun d => mkDaily d (bin_sum df d)) (days_between lo hi).
Proof. intros Hlo Hhi. unfold create_daily_orders_df. by rewrite Hlo, Hhi. Qed.

(** ** The table *)

(** C2. The daily table is the run of consecutive days from the first
    date [lo] to the last date [hi] of the frame, in ascending order: its
    [i]-th row is day [lo + i] with the [int64] sum of [cnt] over the rows
    of that day, and it has [hi - lo + 1] rows. *)
Theorem create_daily_orders_df_nth df lo hi (i : nat) :
  date_min df = Some lo -> date_max df = Some hi ->
  nth_error (create_daily_orders_df df) i =
  if Z.of_nat i <? hi - lo + 1
  then Some (mkDaily (lo + Z.of_nat i) (bin_sum df (lo + Z.of_nat i)))
  else None.
Proof.
  intros Hlo Hhi. rewrite (create_daily_orders_df_span df lo hi Hlo Hhi), nth_error_map.
  rewrite days_between_nth. by destruct (_ <? _).
Qed.

(** The total of the daily table is the [int64] total of [cnt]. *)
Lemma create_daily_orders_df_total df :
  sum64 (map total_rentals (create_daily_orders_df df)) = sum64 (cnt_col df).
Proof.
  unfold create_daily_orders_df.
  destruct (date_min df) as [lo|] eqn:Hlo, (date_max df) as [hi|] eqn:Hhi.
  - rewrite map_map. simpl. unfold bin_sum, cnt_col.
    apply (sum64_partition dteday cnt); [apply days_between_NoDup|].
    intros r Hr. apply days_between_In. split.
    + exact (date_min_le df lo Hlo r Hr).
    + exact (date_max_ge df hi Hhi r Hr).
  - by apply date_max_None in Hhi as ->.
  - by apply date_min_None in Hlo as ->.
  - by apply date_min_None in Hlo as ->.
Qed.

Lemma create_daily_orders_df_perm df1 df2 :
  Permutation df1 df2 -> create_daily_orders_df df1 = create_daily_orders_df df2.
Proof.
  intros Hp. unfold create_daily_orders_df.
  rewrite (date_min_perm _ _ Hp), (date_max_perm _ _ Hp).
  destruct (date_min df2), (date_max df2); [|done..].
  apply map_ext. intros d. by rewrite (bin_sum_perm _ _ d Hp).
Qed.

(** The daily resample is an aggregation in the sense of [Frame]. *)
#[export] Instance daily_aggregation : Aggregation create_daily_orders_df total_rentals.
Proof.
  split; [apply create_daily_orders_df_total | apply create_daily_orders_df_perm].
Qed.

(** C9. pandas' resample emits a row for every day between the first
    and the last date, with a total of 0 for a day no row has; the spec's
    Daily Aggregator returns one row per distinct date. *)
Theorem create_daily_orders_df_fills_gaps df lo hi d :
  date_min df = Some lo -> date_max df = Some hi -> lo <= d <= hi ->
  (forall r, In r df -> dteday r <> d) ->
  In (mkDaily d 0) (create_daily_orders_df df).
Proof.
  intros Hlo Hhi Hd Habs. rewrite (create_daily_orders_df_span df lo hi Hlo Hhi).
  apply in_map_iff. exists d. rewrite bin_sum_absent by done.
  split; [done|]. by apply days_between_In.
Qed.

(** C18. With non-negative counts whose exact total fits in [int64], the
    daily totals add up, exactly, to the sum of [cnt] over the frame. *)
Theorem create_daily_orders_df_sum_exact df :
  Forall (fun r => 0 <= cnt r) df -> sumZ (cnt_col df) < half64 ->
  sum64 (map total_rentals (create_daily_orders_df df)) = sumZ (cnt_col df).
Proof.
  intros Hpos Hlt. rewrite create_daily_orders_df_total.
  apply sum64_exact; [by apply List.Forall_map|done].
Qed.

(** ** Witnesses *)

Lemma create_daily_orders_df_nth_witness :
  nth_error (create_daily_orders_df example_rows) 1 = Some (mkDaily 18629 50).
Proof. rewrite (create_daily_orders_df_nth example_rows 18628 18629 1) by reflexivity. reflexivity. Defined.

Lemma create_daily_orders_df_fills_gaps_witness :
  In (mkDaily 18629 0) (create_daily_orders_df [mkRow 18628 4 100 None; mkRow 18630 6 30 None]).
Proof.
  apply (create_daily_orders_df_fills_gaps _ 18628 18630); [reflexivity|reflexivity|lia|].
  intros r [<-|[<-|[]]]; simpl; lia.
Defined.

Lemma create_daily_orders_df_sum_exact_witness :
  sum64 (map total_rentals (create_daily_orders_df example_rows)) = sumZ (cnt_col example_rows).
Proof.
  apply create_daily_orders_df_sum_exact; [repeat constructor; simpl; lia|vm_compute; reflexivity].
Defined.

End Daily.
