(* ===== verification/Resample.v ===== *)
(** * How pandas computes the daily resample (lines 18-20)

    [df.resample(rule='D', on='dteday').agg({"cnt": "sum"})] does not look
    up each day's rows separately, as [Daily.create_daily_orders_df]
    states the result: the grouper sorts the rows by date with a stable
    mergesort when the column is not already increasing, builds the bin
    edges from the first to the last day, and walks the sorted rows once
    ([generate_bins_dt64]), cutting them at each edge and summing [cnt]
    over each cut.  [resample_bins] is that walk, by well-founded
    recursion on the number of days left; [split_bin] is one cut.

    The theorem: the single pass gives the same table as
    [create_daily_orders_df] for every frame, sorted or not. *)

From Stdlib Require Import ZArith Lia List.
From stdpp Require Import base list sorting.
From Equations Require Import Equations.
From S2P Require Import Prelude Frame Daily.
Import ListNotations Frame Daily.
Open Scope Z_scope.

Module Resample.

(** The order of the grouper's sort: by date only. *)
Definition bin_le (a b : Row) : Prop := dteday a <= dteday b.

#[export] Instance bin_le_dec : RelDecision bin_le.
Proof. intros a b. unfold bin_le. apply _. Defined.

(** [ax.argsort(kind="mergesort")]: a stable sort by date. *)
Definition sort_rows (df : list Row) : list Row := merge_sort bin_le df.

(** One cut of the walk: the rows up to the edge after day [d], and the
    rows after it. *)
Fixpoint split_bin (d : Date) (rows : list Row) : list Row * list Row :=
  match rows with
  | [] => ([], [])
  | r :: rs =>
      if dteday r <=? d then let '(b, rest) := split_bin d rs in (r :: b, rest)
      else ([], rows)
  end.

(** The walk over the bins [d, d + 1, ..., hi] of the sorted rows. *)
Equations? resample_bins (rows : list Row) (d hi : Date) : list DailyTotal
  by wf (Z.to_nat (hi - d + 1)) lt :=
  resample_bins rows d hi with Z_le_gt_dec d hi := {
    | left _ :=
        mkDaily d (sum64 (map cnt (fst (split_bin d rows))))
          :: resample_bins (snd (split_bin d rows)) (d + 1) hi;
    | right _ := [] }.
Proof. lia. Qed.

(** The resample as pandas runs it. *)
Definition resample_daily (df : list Row) : list DailyTotal :=
  match date_min df, date_max df with
  | Some lo, Some hi => resample_bins (sort_rows df) lo hi
  | _, _ => []
  end.

(** ** The bins *)

Lemma days_between_cons d hi : d <= hi -> days_between d hi = d :: days_between (d + 1) hi.
Proof.
  intros H. unfold days_between.
  replace (Z.to_nat (hi - d + 1)) with (S (Z.to_nat (hi - (d + 1) + 1))) by lia.
  cbn [seq map]. rewrite Z.add_0_r. f_equal.
  rewrite <- seq_shift, map_map. apply map_ext. intros i. lia.
Qed.

Lemma days_between_nil d hi : hi < d -> days_between d hi = [].
Proof. intros H. unfold days_between. by replace (Z.to_nat (hi - d + 1)) with 0%nat by lia. Qed.

(** ** One cut *)

Section Cut.
Variable d : Date.

(** On rows sorted by date, none before day [d], the cut before the
    edge [d + 1] is the part of day [d], and the rows left are sorted,
    all after day [d], with the same part for every later day. *)
Lemma split_bin_spec rows :
  StronglySorted bin_le rows -> Forall (fun r => d <= dteday r) rows ->
  fst (split_bin d rows) = part dteday d rows /\
  StronglySorted bin_le (snd (split_bin d rows)) /\
  Forall (fun r => d + 1 <= dteday r) (snd (split_bin d rows)) /\
  (forall x, d < x -> part dteday x (snd (split_bin d rows)) = part dteday x rows).
Proof.
  induction rows as [|r rs IH]; intros Hs Hge; [done|].
  inversion Hs as [|? ? Hs' Hr]; subst. inversion Hge as [|? ? Hd Hge']; subst.
  cbn [split_bin]. destruct (Z.leb_spec (dteday r) d) as [Hle|Hgt].
  - destruct (IH Hs' Hge') as (Hb & Hss & Hf & Hp).
    destruct (split_bin d rs) as [b rest]. cbn [fst snd] in *. unfold part in *. cbn [List.filter].
    rewrite bool_decide_eq_true_2 by lia. rewrite <- Hb. split; [done|]. split; [done|]. split; [done|].
    intros x Hx. rewrite bool_decide_eq_false_2 by lia. by apply Hp.
  - cbn [fst snd]. rewrite part_absent.
    2:{ intros x Hx. destruct Hx as [<-|Hx]; [lia|]. rewrite List.Forall_forall in Hr.
        specialize (Hr x Hx). unfold bin_le in Hr. lia. }
    split; [done|]. split; [done|]. split; [|done].
    constructor; [lia|]. eapply Forall_impl; [exact Hr|]. unfold bin_le. intros ? ?; lia.
Qed.

End Cut.

(** ** The walk *)

(** The walk over sorted rows from day [d] on is the day-by-day table
    of the bins [d .. hi]. *)
Lemma resample_bins_spec rows d hi :
  StronglySorted bin_le rows -> Forall (fun r => d <= dteday r) rows ->
  resample_bins rows d hi = map (fun x => mkDaily x (bin_sum rows x)) (days_between d hi).
Proof.
  funelim (resample_bins rows d hi); intros Hs Hge.
  - rewrite days_between_cons by lia. cbn [map].
    destruct (split_bin_spec d rows Hs Hge) as (Hb & Hss & Hf & Hp).
    match goal with IH : _ -> _ -> resample_bins _ _ _ = _ |- _ => rewrite IH by done end.
    unfold bin_sum. f_equal; [do 3 f_equal; exact Hb|].
    apply map_ext_in. intros x Hx. apply days_between_In in Hx. rewrite Hp by lia. done.
  - by rewrite days_between_nil by lia.
Qed.

#[export] Instance bin_le_trans : Transitive bin_le.
Proof. intros a b c. unfold bin_le. lia. Qed.

#[export] Instance bin_le_total : Total bin_le.
Proof. intros a b. unfold bin_le. lia. Qed.

Lemma sort_rows_perm df : sort_rows df ≡ₚ df.
Proof. apply merge_sort_Permutation. Qed.

Lemma sort_rows_sorted df : StronglySorted bin_le (sort_rows df).
Proof. apply StronglySorted_merge_sort; apply _. Qed.

(** * Properties *)

(** C30. The single pass pandas makes over the rows sorted by date gives
    the daily table [create_daily_orders_df] specifies, for every frame,
    sorted or not. *)
Theorem resample_daily_equiv df : resample_daily df = create_daily_orders_df df.
Proof.
  unfold resample_daily, create_daily_orders_df.
  destruct (date_min df) as [lo|] eqn:Hlo; [|done]. destruct (date_max df) as [hi|]; [|done].
  rewrite resample_bins_spec.
  - apply map_ext. intros x. f_equal. apply bin_sum_perm, sort_rows_perm.
  - apply sort_rows_sorted.
  - apply List.Forall_forall. intros r Hr. apply (date_min_le df lo Hlo).
    eapply Permutation_in; [apply sort_rows_perm|exact Hr].
Qed.

End Resample.
