(* ===== verification/DayType.v ===== *)
(** * [create_weekday_weekend_df] (lines 31-41): weekday against weekend

    Line 34 writes a new column into the frame it is given:
    [df['day_type'] = df['weekday'].apply(lambda x: 'Weekend' if x >= 5
    else 'Weekday')] ([classify], [add_day_type]).  Line 37 groups by that
    column and sums [cnt]: pandas' [groupby(key).sum()] takes the distinct
    non-missing keys, sorts them, and gives each the [int64] sum of its
    rows ([groupby_sum]); [reset_index] and [rename] make the two columns
    of [ByDayType].  The function returns the table; the frame it was
    given keeps the new column, which the model returns beside the table.

    The theorems: the keys of any
    [groupby_sum] are sorted and distinct and each carries the sum of its
    rows; the table of [create_weekday_weekend_df] is, exactly, a
    ['Weekday'] row when some row has [weekday < 5] followed by a
    ['Weekend'] row when some row has [weekday >= 5]; it keeps the total
    of [cnt] and ignores the order of the rows.  A range holding only one
    kind of day gives a one-row table. *)

From Stdlib Require Import ZArith Lia List String.
From stdpp Require Import base list sorting strings sets.
From S2P Require Import Prelude Frame.
Import ListNotations Frame.
#[local] Set Warnings "-clear-no-such-hyp".

Open Scope Z_scope.
Open Scope dash_scope.

Module DayType.

(** The lambda of line 34. *)
Definition classify (x : Z) : string :=
  if 5 <=? x then "Weekend"%string else "Weekday"%string.

(** [df['day_type'] = df['weekday'].apply(classify)]. *)
Definition add_day_type (df : list Row) : list Row :=
  map (fun r => set_day_type (classify (weekday r)) r) df.

(** The group keys pandas uses: the distinct non-missing keys, sorted. *)
Definition group_keys (ks : list string) : list string :=
  merge_sort str_le (remove_dups ks).

(** [df.groupby(key)['cnt'].sum()]: rows whose key is missing are
    dropped, and each distinct key, in sorted order, gets the [int64] sum
    of [cnt] over its rows. *)
Definition groupby_sum (key : Row -> option string) (df : list Row) : list (string * Z) :=
  map (fun k => (k, sum64 (map cnt (part key (Some k) df)))) (group_keys (omap key df)).

(** One row of [by_day_type_df]. *)
Record ByDayType := mkByDayType {
  by_day_type : string;
  by_total_rentals : Z
}.

#[export] Instance ByDayType_eq_dec : EqDecision ByDayType.
Proof. solve_decision. Defined.

(** [create_weekday_weekend_df df]: the frame after line 34 wrote its
    column, and the table the function returns. *)
Definition create_weekday_weekend_df (df : list Row) : list Row * list ByDayType :=
  let df' := add_day_type df in
  (df', map (fun '(k, v) => mkByDayType k v) (groupby_sum day_type df')).

(** The table alone, as the script uses it. *)
Definition weekday_weekend_table (df : list Row) : list ByDayType :=
  snd (create_weekday_weekend_df df).

(** The day types present in a frame, in pandas' sorted order. *)
Definition day_type_keys (df : list Row) : list string :=
  (if existsb (fun r => weekday r <? 5) df then ["Weekday"%string] else []) ++
  (if existsb (fun r => 5 <=? weekday r) df then ["Weekend"%string] else []).

(** ** Group keys *)

Lemma group_keys_sorted ks : StronglySorted str_le (group_keys ks).
Proof. apply StronglySorted_merge_sort; apply _. Qed.

Lemma group_keys_elem_of ks k : k ∈ group_keys ks <-> k ∈ ks.
Proof. unfold group_keys. by rewrite merge_sort_Permutation, elem_of_remove_dups. Qed.

Lemma group_keys_NoDup ks : NoDup (group_keys ks).
Proof. unfold group_keys. rewrite merge_sort_Permutation. apply NoDup_remove_dups. Qed.

(** The keys are the only sorted duplicate-free list of the keys present:
    whatever order the rows come in, pandas' sort gives the same keys. *)
Lemma group_keys_unique ks l :
  StronglySorted str_le l -> NoDup l -> (forall k, k ∈ l <-> k ∈ ks) -> group_keys ks = l.
Proof.
  intros Hs Hnd Hm. apply (StronglySorted_unique str_le); [apply group_keys_sorted|done|].
  apply NoDup_Permutation; [apply group_keys_NoDup|done|].
  intros k. by rewrite group_keys_elem_of, Hm.
Qed.

Lemma group_keys_perm ks1 ks2 : Permutation ks1 ks2 -> group_keys ks1 = group_keys ks2.
Proof.
  intros Hp. apply group_keys_unique; [apply group_keys_sorted|apply group_keys_NoDup|].
  intros k. by rewrite group_keys_elem_of, Hp.
Qed.

(** ** [groupby(key).sum()] *)

(** The table of a groupby does not depend on the order of the rows. *)
Lemma groupby_sum_perm key df1 df2 :
  Permutation df1 df2 -> groupby_sum key df1 = groupby_sum key df2.
Proof.
  intros Hp. unfold groupby_sum. rewrite (group_keys_perm _ _ (omap_Permutation key _ _ Hp)).
  apply map_ext. intros k. f_equal. apply sum64_perm, Permutation_map, part_perm, Hp.
Qed.

(** When no key is missing, the groups partition the [int64] total. *)
Lemma groupby_sum_total key df :
  (forall r, In r df -> key r <> None) ->
  sum64 (map snd (groupby_sum key df)) = sum64 (cnt_col df).
Proof.
  intros Hkey. unfold groupby_sum, cnt_col. rewrite map_map. simpl.
  rewrite <- (sum64_partition key cnt (map Some (group_keys (omap key df)))).
  - by rewrite map_map.
  - apply NoDup_map_injective; [by intros ?? [=]|apply group_keys_NoDup].
  - intros r Hr. destruct (key r) as [k|] eqn:Hk; [|by destruct (Hkey r Hr)].
    apply in_map. apply list_elem_of_In, group_keys_elem_of, list_elem_of_omap.
    exists r. split; [by apply list_elem_of_In|done].
Qed.

(** ** The day-type column *)

Lemma omap_day_type_add df : omap day_type (add_day_type df) = map (fun r => classify (weekday r)) df.
Proof. induction df as [|r df IH]; [done|]. simpl. f_equal. exact IH. Qed.

Lemma cnt_add_day_type df : map cnt (add_day_type df) = cnt_col df.
Proof. unfold add_day_type, cnt_col. rewrite map_map. done. Qed.

Lemma part_add_day_type df k :
  part day_type (Some k) (add_day_type df) =
  add_day_type (List.filter (fun r => bool_decide (classify (weekday r) = k)) df).
Proof.
  induction df as [|r df IH]; simpl; [done|]. rewrite IH.
  destruct (decide (classify (weekday r) = k)) as [E|E].
  - by rewrite !bool_decide_eq_true_2 by (simpl; congruence).
  - rewrite !bool_decide_eq_false_2; [done|done|simpl; congruence].
Qed.

Lemma classify_weekday x : classify x = "Weekday"%string <-> x < 5.
Proof. unfold classify. destruct (Z.leb_spec 5 x); split; intros Hx; try done; lia. Qed.

Lemma classify_weekend x : classify x = "Weekend"%string <-> 5 <= x.
Proof. unfold classify. destruct (Z.leb_spec 5 x); split; intros Hx; try done; lia. Qed.

Lemma str_le_weekday_weekend : str_le "Weekday" "Weekend".
Proof. unfold str_le. vm_compute. discriminate. Qed.

Lemma elem_of_classified df k :
  k ∈ map (fun r => classify (weekday r)) df <->
  (k = "Weekday"%string /\ existsb (fun r => weekday r <? 5) df = true) \/
  (k = "Weekend"%string /\ existsb (fun r => 5 <=? weekday r) df = true).
Proof.
  rewrite list_elem_of_In, in_map_iff, !existsb_exists. split.
  - intros (r & <- & Hr). unfold classify. destruct (Z.leb_spec 5 (weekday r)).
    + right. split; [done|]. exists r. split; [done|]. by apply Z.leb_le.
    + left. split; [done|]. exists r. split; [done|]. by apply Z.ltb_lt.
  - intros [[-> (r & Hr & H)]|[-> (r & Hr & H)]]; exists r; split; try done.
    + apply classify_weekday. by apply Z.ltb_lt.
    + apply classify_weekend. by apply Z.leb_le.
Qed.

Lemma day_type_group_keys df :
  group_keys (omap day_type (add_day_type df)) = day_type_keys df.
Proof.
  rewrite omap_day_type_add. apply group_keys_unique; unfold day_type_keys.
  - destruct (existsb _ df), (existsb _ df); simpl; repeat constructor.
    apply str_le_weekday_weekend.
  - destruct (existsb _ df), (existsb _ df); simpl; apply NoDup_ListNoDup;
      repeat constructor; simpl; intuition discriminate.
  - intros k. rewrite elem_of_classified.
    destruct (existsb _ df), (existsb _ df); simpl; set_solver.
Qed.

Lemma day_type_sum df k :
  sum64 (map cnt (part day_type (Some k) (add_day_type df))) =
  sum64 (cnt_col (List.filter (fun r => bool_decide (classify (weekday r) = k)) df)).
Proof. by rewrite part_add_day_type, cnt_add_day_type. Qed.

Lemma filter_classify_weekday df :
  List.filter (fun r => bool_decide (classify (weekday r) = "Weekday"%string)) df =
  List.filter (fun r => weekday r <? 5) df.
Proof.
  apply List.filter_ext. intros r.
  destruct (Z.ltb_spec (weekday r) 5);
    [apply bool_decide_eq_true_2 | apply bool_decide_eq_false_2]; rewrite classify_weekday; lia.
Qed.

Lemma filter_classify_weekend df :
  List.filter (fun r => bool_decide (classify (weekday r) = "Weekend"%string)) df =
  List.filter (fun r => 5 <=? weekday r) df.
Proof.
  apply List.filter_ext. intros r.
  destruct (Z.leb_spec 5 (weekday r));
    [apply bool_decide_eq_true_2 | apply bool_decide_eq_false_2]; rewrite classify_weekend; lia.
Qed.

(** C3. The weekday/weekend table is exactly: a ['Weekday'] row, with the
    [int64] sum of [cnt] over the rows whose [weekday] is below 5, when
    there is such a row; then a ['Weekend'] row, with the sum over the rows
    whose [weekday] is at least 5, when there is such a row. *)
Theorem weekday_weekend_table_spec df :
  weekday_weekend_table df =
  (if existsb (fun r => weekday r <? 5) df
   then [mkByDayType "Weekday" (sum64 (cnt_col (List.filter (fun r => weekday r <? 5) df)))]
   else []) ++
  (if existsb (fun r => 5 <=? weekday r) df
   then [mkByDayType "Weekend" (sum64 (cnt_col (List.filter (fun r => 5 <=? weekday r) df)))]
   else []).
Proof.
  unfold weekday_weekend_table, create_weekday_weekend_df, groupby_sum. simpl.
  rewrite day_type_group_keys. unfold day_type_keys.
  destruct (existsb _ df), (existsb _ df); simpl; rewrite ?day_type_sum;
    by rewrite ?filter_classify_weekday, ?filter_classify_weekend.
Qed.

Lemma weekday_weekend_table_total df :
  sum64 (map by_total_rentals (weekday_weekend_table df)) = sum64 (cnt_col df).
Proof.
  unfold weekday_weekend_table, create_weekday_weekend_df. simpl. rewrite map_map.
  rewrite (map_ext _ snd) by (by intros []).
  rewrite groupby_sum_total.
  - unfold cnt_col at 1. by rewrite cnt_add_day_type.
  - intros r Hr. unfold add_day_type in Hr. by apply in_map_iff in Hr as (r' & <- & _).
Qed.

Lemma weekday_weekend_table_perm df1 df2 :
  Permutation df1 df2 -> weekday_weekend_table df1 = weekday_weekend_table df2.
Proof.
  intros Hp. unfold weekday_weekend_table, create_weekday_weekend_df. simpl.
  f_equal. apply groupby_sum_perm. unfold add_day_type. by rewrite Hp.
Qed.

(** The weekday/weekend table is an aggregation in the sense of [Frame]. *)
#[export] Instance day_type_aggregation : Aggregation weekday_weekend_table by_total_rentals.
Proof.
  split; [apply weekday_weekend_table_total | apply weekday_weekend_table_perm].
Qed.

(** C10. When every selected row is a weekday, the table has a single
    ['Weekday'] row holding the whole total: pandas' groupby does not emit
    a zero-valued ['Weekend'] row, while the spec asks for both rows. *)
Theorem weekday_weekend_table_one_kind df :
  df <> [] -> Forall (fun r => weekday r < 5) df ->
  weekday_weekend_table df = [mkByDayType "Weekday" (sum64 (cnt_col df))].
Proof.
  intros Hne Hall. rewrite List.Forall_forall in Hall.
  assert (H1 : existsb (fun r => weekday r <? 5) df = true).
  { destruct df as [|r df]; [done|]. simpl. apply orb_true_iff. left.
    apply Z.ltb_lt, Hall. by left. }
  assert (H2 : existsb (fun r => 5 <=? weekday r) df = false).
  { apply not_true_iff_false. rewrite existsb_exists. intros (r & Hr & Hge).
    apply Z.leb_le in Hge. specialize (Hall r Hr). lia. }
  assert (H3 : List.filter (fun r => weekday r <? 5) df = df).
  { apply forallb_filter_id, forallb_forall. intros r Hr. by apply Z.ltb_lt, Hall. }
  unfold weekday_weekend_table, create_weekday_weekend_df, groupby_sum. simpl.
  rewrite day_type_group_keys. unfold day_type_keys. rewrite H1, H2. simpl.
  by rewrite day_type_sum, filter_classify_weekday, H3.
Qed.

(** C19. The partition property: with non-negative counts whose exact
    total fits in [int64], the ['Weekday'] and ['Weekend'] totals add up,
    exactly, to the sum of [cnt] over the frame. *)
Theorem weekday_weekend_sum_exact df :
  Forall (fun r => 0 <= cnt r) df -> sumZ (cnt_col df) < half64 ->
  sum64 (map by_total_rentals (weekday_weekend_table df)) = sumZ (cnt_col df).
Proof.
  intros Hpos Hlt. rewrite weekday_weekend_table_total.
  apply sum64_exact; [by apply List.Forall_map|done].
Qed.

(** ** Witnesses *)

Lemma weekday_weekend_table_one_kind_witness :
  weekday_weekend_table [mkRow 18628 4 100 None] =
  [mkByDayType "Weekday" (sum64 (cnt_col [mkRow 18628 4 100 None]))].
Proof. apply weekday_weekend_table_one_kind; [discriminate|repeat constructor; simpl; lia]. Defined.

Lemma weekday_weekend_sum_exact_witness :
  sum64 (map by_total_rentals (weekday_weekend_table example_rows)) = sumZ (cnt_col example_rows).
Proof.
  apply weekday_weekend_sum_exact; [repeat constructor; simpl; lia|vm_compute; reflexivity].
Defined.

End DayType.
