(* ===== verification/Calendar.v ===== *)
(** * Dates: [pd.to_datetime] on the [dteday] strings (lines 16 and 47)

    The dataset stores its dates as ISO strings ["YYYY-MM-DD"].  Line 47
    converts them with [pd.to_datetime]: pandas parses the digits, checks
    the month and the day against the month's length, turns the calendar
    date into a day count with numpy's [get_datetimestruct_days] and
    refuses, with [OutOfBoundsDatetime], a day whose nanosecond count
    does not fit in [int64].  The reverse conversion, used whenever a
    [Timestamp] is shown, is numpy's [set_datetimestruct_days] (with
    [days_to_yearsdays]).  Both are transcribed with C's truncating
    division ([Z.quot], [Z.rem]) and the month loops as they are written.
    A string of another form (a time part, unpadded fields, another order)
    is outside the model: pandas may infer its format and parse it, and
    [to_datetime] returns [FormatNotModelled] rather than an error.

    A pandas [Timestamp] counts nanoseconds in an [int64], so the dates a
    day count can stand for are the days [-106751 .. 106751]
    (1677-09-22 .. 2262-04-11).  The theorems: over exactly that range,
    the two numpy conversions are inverse to each other (checked day by
    day); parsing and printing ISO strings are inverse to each other; a
    conversion that succeeds gives a day of that range; and the weekday
    column's convention decides which days the dashboard counts as
    weekend. *)

From Stdlib Require Import ZArith Lia List String Ascii.
From stdpp Require Import base list.
From S2P Require Import Prelude DayType.
Import ListNotations DayType.
Open Scope Z_scope.

Module Calendar.

(** ** numpy's calendar arithmetic *)

(** [is_leapyear]: [(year & 0x3) == 0 && ((year % 100) != 0 || (year % 400) == 0)]. *)
Definition is_leapyear (year : Z) : bool :=
  (Z.land year 3 =? 0) && (negb (Z.rem year 100 =? 0) || (Z.rem year 400 =? 0)).

(** [days_per_month_table[is_leapyear(year)]]. *)
Definition days_per_month_table (leap : bool) : list Z :=
  if leap then [31; 29; 31; 30; 31; 30; 31; 31; 30; 31; 30; 31]
  else [31; 28; 31; 30; 31; 30; 31; 31; 30; 31; 30; 31].

(** The year part of [get_datetimestruct_days]: days from 1970-01-01 to
    the first day of [year0], counting leap days with truncating division
    on either side of 1970. *)
Definition year_offset_days (year0 : Z) : Z :=
  let year := year0 - 1970 in
  let days := year * 365 in
  if 0 <=? days then
    let year := year + 1 in
    let days := days + Z.quot year 4 in
    let year := year + 68 in
    let days := days - Z.quot year 100 in
    let year := year + 300 in
    days + Z.quot year 400
  else
    let year := year - 2 in
    let days := days + Z.quot year 4 in
    let year := year - 28 in
    let days := days - Z.quot year 100 in
    days + Z.quot year 400.

(** [for (i = 0; i < month; ++i) days += month_lengths[i];] *)
Fixpoint add_months (month_lengths : list Z) (month : nat) : Z :=
  match month, month_lengths with
  | S i, len :: rest => len + add_months rest i
  | _, _ => 0
  end.

(** [get_datetimestruct_days]: the day count of a calendar date. *)
Definition get_datetimestruct_days (y m d : Z) : Z :=
  year_offset_days y
  + add_months (days_per_month_table (is_leapyear y)) (Z.to_nat (m - 1))
  + (d - 1).

Definition days_per_400years : Z := 400 * 365 + 100 - 4 + 1.

(** [days_to_yearsdays]: the year of a day count and the day within it. *)
Definition days_to_yearsdays (days0 : Z) : Z * Z :=
  let days := days0 - (365 * 30 + 7) in
  let '(year, days) :=
    if 0 <=? days then
      (400 * Z.quot days days_per_400years, Z.rem days days_per_400years)
    else
      let r := Z.rem days days_per_400years in
      (400 * Z.quot (days - (days_per_400years - 1)) days_per_400years,
       if r <? 0 then r + days_per_400years else r) in
  let '(year, days) :=
    if 366 <=? days then
      let year := year + 100 * Z.quot (days - 1) (100 * 365 + 25 - 1) in
      let days := Z.rem (days - 1) (100 * 365 + 25 - 1) in
      if 365 <=? days then
        let year := year + 4 * Z.quot (days + 1) (4 * 365 + 1) in
        let days := Z.rem (days + 1) (4 * 365 + 1) in
        if 366 <=? days then (year + Z.quot (days - 1) 365, Z.rem (days - 1) 365)
        else (year, days)
      else (year, days)
    else (year, days) in
  (year + 2000, days).

(** The month loop of [set_datetimestruct_days]:
    [for (i = 0; i < 12; ++i) { if (days < month_lengths[i]) { month = i + 1;
    day = days + 1; return; } else days -= month_lengths[i]; }]. *)
Fixpoint month_loop (i days : Z) (month_lengths : list Z) : Z * Z :=
  match month_lengths with
  | [] => (i, days + 1)
  | len :: rest => if days <? len then (i + 1, days + 1) else month_loop (i + 1) (days - len) rest
  end.

(** [set_datetimestruct_days]: the calendar date of a day count. *)
Definition set_datetimestruct_days (days : Z) : Z * Z * Z :=
  let '(year, d) := days_to_yearsdays days in
  let '(month, day) := month_loop 0 d (days_per_month_table (is_leapyear year)) in
  (year, month, day).

(** ** [Timestamp] bounds *)

Definition ns_per_day : Z := 86400 * 10 ^ 9.

(** A day is a [Timestamp] when its nanosecond count fits in [int64]. *)
Definition in_ns_bounds (days : Z) : bool :=
  (- half64 <=? days * ns_per_day) && (days * ns_per_day <? half64).

(** ** ISO strings *)

Definition digit_val (c : ascii) : option Z :=
  let n := Z.of_nat (nat_of_ascii c) in
  if (48 <=? n) && (n <=? 57) then Some (n - 48) else None.

(** The year, month and day of a string ["YYYY-MM-DD"]. *)
Definition parse_iso (s : string) : option (Z * Z * Z) :=
  match s with
  | String y1 (String y2 (String y3 (String y4 (String s1
      (String m1 (String m2 (String s2 (String d1 (String d2 EmptyString))))))))) =>
      if Ascii.eqb s1 "-" && Ascii.eqb s2 "-" then
        a ← digit_val y1; b ← digit_val y2; c ← digit_val y3; e ← digit_val y4;
        f ← digit_val m1; g ← digit_val m2; h ← digit_val d1; i ← digit_val d2;
        Some (1000 * a + 100 * b + 10 * c + e, 10 * f + g, 10 * h + i)
      else None
  | _ => None
  end.

(** The month and day checks of pandas' parser. *)
Definition valid_ymd (y m d : Z) : bool :=
  (1 <=? m) && (m <=? 12) && (1 <=? d) &&
  (d <=? nth (Z.to_nat (m - 1)) (days_per_month_table (is_leapyear y)) 0).

Inductive DateError :=
  (** [DateParseError] / [ValueError]: a string of the form YYYY-MM-DD
      that names no calendar date. *)
  | DateParseError
  (** A string not of the form YYYY-MM-DD (a time part, unpadded fields,
      blanks, another order): pandas may infer its format and parse it,
      the model does not. *)
  | FormatNotModelled
  (** [OutOfBoundsDatetime]: a date a nanosecond [Timestamp] cannot hold. *)
  | OutOfBoundsDatetime.

#[export] Instance DateError_eq_dec : EqDecision DateError.
Proof. solve_decision. Defined.

(** [pd.to_datetime] on one ISO date string: its day count. *)
Definition to_datetime (s : string) : DateError + Z :=
  match parse_iso s with
  | None => inl FormatNotModelled
  | Some (y, m, d) =>
      if valid_ymd y m d then
        let days := get_datetimestruct_days y m d in
        if in_ns_bounds days then inr days else inl OutOfBoundsDatetime
      else inl DateParseError
  end.

(** The character of a digit, and dates printed as ["YYYY-MM-DD"]
    ([str(date)]). *)
Definition dchar (k : Z) : ascii := ascii_of_nat (Z.to_nat (48 + k)).

Definition pad2 (k : Z) : string :=
  String (dchar (k / 10)) (String (dchar (k mod 10)) EmptyString).

Definition pad4 (k : Z) : string :=
  String (dchar (k / 1000)) (String (dchar ((k / 100) mod 10))
    (String (dchar ((k / 10) mod 10)) (String (dchar (k mod 10)) EmptyString))).

Definition format_ymd (y m d : Z) : string :=
  pad4 y ++ String "-" (pad2 m ++ String "-" (pad2 d)).

Definition format_date (days : Z) : string :=
  let '(y, m, d) := set_datetimestruct_days days in format_ymd y m d.

(** The weekday of a day count, Monday = 0 (1970-01-01 was a Thursday),
    as [Timestamp.dayofweek] gives it. *)
Definition dayofweek (days : Z) : Z := (days + 3) mod 7.

(** The weekday index of the UCI bike-sharing data, Sunday = 0. *)
Definition uci_weekday (days : Z) : Z := (days + 4) mod 7.

(** The length of a year, as the month table sums it. *)
Definition year_length (y : Z) : Z := add_months (days_per_month_table (is_leapyear y)) 12.

(** ** Bounded checks

    A [Timestamp] holds the days [-106751 .. 106751]: the conversions are
    checked on each of them, and the year arithmetic on each four-digit
    year, the years an ISO string can name. *)

Definition day_roundtrip_ok (n : Z) : bool :=
  let '(y, m, d) := set_datetimestruct_days n in
  valid_ymd y m d && (get_datetimestruct_days y m d =? n) && (1677 <=? y) && (y <=? 2262).

Definition year_step_ok (y : Z) : bool :=
  year_offset_days (y + 1) =? year_offset_days y + year_length y.

(** Within a year: the day of year of a valid month and day is below the
    year's length, and the month loop gives the month and day back. *)
Definition day_of_year (leap : bool) (m d : Z) : Z :=
  add_months (days_per_month_table leap) (Z.to_nat (m - 1)) + (d - 1).

Definition month_day_ok (leap : bool) (m d : Z) : bool :=
  negb (d <=? nth (Z.to_nat (m - 1)) (days_per_month_table leap) 0) ||
  ((day_of_year leap m d <? add_months (days_per_month_table leap) 12) &&
   bool_decide (month_loop 0 (day_of_year leap m d) (days_per_month_table leap) = (m, d))).

Definition month_days_checked (leap : bool) : bool :=
  check_from (fun m => check_from (month_day_ok leap m) 1 31) 1 12.

Lemma days_roundtrip_checked n :
  -106751 <= n <= 106751 -> day_roundtrip_ok n = true.
Proof.
  intros Hn. apply (check_from_spec day_roundtrip_ok (-106751) (Z.to_nat 213503)); [|lia].
  vm_compute. reflexivity.
Qed.

Lemma year_step_checked y : 0 <= y <= 9999 -> year_step_ok y = true.
Proof.
  intros Hy. apply (check_from_spec year_step_ok 0 (Z.to_nat 10000)); [|lia].
  vm_compute. reflexivity.
Qed.

Lemma set_datetimestruct_days_ok n :
  -106751 <= n <= 106751 ->
  exists y m d, set_datetimestruct_days n = (y, m, d) /\ valid_ymd y m d = true /\
    get_datetimestruct_days y m d = n /\ 1677 <= y <= 2262.
Proof.
  intros Hn. pose proof (days_roundtrip_checked n Hn) as H. unfold day_roundtrip_ok in H.
  destruct (set_datetimestruct_days n) as [[y m] d].
  apply andb_prop in H as [H H4]. apply andb_prop in H as [H H3].
  apply andb_prop in H as [Hv H2]. zbool. exists y, m, d. repeat split; done || lia.
Qed.

Lemma in_ns_bounds_iff n : in_ns_bounds n = true <-> -106751 <= n <= 106751.
Proof.
  unfold in_ns_bounds, ns_per_day, half64. rewrite andb_true_iff, Z.leb_le, Z.ltb_lt. lia.
Qed.

(** ** Digits *)

Lemma digit_val_dchar k : 0 <= k <= 9 -> digit_val (dchar k) = Some k.
Proof.
  intros Hk. assert (k = 0 \/ k = 1 \/ k = 2 \/ k = 3 \/ k = 4 \/ k = 5 \/ k = 6 \/
                     k = 7 \/ k = 8 \/ k = 9) as Hc by lia.
  repeat destruct Hc as [->|Hc]; try reflexivity. subst. reflexivity.
Qed.

Lemma dchar_digit_val c k : digit_val c = Some k -> dchar k = c /\ 0 <= k <= 9.
Proof.
  unfold digit_val, dchar. destruct (_ && _) eqn:E; [|done]. intros [= <-]. zbool.
  split; [|lia]. replace (Z.to_nat (48 + (Z.of_nat (nat_of_ascii c) - 48))) with (nat_of_ascii c) by lia.
  apply ascii_nat_embedding.
Qed.

(** Printing then parsing gives back the year, month and day. *)
Lemma parse_format_ymd y m d :
  0 <= y <= 9999 -> 0 <= m <= 99 -> 0 <= d <= 99 -> parse_iso (format_ymd y m d) = Some (y, m, d).
Proof.
  intros Hy Hm Hd. unfold format_ymd, pad4, pad2, parse_iso. simpl.
  rewrite !digit_val_dchar by zdiv. simpl. do 3 f_equal; zdiv.
Qed.

(** Whatever parses was printed from its fields, each in its width. *)
Lemma parse_iso_format s y m d :
  parse_iso s = Some (y, m, d) ->
  s = format_ymd y m d /\ 0 <= y <= 9999 /\ 0 <= m <= 99 /\ 0 <= d <= 99.
Proof.
  unfold parse_iso. do 10 (destruct s as [|? s]; [discriminate|]). destruct s; [|discriminate].
  destruct (Ascii.eqb _ "-" && _) eqn:Hs; [|discriminate].
  apply andb_prop in Hs as [Hs1 Hs2]. apply Ascii.eqb_eq in Hs1, Hs2. subst. intros H.
  repeat match goal with
  | H : digit_val ?c ≫= _ = _ |- _ =>
      let E := fresh "E" in destruct (digit_val c) eqn:E; [|discriminate]; simpl in H;
      apply dchar_digit_val in E as [<- ?]
  end.
  injection H as <- <- <-. unfold format_ymd, pad4, pad2. cbv [String.append].
  repeat split; try zdiv. repeat f_equal; zdiv.
Qed.

(** ** Years and days within a year *)

Lemma Forall_days_per_month leap : Forall (fun x => 0 <= x) (days_per_month_table leap).
Proof. destruct leap; repeat constructor; lia. Qed.

Lemma days_per_month_le31 leap k : nth k (days_per_month_table leap) 0 <= 31.
Proof. destruct leap; do 12 (destruct k as [|k]; [simpl; lia|]); destruct k; simpl; lia. Qed.

Lemma add_months_nonneg leap k : 0 <= add_months (days_per_month_table leap) k.
Proof.
  generalize (days_per_month_table leap) (Forall_days_per_month leap).
  intros l Hl. revert k. induction Hl; intros [|k]; simpl; try lia. specialize (IHHl k). lia.
Qed.

Lemma year_length_ge leap : 365 <= add_months (days_per_month_table leap) 12.
Proof. destruct leap; simpl; lia. Qed.

Lemma valid_ymd_range y m d : valid_ymd y m d = true -> 1 <= m <= 12 /\ 1 <= d <= 31.
Proof.
  unfold valid_ymd. intros H. zbool.
  pose proof (days_per_month_le31 (is_leapyear y) (Z.to_nat (m - 1))). lia.
Qed.

Lemma month_day_ok_valid y m d :
  valid_ymd y m d = true -> month_day_ok (is_leapyear y) m d = true.
Proof.
  intros H. pose proof (valid_ymd_range y m d H) as [Hm Hd].
  apply (check_from_spec (month_day_ok (is_leapyear y) m) 1 31); [|lia].
  apply (check_from_spec (fun m => check_from (month_day_ok (is_leapyear y) m) 1 31) 1 12); [|lia].
  destruct (is_leapyear y); vm_compute; reflexivity.
Qed.

Lemma day_of_year_spec y m d :
  valid_ymd y m d = true ->
  0 <= day_of_year (is_leapyear y) m d < year_length y /\
  month_loop 0 (day_of_year (is_leapyear y) m d) (days_per_month_table (is_leapyear y)) = (m, d).
Proof.
  intros H. pose proof (month_day_ok_valid y m d H) as Hok. pose proof (valid_ymd_range y m d H).
  unfold valid_ymd in H. apply andb_prop in H as [_ Hd]. unfold month_day_ok in Hok.
  rewrite Hd in Hok. cbv [negb orb] in Hok. apply andb_prop in Hok as [H3 H4].
  apply Z.ltb_lt in H3. apply bool_decide_eq_true in H4.
  unfold year_length. split; [|done]. split; [|lia].
  unfold day_of_year. pose proof (add_months_nonneg (is_leapyear y) (Z.to_nat (m - 1))). lia.
Qed.

Lemma get_datetimestruct_days_split y m d :
  get_datetimestruct_days y m d = year_offset_days y + day_of_year (is_leapyear y) m d.
Proof. unfold get_datetimestruct_days, day_of_year. lia. Qed.

Lemma year_offset_mono y k :
  0 <= y -> y + Z.of_nat k <= 10000 ->
  year_offset_days y + 365 * Z.of_nat k <= year_offset_days (y + Z.of_nat k).
Proof.
  intros Hy. induction k as [|k IH]; intros Hk; [change (Z.of_nat 0) with 0; rewrite !Z.add_0_r; lia|].
  pose proof (year_step_checked (y + Z.of_nat k) ltac:(lia)) as Hs. unfold year_step_ok in Hs. zbool.
  replace (y + Z.of_nat (S k)) with (y + Z.of_nat k + 1) by lia. rewrite Hs.
  pose proof (year_length_ge (is_leapyear (y + Z.of_nat k))). unfold year_length in *. lia.
Qed.

Lemma year_offset_after y y' :
  0 <= y < y' -> y' <= 10000 -> year_offset_days y + year_length y <= year_offset_days y'.
Proof.
  intros Hy Hy'. pose proof (year_step_checked y ltac:(lia)) as Hs. unfold year_step_ok in Hs. zbool.
  pose proof (year_offset_mono (y + 1) (Z.to_nat (y' - (y + 1))) ltac:(lia) ltac:(lia)).
  replace (y + 1 + Z.of_nat (Z.to_nat (y' - (y + 1)))) with y' in * by lia. lia.
Qed.

(** Two valid dates of four-digit years with the same day count are the same date. *)
Lemma get_datetimestruct_days_inj y m d y' m' d' :
  0 <= y <= 9999 -> 0 <= y' <= 9999 -> valid_ymd y m d = true -> valid_ymd y' m' d' = true ->
  get_datetimestruct_days y m d = get_datetimestruct_days y' m' d' -> (y, m, d) = (y', m', d').
Proof.
  intros Hy Hy' Hv Hv' E. rewrite !get_datetimestruct_days_split in E.
  pose proof (day_of_year_spec y m d Hv) as [[H1 H2] L].
  pose proof (day_of_year_spec y' m' d' Hv') as [[H1' H2'] L'].
  assert (y = y') as <-.
  { destruct (Z.lt_trichotomy y y') as [Hl|[?|Hl]]; [|done|];
      [pose proof (year_offset_after y y' ltac:(lia) ltac:(lia))
      |pose proof (year_offset_after y' y ltac:(lia) ltac:(lia))]; lia. }
  assert (day_of_year (is_leapyear y) m d = day_of_year (is_leapyear y) m' d') as E' by lia.
  rewrite E' in L. rewrite L in L'. injection L' as -> ->. done.
Qed.

Lemma format_date_eq n y m d :
  set_datetimestruct_days n = (y, m, d) -> format_date n = format_ymd y m d.
Proof. unfold format_date. intros ->. reflexivity. Qed.

Lemma to_datetime_format_ymd y m d :
  0 <= y <= 9999 -> 0 <= m <= 99 -> 0 <= d <= 99 ->
  to_datetime (format_ymd y m d) =
  if valid_ymd y m d then
    if in_ns_bounds (get_datetimestruct_days y m d) then inr (get_datetimestruct_days y m d)
    else inl OutOfBoundsDatetime
  else inl DateParseError.
Proof. intros. unfold to_datetime. rewrite parse_format_ymd by lia. reflexivity. Qed.

(** A day of the [Timestamp] range prints as a date of a four-digit year. *)
Lemma format_date_fields n :
  -106751 <= n <= 106751 ->
  exists y m d, format_date n = format_ymd y m d /\ 0 <= y <= 9999 /\ 1 <= m <= 12 /\ 1 <= d <= 31.
Proof.
  intros Hn. destruct (set_datetimestruct_days_ok n Hn) as (y & m & d & Hs & Hv & _ & Hy).
  pose proof (valid_ymd_range y m d Hv). exists y, m, d.
  split; [exact (format_date_eq _ _ _ _ Hs)|lia].
Qed.

Lemma format_date_read_back n :
  -106751 <= n <= 106751 -> to_datetime (format_date n) = inr n.
Proof.
  intros Hn. destruct (set_datetimestruct_days_ok n Hn) as (y & m & d & Hs & Hv & Hg & Hy).
  pose proof (valid_ymd_range y m d Hv). rewrite (format_date_eq _ _ _ _ Hs).
  rewrite to_datetime_format_ymd by lia. rewrite Hv, Hg.
  apply in_ns_bounds_iff in Hn. rewrite Hn. reflexivity.
Qed.

(** What [pd.to_datetime] accepts is a day of the [Timestamp] range. *)
Lemma to_datetime_bounds s n : to_datetime s = inr n -> -106751 <= n <= 106751.
Proof.
  unfold to_datetime. destruct (parse_iso s) as [[[y m] d]|]; [|discriminate].
  destruct (valid_ymd y m d); [|discriminate].
  destruct (in_ns_bounds _) eqn:Hb; [|discriminate]. intros [= <-]. by apply in_ns_bounds_iff.
Qed.

(** * Properties *)

(** C23. Round trip: every day a [Timestamp] can hold, printed as
    ["YYYY-MM-DD"], is read back by [pd.to_datetime] as the same day. *)
Theorem to_datetime_format_date n :
  -106751 <= n <= 106751 -> to_datetime (format_date n) = inr n.
Proof. apply format_date_read_back. Qed.

(** C24. Error paths: a well-formed string naming no calendar date (a
    month above 12, February 29 of a common year) raises the parse error,
    and a calendar date of a year outside 1677..2262 raises
    [OutOfBoundsDatetime]. *)
Theorem to_datetime_errors y m d :
  0 <= y <= 9999 -> 0 <= m <= 99 -> 0 <= d <= 99 ->
  (valid_ymd y m d = false -> to_datetime (format_ymd y m d) = inl DateParseError) /\
  (valid_ymd y m d = true -> y < 1677 \/ 2262 < y ->
   to_datetime (format_ymd y m d) = inl OutOfBoundsDatetime).
Proof.
  intros Hy Hm Hd. rewrite to_datetime_format_ymd by lia.
  split; intros Hv; rewrite Hv; [done|]. intros Hout.
  pose proof (day_of_year_spec y m d Hv) as [[H1 H2] _]. rewrite get_datetimestruct_days_split.
  destruct (in_ns_bounds _) eqn:Hb; [|done]. apply in_ns_bounds_iff in Hb. exfalso.
  destruct Hout as [Hl|Hl].
  - pose proof (year_offset_after y 1677 ltac:(lia) ltac:(lia)).
    assert (year_offset_days 1677 < -106751) by (vm_compute; reflexivity). lia.
  - pose proof (year_offset_mono 2263 (Z.to_nat (y - 2263)) ltac:(lia) ltac:(lia)).
    replace (2263 + Z.of_nat (Z.to_nat (y - 2263))) with y in * by lia.
    assert (106751 < year_offset_days 2263) by (vm_compute; reflexivity). lia.
Qed.

(** C25. The weekday convention of [create_weekday_weekend_df]: with
    pandas' numbering (Monday = 0) the rule [x >= 5] marks exactly
    Saturday and Sunday as weekend; with the UCI data's numbering
    (Sunday = 0) it marks Friday and Saturday instead. *)
Theorem classify_weekday_convention n :
  (classify (dayofweek n) = "Weekend"%string <-> dayofweek n = 5 \/ dayofweek n = 6) /\
  (classify (uci_weekday n) = "Weekend"%string <-> dayofweek n = 4 \/ dayofweek n = 5).
Proof. unfold uci_weekday, dayofweek. rewrite !classify_weekend. split; zdiv. Qed.

(** Witnesses. *)

Lemma to_datetime_format_date_witness :
  -106751 <= 14981 <= 106751 /\ to_datetime (format_date 14981) = inr 14981.
Proof. split; [lia|]. apply to_datetime_format_date. lia. Defined.

Lemma to_datetime_errors_witness :
  (valid_ymd 1500 2 29 = false -> to_datetime (format_ymd 1500 2 29) = inl DateParseError) /\
  (valid_ymd 1500 2 29 = true -> 1500 < 1677 \/ 2262 < 1500 ->
   to_datetime (format_ymd 1500 2 29) = inl OutOfBoundsDatetime).
Proof. apply to_datetime_errors; lia. Defined.

End Calendar.
