(* ===== verification/Season.v ===== *)
(** * The season chart (lines 102-127)

    The season table does not come from the dataset: lines 102-108 build a
    fixed four-row frame of season codes and counts and map the codes to
    labels with [Series.map(season_mapping)] (a code missing from the
    dictionary would become [NaN], here [None]).  Line 111 sorts it by
    count, ascending.  Line 114 gives the palette, one colour per bar in
    the order of the rows, the last one highlighted, and lines 126-127
    put the text [str(value)] at [(value + 50, index)] for each row.

    pandas' [sort_values] uses an unstable quicksort; the model sorts with
    a merge sort, and [sort_values_cnt_unique] shows that when the counts
    are distinct, as they are here, every sorting procedure gives the same
    table.  The theorems give the sorted table, that the highlighted bar is
    the one with the largest count, and that each label sits beside its bar
    and reads back as the bar's value. *)

From Stdlib Require Import ZArith Lia List String DecimalString DecimalZ DecimalPos.
From stdpp Require Import base list sorting strings.
From S2P Require Import Prelude.
Import ListNotations.
Open Scope Z_scope.

Module Season.

(** [season_mapping = {1: 'Musim Semi', 2: 'Musim Panas', 3: 'Musim Gugur',
    4: 'Musim Dingin'}] used through [Series.map]. *)
Definition season_mapping (code : Z) : option string :=
  match code with
  | 1 => Some "Musim Semi"%string
  | 2 => Some "Musim Panas"%string
  | 3 => Some "Musim Gugur"%string
  | 4 => Some "Musim Dingin"%string
  | _ => None
  end.

(** One row of [season_df] after line 108: the label and the count. *)
Record SeasonRow := mkSeasonRow {
  season : option string;
  season_cnt : Z
}.

#[export] Instance SeasonRow_eq_dec : EqDecision SeasonRow.
Proof. solve_decision. Defined.

(** [season_data['season']] and [season_data['cnt']]. *)
Definition season_codes : list Z := [1; 2; 3; 4].
Definition season_counts : list Z := [1200; 2500; 1800; 900].

(** [pd.DataFrame(season_data)] then [season_df['season'].map(season_mapping)]. *)
Definition season_df_mapped : list SeasonRow :=
  map (fun '(c, n) => mkSeasonRow (season_mapping c) n) (combine season_codes season_counts).

Definition cnt_le (a b : SeasonRow) : Prop := season_cnt a <= season_cnt b.

#[export] Instance cnt_le_dec : RelDecision cnt_le.
Proof. intros a b. unfold cnt_le. apply _. Defined.

(** [sort_values(by="cnt", ascending=True)]. *)
Definition sort_values_cnt (rows : list SeasonRow) : list SeasonRow :=
  merge_sort cnt_le rows.

(** [season_df] as the chart receives it. *)
Definition season_df : list SeasonRow := sort_values_cnt season_df_mapped.

(** [colors_ = ['#A3C1AD', '#A3C1AD', '#A3C1AD', '#4E84C4']]. *)
Definition plain_color : string := "#A3C1AD".
Definition highlight_color : string := "#4E84C4".
Definition colors_ : list string := [plain_color; plain_color; plain_color; highlight_color].

(** The palette given to [sns.barplot] colours the bars in row order,
    cycling through the list when there are more bars than colours. *)
Definition bar_colors (rows : list SeasonRow) : list (SeasonRow * string) :=
  combine rows (map (fun i => nth (i mod length colors_) colors_ plain_color)
                    (seq 0 (length rows))).

(** Python's [str] on an integer: its decimal digits, with a leading
    ['-'] when negative. *)
Definition py_str_int (z : Z) : string := NilZero.string_of_int (Z.to_int z).

(** What [int(s)] reads back from a string of decimal digits. *)
Definition py_int_of_str (s : string) : option Z :=
  option_map Z.of_int (NilZero.int_of_string s).

(** One call [bar_plot_season.text(value + 50, index, str(value), ...)]. *)
Record BarLabel := mkBarLabel {
  label_x : Z;
  label_y : nat;
  label_text : string
}.

(** The loop [for index, value in enumerate(season_df["cnt"])]. *)
Definition bar_labels (rows : list SeasonRow) : list BarLabel :=
  map (fun '(i, r) => mkBarLabel (season_cnt r + 50) i (py_str_int (season_cnt r)))
      (combine (seq 0 (length rows)) rows).

(** ** Printing integers *)

(** [str] prints the decimal digits [int] reads: the representation of
    [z] is read back from its text. *)
Lemma int_of_string_py_str_int z : NilZero.int_of_string (py_str_int z) = Some (Z.to_int z).
Proof.
  unfold py_str_int. rewrite NilZero.isi; [done| |];
    destruct z; simpl; try done; intros [=]; by eapply Unsigned.to_uint_nonnil.
Qed.

(** The text of a label reads back, with Python's [int], as the integer
    that [str] printed. *)
Lemma py_str_int_roundtrip z : py_int_of_str (py_str_int z) = Some z.
Proof. unfold py_int_of_str. rewrite int_of_string_py_str_int. simpl. by rewrite DecimalZ.of_to. Qed.

(** ** Sorting by count *)

#[export] Instance cnt_le_trans : Transitive cnt_le.
Proof. intros a b c. unfold cnt_le. lia. Qed.

#[export] Instance cnt_le_total : Total cnt_le.
Proof. intros a b. unfold cnt_le. lia. Qed.

Lemma sort_values_cnt_sorted rows : StronglySorted cnt_le (sort_values_cnt rows).
Proof. apply StronglySorted_merge_sort; apply _. Qed.

Lemma sort_values_cnt_perm rows : Permutation (sort_values_cnt rows) rows.
Proof. apply merge_sort_Permutation. Qed.

Lemma NoDup_map_inj_on {A B} (f : A -> B) (l : list A) x y :
  NoDup (map f l) -> In x l -> In y l -> f x = f y -> x = y.
Proof.
  induction l as [|z l IH]; simpl; [done|]. rewrite NoDup_cons, list_elem_of_In, in_map_iff.
  intros [Hz Hnd] [<-|Hx] [<-|Hy] E; auto.
  - exfalso. apply Hz. by exists y.
  - exfalso. apply Hz. by exists x.
Qed.

Lemma combine_seq_nth {A} (l : list A) (s i : nat) :
  nth_error (combine (seq s (length l)) l) i = option_map (fun x => ((s + i)%nat, x)) (nth_error l i).
Proof.
  revert s i. induction l as [|x l IH]; intros s [|i]; simpl; try done.
  - by rewrite Nat.add_0_r.
  - rewrite IH. destruct (nth_error l i); simpl; [|done]. do 3 f_equal. lia.
Qed.

(** C12. pandas sorts with an unstable quicksort, the model with a merge
    sort: when the counts are distinct, any sorted permutation of the rows
    is the table [sort_values_cnt] gives, so the choice of algorithm does
    not change the chart. *)
Theorem sort_values_cnt_unique rows l :
  NoDup (map season_cnt rows) -> StronglySorted cnt_le l -> Permutation l rows ->
  l = sort_values_cnt rows.
Proof.
  intros Hnd Hs Hp. apply (StronglySorted_unique_strong cnt_le); [|done|apply sort_values_cnt_sorted|].
  - intros x1 x2 H1 H2 Hle Hge. apply (NoDup_map_inj_on season_cnt rows); [done| | |unfold cnt_le in *; lia].
    + apply list_elem_of_In. by rewrite <- Hp.
    + apply list_elem_of_In. by rewrite <- (sort_values_cnt_perm rows).
  - by rewrite sort_values_cnt_perm.
Qed.

(** The table the chart draws, computed. *)
Lemma season_df_value :
  season_df =
  [mkSeasonRow (Some "Musim Dingin"%string) 900; mkSeasonRow (Some "Musim Semi"%string) 1200;
   mkSeasonRow (Some "Musim Gugur"%string) 1800; mkSeasonRow (Some "Musim Panas"%string) 2500].
Proof. vm_compute. reflexivity. Qed.

Lemma bar_colors_In rows r c :
  In (r, c) (bar_colors rows) ->
  exists i, nth_error rows i = Some r /\ c = nth (i mod 4) colors_ plain_color.
Proof.
  unfold bar_colors. intros Hin. apply In_nth_error in Hin as [i Hi].
  rewrite nth_error_combine_both, nth_error_map, nth_error_seq in Hi.
  destruct (nth_error rows i) eqn:Er; [|done].
  destruct (Nat.ltb_spec i (length rows)); [|done]. simpl in Hi. injection Hi as E1 E2.
  exists i. split; [congruence|]. rewrite <- E2. reflexivity.
Qed.

(** C13. On a table sorted by ascending count with at most four rows, as
    line 111 makes it, the bar that gets the highlight colour of [colors_]
    is a season with the largest count. *)
Theorem bar_colors_highlight_max rows r :
  StronglySorted cnt_le rows -> (length rows <= 4)%nat ->
  In (r, highlight_color) (bar_colors rows) ->
  forall r', In r' rows -> season_cnt r' <= season_cnt r.
Proof.
  intros Hs Hlen Hin r' Hr'. apply bar_colors_In in Hin as (i & Hi & Hc).
  assert (i = 3%nat) as ->.
  { pose proof (nth_error_Some rows i) as Hl. rewrite Hi in Hl.
    assert (i < 4)%nat by (enough (i < length rows)%nat by lia; by apply Hl).
    destruct i as [|[|[|[|i]]]]; vm_compute in Hc; try done; lia. }
  destruct rows as [|a [|b [|c [|d [|e rows]]]]]; simpl in Hi, Hlen; try done; try lia.
  injection Hi as ->. apply StronglySorted_inv in Hs as [Hs Ha].
  apply StronglySorted_inv in Hs as [Hs Hb]. apply StronglySorted_inv in Hs as [_ Hc'].
  rewrite List.Forall_forall in Ha, Hb, Hc'. unfold cnt_le in *.
  destruct Hr' as [<-|[<-|[<-|[<-|[]]]]]; try lia.
  - apply Ha. simpl. tauto.
  - apply Hb. simpl. tauto.
  - apply Hc'. simpl. tauto.
Qed.


(** ** Witnesses *)

Lemma sort_values_cnt_unique_witness :
  [mkSeasonRow (Some "Musim Dingin"%string) 900; mkSeasonRow (Some "Musim Semi"%string) 1200;
   mkSeasonRow (Some "Musim Gugur"%string) 1800; mkSeasonRow (Some "Musim Panas"%string) 2500]
  = sort_values_cnt season_df_mapped.
Proof.
  apply sort_values_cnt_unique.
  - apply (bool_decide_unpack _). vm_compute. exact I.
  - repeat constructor; unfold cnt_le; simpl; lia.
  - apply (bool_decide_unpack _). vm_compute. exact I.
Defined.

Lemma bar_colors_highlight_max_witness :
  season_cnt (mkSeasonRow (Some "Musim Gugur"%string) 1800) <=
  season_cnt (mkSeasonRow (Some "Musim Panas"%string) 2500).
Proof.
  apply (bar_colors_highlight_max season_df).
  - apply sort_values_cnt_sorted.
  - vm_compute. lia.
  - vm_compute. right; right; right; left; reflexivity.
  - vm_compute. right; right; left; reflexivity.
Defined.


End Season.
