(* ===== verification/Dashboard.v ===== *)
(** * One run of the script and the first run of a session (lines 48-76)

    [run_script] is the body of dashboard.py from the top: the loaded rows
    are sorted by date (line 48), their first and last dates bound the
    widget (lines 52-65), the widget value is unpacked into two dates
    (line 60), the frame is filtered (line 68), both helpers run on the
    filtered frame in the order of lines 71-72 and the daily totals are
    summed into the metric (line 75).  The season table, which does not
    depend on the data, is part of every view.

    The widget value is what [st.date_input] returns for a range: a tuple
    of zero, one or two dates, each within the bounds.  While the user has
    picked only the first date of a range it is a one-element tuple, and
    the unpacking of line 60 raises [ValueError]; [unpack2] returns that
    error.  An empty dataset has [NaT] bounds; the model stops such a run
    with [NoDates] and does not model what Streamlit does with them.

    Streamlit re-runs the whole script after every change of the widget,
    each time [run_script] on the new value; [session_start] is the first
    run, with the widget at its default value [[min_date, max_date]].

    The theorems: the metric is the [int64] sum of [cnt] over the rows in
    the selected range and equals the total of the weekday/weekend table;
    the view does not depend on the order the loader sorted rows with equal
    dates into; the untouched widget shows the whole dataset; a reversed
    range shows empty tables; a one-date widget value raises the
    unpacking error. *)

From Stdlib Require Import ZArith Lia List String.
From stdpp Require Import base list sorting.
From S2P Require Import Prelude Frame Filter Daily DayType Season.
Import ListNotations Frame Filter Daily DayType Season.
Open Scope Z_scope.
Open Scope dash_scope.

Module Dashboard.

(** ** Loading *)

Definition date_le (a b : Row) : Prop := dteday a <= dteday b.

#[export] Instance date_le_dec : RelDecision date_le.
Proof. intros a b. unfold date_le. apply _. Defined.

(** [all_df.sort_values(by="dteday", inplace=True)] (line 48). *)
Definition sort_by_date (df : list Row) : list Row := merge_sort date_le df.

(** ** Errors of a run *)

Inductive ScriptError :=
  (** The dataset has no row, so [min_date] and [max_date] are [NaT]. *)
  | NoDates
  (** [ValueError] of the unpacking on line 60: the widget returned a tuple
      of this many dates instead of two. *)
  | UnpackError (got : nat).

#[export] Instance ScriptError_eq_dec : EqDecision ScriptError.
Proof. solve_decision. Defined.

(** [start_date, end_date = st.date_input(...)] (line 60). *)
Definition unpack2 (v : list Date) : ScriptError + (Date * Date) :=
  match v with
  | [a; b] => inr (a, b)
  | _ => inl (UnpackError (length v))
  end.

(** ** The view a run produces *)

Record View := mkView {
  min_date : Date;
  max_date : Date;
  main_df : list Row;
  daily_orders_df : list DailyTotal;
  weekday_weekend_df : list ByDayType;
  total_orders : Z;
  season_table : list SeasonRow
}.

(** Lines 71-72: both helpers run on the filtered frame, the daily one
    first; the second writes its [day_type] column into that frame.  The
    result is the frame after the writes and the two tables. *)
Definition prepare_frames (main_df : list Row) : list Row * list DailyTotal * list ByDayType :=
  let daily := create_daily_orders_df main_df in
  let '(main_df', by_day_type) := create_weekday_weekend_df main_df in
  (main_df', daily, by_day_type).

(** One run of dashboard.py on the rows read from All_Data.csv and the
    value the date-range widget returns. *)
Definition run_script (csv : list Row) (widget : list Date) : ScriptError + View :=
  let all_df := sort_by_date csv in
  match date_min all_df, date_max all_df with
  | Some lo, Some hi =>
      match unpack2 widget with
      | inl err => inl err
      | inr (start_date, end_date) =>
          let main_df := filter_range all_df start_date end_date in
          let '(main_df', daily, by_day_type) := prepare_frames main_df in
          inr (mkView lo hi main_df' daily by_day_type
                      (sum64 (map total_rentals daily)) season_df)
      end
  | _, _ => inl NoDates
  end.

(** ** The Streamlit session *)

(** The bounds of the widget: the first and last date of the data. *)
Definition bounds (csv : list Row) : option (Date * Date) :=
  match date_min (sort_by_date csv), date_max (sort_by_date csv) with
  | Some lo, Some hi => Some (lo, hi)
  | _, _ => None
  end.

Record Session := mkSession {
  widget : list Date;
  shown : ScriptError + View
}.

(** The first run: the widget holds its default [value=[min_date, max_date]]. *)
Definition session_start (csv : list Row) : Session :=
  let v := match bounds csv with Some (lo, hi) => [lo; hi] | None => [] end in
  mkSession v (run_script csv v).

(** ** Lemmas on loading *)

#[export] Instance date_le_trans : Transitive date_le.
Proof. intros a b c. unfold date_le. lia. Qed.

#[export] Instance date_le_total : Total date_le.
Proof. intros a b. unfold date_le. lia. Qed.

Lemma sort_by_date_perm csv : Permutation (sort_by_date csv) csv.
Proof. apply merge_sort_Permutation. Qed.


Lemma bounds_spec csv :
  bounds csv = match date_min csv, date_max csv with
               | Some lo, Some hi => Some (lo, hi) | _, _ => None end.
Proof.
  unfold bounds. by rewrite (date_min_perm _ _ (sort_by_date_perm csv)),
                            (date_max_perm _ _ (sort_by_date_perm csv)).
Qed.

Lemma bounds_None csv : bounds csv = None <-> csv = [].
Proof.
  rewrite bounds_spec. split; [|by intros ->].
  destruct (date_min csv) eqn:E1, (date_max csv) eqn:E2; intros H; try done;
    [by apply date_max_None|by apply date_min_None..].
Qed.

Lemma bounds_Some csv lo hi :
  bounds csv = Some (lo, hi) -> date_min csv = Some lo /\ date_max csv = Some hi.
Proof. rewrite bounds_spec. by destruct (date_min csv), (date_max csv); intros [= -> ->]. Qed.

(** A run on a two-date widget value, unfolded. *)
Lemma run_script_two csv s e :
  run_script csv [s; e] =
  match bounds csv with
  | Some (lo, hi) =>
      let M := filter_range (sort_by_date csv) s e in
      inr (mkView lo hi (add_day_type M) (create_daily_orders_df M) (weekday_weekend_table M)
                  (sum64 (map total_rentals (create_daily_orders_df M))) season_df)
  | None => inl NoDates
  end.
Proof. unfold run_script, bounds. by destruct (date_min (sort_by_date csv)), (date_max (sort_by_date csv)). Qed.

Lemma run_script_not_two csv v :
  (length v <> 2)%nat ->
  run_script csv v = match bounds csv with Some _ => inl (UnpackError (length v)) | None => inl NoDates end.
Proof.
  intros Hl. unfold run_script, bounds.
  destruct (date_min (sort_by_date csv)), (date_max (sort_by_date csv)); try done.
  destruct v as [|a [|b [|c v]]]; simpl in *; done || lia.
Qed.

(** ** Lemmas on the session *)

Lemma bounds_le csv lo hi : bounds csv = Some (lo, hi) -> lo <= hi.
Proof. intros Hb. apply bounds_Some in Hb as [Hlo Hhi]. exact (date_min_max_le _ _ _ Hlo Hhi). Qed.

(** ** Clients of the aggregation interface *)

Section Client.
Context {O : Type} (agg : list Row -> list O) (total : O -> Z) `{!Aggregation agg total}.

(** On a reordering of the same rows, an aggregation keeps the total
    of the rows the range selects. *)
Lemma aggregation_total_range df1 df2 s e :
  Permutation df1 df2 ->
  sum64 (map total (agg (filter_range df1 s e))) = sum64 (cnt_col (filter_range df2 s e)).
Proof.
  intros Hp. rewrite agg_total. apply sum64_perm, cnt_col_perm, filter_range_perm, Hp.
Qed.

Lemma aggregation_range_perm df1 df2 s e :
  Permutation df1 df2 -> agg (filter_range df1 s e) = agg (filter_range df2 s e).
Proof. intros Hp. apply agg_perm, filter_range_perm, Hp. Qed.
End Client.

(** ** Loading *)

(** After line 48, [all_df] holds the loaded rows, each exactly as
    often as in the file, in ascending order of date. *)
Theorem sort_by_date_spec csv :
  Permutation (sort_by_date csv) csv /\ StronglySorted date_le (sort_by_date csv).
Proof. split; [apply merge_sort_Permutation|apply StronglySorted_merge_sort; apply _]. Qed.

(** ** A run *)

(** C1. The metric [total_orders] of a run on the range [start, end] is
    the [int64] sum of [cnt] over the rows of the dataset whose date lies
    in the range, and it equals the total of the weekday/weekend table;
    the only failing run on two dates is the one on an empty dataset. *)
Theorem run_script_total csv s e :
  match run_script csv [s; e] with
  | inr v => total_orders v = sum64 (cnt_col (filter_range csv s e)) /\
             sum64 (map by_total_rentals (weekday_weekend_df v)) = total_orders v
  | inl err => csv = [] /\ err = NoDates
  end.
Proof.
  rewrite run_script_two. destruct (bounds csv) as [[lo hi]|] eqn:Hb; simpl.
  - rewrite (aggregation_total_range create_daily_orders_df total_rentals _ _ s e (sort_by_date_perm csv)).
    split; [done|].
    by rewrite (aggregation_total_range weekday_weekend_table by_total_rentals _ _ s e (sort_by_date_perm csv)).
  - split; [by apply bounds_None|done].
Qed.

(** C5. While the user has picked only the first date of a range, the
    widget returns one date and line 60 raises [ValueError]: the run on a
    non-empty dataset ends with the unpacking error, and shows nothing. *)
Theorem run_script_one_date csv d :
  csv <> [] -> run_script csv [d] = inl (UnpackError 1).
Proof.
  intros Hne. rewrite run_script_not_two by (simpl; lia).
  destruct (bounds csv) eqn:Hb; [done|]. by apply bounds_None in Hb.
Qed.

(** C8. The view does not depend on the order of the loaded rows, so not
    on the order an unstable sort leaves rows with equal dates in: two
    runs on permutations of the same rows show the same bounds, daily table,
    weekday/weekend table and metric, and filter the same rows. *)
Theorem run_script_perm csv1 csv2 w :
  Permutation csv1 csv2 ->
  match run_script csv1 w, run_script csv2 w with
  | inr v1, inr v2 =>
      min_date v1 = min_date v2 /\ max_date v1 = max_date v2 /\
      daily_orders_df v1 = daily_orders_df v2 /\
      weekday_weekend_df v1 = weekday_weekend_df v2 /\
      total_orders v1 = total_orders v2 /\ Permutation (main_df v1) (main_df v2)
  | inl e1, inl e2 => e1 = e2
  | _, _ => False
  end.
Proof.
  intros Hp.
  assert (Hb : bounds csv1 = bounds csv2).
  { by rewrite !bounds_spec, (date_min_perm _ _ Hp), (date_max_perm _ _ Hp). }
  assert (Hs : Permutation (sort_by_date csv1) (sort_by_date csv2)).
  { by rewrite !sort_by_date_perm. }
  destruct (decide (length w = 2%nat)) as [Hl|Hl].
  - destruct w as [|s [|e [|]]]; simpl in Hl; try lia.
    rewrite !run_script_two, Hb. destruct (bounds csv2) as [[lo hi]|]; simpl; [|done].
    rewrite (aggregation_range_perm create_daily_orders_df total_rentals _ _ s e Hs),
            (aggregation_range_perm weekday_weekend_table by_total_rentals _ _ s e Hs).
    do 5 (split; [done|]). apply Permutation_map, filter_range_perm, Hs.
  - rewrite !run_script_not_two by done. rewrite Hb. by destruct (bounds csv2).
Qed.

(** C6. The untouched widget holds the whole span of the data, and the
    first run shows the [int64] total of [cnt] over the whole dataset. *)
Theorem session_start_total csv :
  match shown (session_start csv) with
  | inr v => total_orders v = sum64 (cnt_col csv)
  | inl err => csv = [] /\ err = NoDates
  end.
Proof.
  unfold session_start. destruct (bounds csv) as [[lo hi]|] eqn:Hb; simpl.
  - rewrite run_script_two, Hb. simpl.
    rewrite (aggregation_total_range create_daily_orders_df total_rentals _ _ lo hi (sort_by_date_perm csv)).
    apply bounds_Some in Hb as [Hlo Hhi]. rewrite filter_range_all; [done|]. intros r Hr.
    split; [exact (date_min_le _ _ Hlo r Hr)|exact (date_max_ge _ _ Hhi r Hr)].
  - apply bounds_None in Hb as ->. split; reflexivity.
Qed.

(** C7. A range whose end is before its start selects no row: the run
    shows an empty daily table, an empty weekday/weekend table and a
    metric of 0. *)
Theorem run_script_reversed csv s e :
  e < s ->
  match run_script csv [s; e] with
  | inr v => daily_orders_df v = [] /\ weekday_weekend_df v = [] /\ total_orders v = 0
  | inl err => csv = []
  end.
Proof.
  intros Hlt. rewrite run_script_two. destruct (bounds csv) as [[lo hi]|] eqn:Hb; simpl.
  - rewrite filter_range_none; [done|]. intros r _. lia.
  - by apply bounds_None.
Qed.

(** ** The session *)

(** The spec's example: on the rows (2021-01-01, weekday 4, 100)
    and (2021-01-02, weekday 5, 50) and the full range, the daily table is
    [(2021-01-01, 100); (2021-01-02, 50)], the weekday/weekend table is
    [('Weekday', 100); ('Weekend', 50)] and the metric is 150. *)
Example spec_example :
  match run_script example_rows [18628; 18629] with
  | inr v =>
      daily_orders_df v = [mkDaily 18628 100; mkDaily 18629 50] /\
      weekday_weekend_df v = [mkByDayType "Weekday" 100; mkByDayType "Weekend" 50] /\
      total_orders v = 150
  | inl _ => False
  end.
Proof. vm_compute. split; [reflexivity|split; reflexivity]. Qed.

(** ** Witnesses *)

Lemma run_script_one_date_witness : run_script example_rows [18628] = inl (UnpackError 1).
Proof. apply run_script_one_date. discriminate. Defined.

Lemma run_script_reversed_witness :
  match run_script example_rows [18629; 18628] with
  | inr v => daily_orders_df v = [] /\ weekday_weekend_df v = [] /\ total_orders v = 0
  | inl err => example_rows = []
  end.
Proof. apply run_script_reversed. lia. Defined.

Lemma run_script_perm_witness :
  match run_script example_rows [18628; 18629], run_script (rev example_rows) [18628; 18629] with
  | inr v1, inr v2 =>
      min_date v1 = min_date v2 /\ max_date v1 = max_date v2 /\
      daily_orders_df v1 = daily_orders_df v2 /\
      weekday_weekend_df v1 = weekday_weekend_df v2 /\
      total_orders v1 = total_orders v2 /\ Permutation (main_df v1) (main_df v2)
  | inl e1, inl e2 => e1 = e2
  | _, _ => False
  end.
Proof. apply run_script_perm. apply (bool_decide_unpack _). vm_compute. exact I. Defined.

End Dashboard.
