(* ===== verification/Missing.v ===== *)
(** * Missing dates: [NaT] in [all_df] (lines 47-68)

    A [dteday] cell that is empty is read as [NaN] and converted to
    [NaT] by [pd.to_datetime] on line 47; pandas goes on with such rows:
    - line 48, [sort_values(by="dteday")], sorts with [na_position='last']
      ([nargsort]): the rows with a date in the order of the sort, then the
      [NaT] rows in their original order ([sort_values_nat]);
    - lines 51-52, [min()] and [max()], skip [NaT] ([date_min_nat],
      [date_max_nat]);
    - line 68, [all_df["dteday"] >= start_date] and [<= end_date], is
      [False] on [NaT], so the mask drops those rows ([filter_range_nat]),
      and every frame computed after line 68 has dates only.
    A row of [all_df] is a [RawRow], its date an [option Date] ([None] is
    [NaT]); [present_rows] are the rows with a date, as [Frame.Row]s.
    [run_script_nat] is [Dashboard.run_script] on such a frame.

    The theorems: the sort is a permutation with the dated rows first,
    ascending, and the [NaT] rows last in their order; and the run on a
    frame with [NaT] rows is the run on its dated rows, so [NaT] rows
    change nothing the page shows. *)

From Stdlib Require Import ZArith Lia List.
From stdpp Require Import base list sorting.
From S2P Require Import Prelude Frame Filter Daily DayType Season Dashboard.
Import ListNotations Frame Filter Daily DayType Season Dashboard.
Open Scope Z_scope.

Module Missing.

(** A row of [all_df] after line 47: [None] is a [NaT] date. *)
Record RawRow := mkRaw {
  raw_dteday : option Date;
  raw_weekday : Z;
  raw_cnt : Z
}.

(** The row of a frame whose dates are all present ([day_type] not set). *)
Definition row_at (d : Date) (r : RawRow) : Row := mkRow d (raw_weekday r) (raw_cnt r) None.

Definition dated (r : RawRow) : option Row := (fun d => row_at d r) <$> raw_dteday r.

(** The rows with a date, in order. *)
Definition present_rows (df : list RawRow) : list Row := omap dated df.

Definition is_nat (r : RawRow) : bool := match raw_dteday r with None => true | Some _ => false end.

Definition raw_of (r : Row) : RawRow := mkRaw (Some (dteday r)) (weekday r) (cnt r).

(** Line 48 ([nargsort], [na_position='last']): the dated rows sorted by
    date, then the [NaT] rows in their order. *)
Definition sort_values_nat (df : list RawRow) : list RawRow :=
  map raw_of (sort_by_date (present_rows df)) ++ List.filter is_nat df.

(** Lines 51-52: [min()] and [max()] skip [NaT]. *)
Definition date_min_nat (df : list RawRow) : option Date := date_min (present_rows df).
Definition date_max_nat (df : list RawRow) : option Date := date_max (present_rows df).

(** Line 68: a comparison with [NaT] is [False]. *)
Definition between_mask_nat (start_date end_date : Date) (r : RawRow) : bool :=
  match raw_dteday r with
  | Some d => (start_date <=? d) && (d <=? end_date)
  | None => false
  end.

(** [all_df[mask]]: the rows kept, all with a date. *)
Definition filter_range_nat (df : list RawRow) (start_date end_date : Date) : list Row :=
  present_rows (List.filter (between_mask_nat start_date end_date) df).

(** The script from line 48 on a frame with [NaT] dates. *)
Definition run_script_nat (df : list RawRow) (widget : list Date) : ScriptError + View :=
  let all_df := sort_values_nat df in
  match date_min_nat all_df, date_max_nat all_df with
  | Some lo, Some hi =>
      match unpack2 widget with
      | inl err => inl err
      | inr (start_date, end_date) =>
          let main_df := filter_range_nat all_df start_date end_date in
          let '(main_df', daily, by_day_type) := prepare_frames main_df in
          inr (mkView lo hi main_df' daily by_day_type
                      (sum64 (map total_rentals daily)) season_df)
      end
  | _, _ => inl NoDates
  end.

(** The order of the sorted frame: dates ascending, [NaT] after every date. *)
Definition raw_le (a b : RawRow) : Prop :=
  match raw_dteday a, raw_dteday b with
  | Some x, Some y => x <= y
  | _, None => True
  | None, Some _ => False
  end.

(** ** The dated rows *)

Lemma present_rows_app df1 df2 : present_rows (df1 ++ df2) = present_rows df1 ++ present_rows df2.
Proof. apply omap_app. Qed.

Lemma present_rows_nat df : present_rows (List.filter is_nat df) = [].
Proof. unfold present_rows. induction df as [|[[d|] w c] df IH]; cbn; done. Qed.

Lemma present_rows_raw_of rs : Forall (fun r => day_type r = None) rs -> present_rows (map raw_of rs) = rs.
Proof. unfold present_rows. induction 1 as [|[d w c t] rs Ht _ IH]; [done|]. cbn in *. subst t. by rewrite IH. Qed.

Lemma present_rows_untyped df : Forall (fun r => day_type r = None) (present_rows df).
Proof. unfold present_rows. induction df as [|[[d|] w c] df IH]; cbn; by repeat constructor. Qed.

(** The dated rows, written back, are the rows that are not [NaT]. *)
Lemma map_raw_of_present df : map raw_of (present_rows df) = List.filter (fun r => negb (is_nat r)) df.
Proof. unfold present_rows. induction df as [|[[d|] w c] df IH]; cbn; by rewrite ?IH. Qed.

Lemma sort_by_date_untyped df :
  Forall (fun r => day_type r = None) df -> Forall (fun r => day_type r = None) (sort_by_date df).
Proof. intros H. eapply Permutation_Forall; [symmetry; apply merge_sort_Permutation|exact H]. Qed.

Lemma present_sort df : present_rows (sort_values_nat df) = sort_by_date (present_rows df).
Proof.
  unfold sort_values_nat. rewrite present_rows_app, present_rows_nat, app_nil_r.
  apply present_rows_raw_of, sort_by_date_untyped, present_rows_untyped.
Qed.

Lemma filter_range_nat_present df s e : filter_range_nat df s e = filter_range (present_rows df) s e.
Proof.
  unfold filter_range_nat, filter_range, present_rows.
  induction df as [|[[d|] w c] df IH]; cbn; [done| |done].
  unfold between_mask. cbn. destruct ((s <=? d) && (d <=? e)); cbn; by rewrite IH.
Qed.

(** The run on a frame with [NaT] rows is the run on its dated rows. *)
Lemma run_script_nat_present df widget : run_script_nat df widget = run_script (present_rows df) widget.
Proof.
  unfold run_script_nat, run_script, date_min_nat, date_max_nat. rewrite present_sort.
  destruct (date_min (sort_by_date (present_rows df))), (date_max (sort_by_date (present_rows df))); try done.
  destruct (unpack2 widget) as [?|[s e]]; [done|].
  by rewrite filter_range_nat_present, present_sort.
Qed.

(** ** The sort *)

Lemma filter_negb_perm {A} (f : A -> bool) (l : list A) :
  List.filter (fun x => negb (f x)) l ++ List.filter f l ≡ₚ l.
Proof.
  induction l as [|x l IH]; [done|]. cbn. destruct (f x); cbn; [|by rewrite IH].
  rewrite <- Permutation_middle. by rewrite IH.
Qed.

Lemma StronglySorted_raw_of rs : StronglySorted date_le rs -> StronglySorted raw_le (map raw_of rs).
Proof.
  induction 1 as [|r rs _ IH Hr]; cbn; constructor; [done|].
  apply Forall_map. eapply Forall_impl; [exact Hr|]. done.
Qed.

Lemma StronglySorted_nat df : StronglySorted raw_le (List.filter is_nat df).
Proof.
  induction df as [|[[d|] w c] df IH]; cbn; [constructor|done|].
  constructor; [done|]. apply List.Forall_forall. intros [[x|] w' c'] Hin; [|done].
  apply filter_In in Hin as [_ Hn]. discriminate.
Qed.

Lemma filter_nat_raw_of rs : List.filter is_nat (map raw_of rs) = [].
Proof. by induction rs. Qed.

Lemma filter_nat_idem df : List.filter is_nat (List.filter is_nat df) = List.filter is_nat df.
Proof. induction df as [|[[d|] w c] df IH]; cbn; by rewrite ?IH. Qed.

(** * Properties *)

(** C15. Line 48 on a frame with [NaT] dates: [sort_values] keeps every
    row, orders the dated rows by date before all [NaT] rows
    ([na_position='last']), and leaves the [NaT] rows in their original
    order. *)
Theorem sort_values_nat_spec df :
  sort_values_nat df ≡ₚ df /\ StronglySorted raw_le (sort_values_nat df) /\
  List.filter is_nat (sort_values_nat df) = List.filter is_nat df.
Proof.
  unfold sort_values_nat. split; [|split].
  - transitivity (map raw_of (present_rows df) ++ List.filter is_nat df).
    + apply Permutation_app_tail, Permutation_map, merge_sort_Permutation.
    + rewrite map_raw_of_present. apply filter_negb_perm.
  - apply StronglySorted_app_2.
    + intros x1 x2 _ Hx2. apply list_elem_of_In, filter_In in Hx2 as [_ Hn].
      unfold raw_le, is_nat in *. destruct (raw_dteday x2); [discriminate|by destruct (raw_dteday x1)].
    + apply StronglySorted_raw_of, StronglySorted_merge_sort; apply _.
    + apply StronglySorted_nat.
  - by rewrite List.filter_app, filter_nat_raw_of, filter_nat_idem.
Qed.

End Missing.
