(* ===== verification/Loader.v ===== *)
(** * Loading All_Data.csv and the run of the script on a file (lines 44-49)

    Line 44 reads the dataset with [pd.read_csv]; line 47 converts its
    [dteday] column with [pd.to_datetime] (modelled in [Calendar]).  This
    file models what pandas' parser does with the records of the C
    tokenizer ([Csv.tokenize]):
    - the first record is the header, its fields are the column names;
      no record at all is [EmptyDataError];
    - the number of fields a data line may have is the header's, or the
      first data line's if larger: the extra leading fields of that line
      make an implicit index, which line 49's [reset_index(drop=True)]
      discards ([expected_fields], [drop_index]);
    - a later line with more fields raises [ParserError] ("Expected n
      fields in line i, saw m"); a line with fewer fields is padded with
      [NaN], and an empty field is [NaN] too;
    - a quote never closed raises [ParserError] ("EOF inside string")
      after the lines before it are checked;
    - a column whose every cell is a decimal integer literal of [int64]
      (an optional sign and digits) is an [int64] column.
    An empty [dteday] cell is [NaN], which [pd.to_datetime] turns into
    [NaT]: [load] keeps such rows ([Missing.RawRow]) and the run on them
    is [Missing.run_script_nat].  Blanks around numbers and the other
    dtypes pandas infers are not modelled.  Where pandas would go on with
    a [NaN] cell or a non-integer value in [weekday] or [cnt] (a float or
    object column, with which the script would then compute), the model
    stops with [NotModelled]: its theorems are about files without such
    cells, and they say so in their hypotheses.

    [run_file] composes loading with [Missing.run_script_nat] in the order
    the script runs: a missing [dteday] column raises [KeyError] on line 47,
    before the page is built; a missing [cnt] or [weekday] column is only
    read by the helpers on lines 71-72, after the widget, and raises
    [KeyError] there.  The data frame is then sorted and used as in
    [Dashboard].

    The theorems: a file written from well-formed rows, empty dates
    included, loads back as those rows, with or without an unnamed index
    column, and the script run on it is [Dashboard.run_script] on the
    rows that have a date; the errors a file raises, in the
    order the script meets them. *)

From Stdlib Require Import ZArith Lia List String Ascii DecimalString DecimalZ.
From stdpp Require Import base list strings.
From S2P Require Import Prelude Csv Frame Calendar Season Dashboard Missing.
Import ListNotations Csv Frame Calendar Season Dashboard Missing.
Open Scope Z_scope.

Module Loader.

(** ** The frame of [pd.read_csv] *)

(** A cell of the frame: [None] is [NaN]. *)
Abbreviation Cell := (option string) (only parsing).

(** An empty field is read as [NaN]. *)
Definition cell_of (s : string) : Cell := if String.eqb s "" then None else Some s.

(** The frame [read_csv] builds: the column names and, for each data line,
    its line number in the file and its cells. *)
Record Csv := mkCsv {
  csv_header : list string;
  csv_rows : list (nat * list Cell)
}.

(** What a run on a file can raise. *)
Inductive AppError :=
  (** [EmptyDataError]: no line to take column names from. *)
  | EmptyDataError
  (** [ParserError]: line [line] has [saw] fields, [expected] were. *)
  | ParserError (line expected saw : nat)
  (** [ParserError]: the text ends inside a quoted field opened after
      line [line]. *)
  | ParserEOF (line : nat)
  (** [KeyError]: the script reads a column the file lacks. *)
  | KeyError (col : string)
  (** [pd.to_datetime] fails on the date of line [line]. *)
  | DateFailed (line : nat) (e : DateError)
  (** An error of [Dashboard.run_script]. *)
  | ScriptFailed (e : ScriptError)
  (** A [NaN] cell or a non-[int64] column: pandas goes on with it, the
      model does not. *)
  | NotModelled (line : nat) (col : string).

#[export] Instance AppError_eq_dec : EqDecision AppError.
Proof. solve_decision. Defined.

(** One data line: more fields than expected is a tokenizer error
    ([end_line] of [tokenizer.c]), fewer are padded with [NaN]. *)
Definition tokenize_line (n : nat) (line : nat * list string) : AppError + (nat * list Cell) :=
  let fs := snd line in
  if Nat.ltb n (length fs) then inl (ParserError (fst line) n (length fs))
  else inr (fst line, map cell_of fs ++ repeat None (n - length fs)).

(** The number of fields every data line may have: the header's, or
    more if the first data line has more ([ex_fields] of the line before
    in [end_line]: the first data line is not checked, the others are
    padded to it). *)
Definition expected_fields (header : list string) (body : list (nat * list string)) : nat :=
  match body with
  | [] => length header
  | (_, fs) :: _ => Nat.max (length header) (length fs)
  end.

(** The extra leading fields of the first data line make an implicit
    index ([_get_index_name]); the columns are the last ones.  Line 49's
    [reset_index(drop=True)] discards that index. *)
Definition drop_index (k : nat) (row : nat * list Cell) : nat * list Cell := (fst row, drop k (snd row)).

(** [pd.read_csv(path)] (line 44) on the text of the file: the first
    record is the header; an error of the tokenizer comes after the
    records read before it. *)
Definition read_csv (text : string) : AppError + Csv :=
  let '(recs, eof) := tokenize text in
  let eof_error := match eof with Some (EofInString k) => Some (ParserEOF k) | None => None end in
  match recs with
  | [] => inl (default EmptyDataError eof_error)
  | (_, header) :: body =>
      let n := expected_fields header body in
      rows ← mapM (tokenize_line n) body;
      match eof_error with
      | Some e => inl e
      | None => inr (mkCsv header (map (drop_index (n - length header)) rows))
      end
  end.

(** [df[name]]: the position of the first column of that name. *)
Fixpoint index_of (k : string) (l : list string) : option nat :=
  match l with
  | [] => None
  | x :: l' => if String.eqb x k then Some 0%nat else S <$> index_of k l'
  end.

Definition column (c : Csv) (name : string) : option (list (nat * Cell)) :=
  i ← index_of name (csv_header c);
  Some (map (fun r => (fst r, nth i (snd r) None)) (csv_rows c)).

(** ** Column conversions *)

(** [pd.to_datetime] on one cell (line 47): [NaN] gives [NaT]; a text
    in a format other than YYYY-MM-DD is outside the model. *)
Definition date_cell (c : nat * Cell) : AppError + option Z :=
  match snd c with
  | None => inr None
  | Some s =>
      match to_datetime s with
      | inl FormatNotModelled => inl (NotModelled (fst c) "dteday")
      | inl e => inl (DateFailed (fst c) e)
      | inr d => inr (Some d)
      end
  end.

(** A decimal integer literal: an optional sign and at least one digit. *)
Definition int_literal (s : string) : option Decimal.int :=
  match s with
  | String c s' =>
      if Ascii.eqb c "+" then Decimal.Pos <$> NilZero.uint_of_string s' else NilZero.int_of_string s
  | EmptyString => None
  end.

(** The value of an [int64] literal. *)
Definition parse_int64 (s : string) : option Z :=
  z ← Z.of_int <$> int_literal s;
  if int64_ok z then Some z else None.

(** A cell of an [int64] column. *)
Definition int_cell (col : string) (c : nat * Cell) : AppError + Z :=
  match snd c ≫= parse_int64 with
  | None => inl (NotModelled (fst c) col)
  | Some z => inr z
  end.

(** An integer column the script reads later.  A column the file lacks
    is filled with zeros here; [run_file] raises its [KeyError] before
    any of them is used. *)
Definition int_column (c : Csv) (name : string) : AppError + list Z :=
  match column c name with
  | None => inr (repeat 0 (length (csv_rows c)))
  | Some col => mapM (int_cell name) col
  end.

(** Lines 44-47: the rows of the loaded frame, [NaT] dates included,
    with its column names. *)
Definition load (text : string) : AppError + (list string * list RawRow) :=
  c ← read_csv text;
  dcol ← default (inl (KeyError "dteday")) (inr <$> column c "dteday");
  dates ← mapM date_cell dcol;
  weekdays ← int_column c "weekday";
  cnts ← int_column c "cnt";
  inr (csv_header c, zip_with (fun d wc => mkRaw d (fst wc) (snd wc)) dates (combine weekdays cnts)).

(** ** The script on a file *)

(** The script from line 44 on, with the file's text and the widget
    value: the helpers of lines 71-72 read [cnt] and then [weekday]. *)
Definition run_file (text : string) (widget : list Date) : AppError + View :=
  '(header, rows) ← load text;
  v ← (match run_script_nat rows widget with inl e => inl (ScriptFailed e) | inr v => inr v end);
  if bool_decide ("cnt"%string ∈ header) then
    if bool_decide ("weekday"%string ∈ header) then inr v else inl (KeyError "weekday")
  else inl (KeyError "cnt").

(** ** Writing a dataset *)

(** The file of the three columns, as [df.to_csv(index=False)] writes
    it: a header line and one line per row, each ended by a newline; a
    [NaT] date is written as an empty cell. *)
Definition date_text (d : option Date) : string :=
  match d with Some d => format_date d | None => EmptyString end.

Definition row_line (r : RawRow) : string :=
  (date_text (raw_dteday r) ++ String "," (py_str_int (raw_weekday r) ++ String "," (py_str_int (raw_cnt r))))%string.

Definition csv_columns : list string := ["dteday"; "weekday"; "cnt"].

Definition write_csv (rows : list RawRow) : string :=
  write_lines ("dteday,weekday,cnt" :: map row_line rows).

(** The cells [read_csv] makes of a written row. *)
Definition row_cells (r : RawRow) : list Cell :=
  [format_date <$> raw_dteday r; Some (py_str_int (raw_weekday r)); Some (py_str_int (raw_cnt r))].

(** The frame [read_csv] makes of a written file: data lines are numbered
    from 2, after the header. *)
Definition written_csv (rows : list RawRow) : Csv :=
  mkCsv csv_columns (map (fun p => (fst p, row_cells (snd p))) (combine (seq 2 (length rows)) rows)).

(** A date of the [Timestamp] range, or [NaT]. *)
Definition date_ok (d : option Date) : Prop :=
  match d with Some d => -106751 <= d <= 106751 | None => True end.

(** The rows a file can hold in the model: a [Timestamp] date or [NaT],
    and a weekday and a count of [int64]. *)
Definition loadable (r : RawRow) : Prop :=
  date_ok (raw_dteday r) /\ int64_ok (raw_weekday r) = true /\ int64_ok (raw_cnt r) = true.

(** ** Characters of the printed values *)

(** A character that no printed date or integer contains. *)
Definition num_char_free (c : ascii) : bool :=
  negb (Ascii.eqb c "-") && check_from (fun k => negb (Ascii.eqb c (dchar k))) 0 10.

(** ** Characters of printed values *)

Lemma num_char_free_dchar c k :
  num_char_free c = true -> 0 <= k <= 9 -> Ascii.eqb (dchar k) c = false.
Proof.
  unfold num_char_free. intros H Hk. apply andb_prop in H as [_ H].
  pose proof (check_from_spec _ 0 10 H k ltac:(lia)) as Hk'. simpl in Hk'.
  rewrite Ascii.eqb_sym. by destruct (Ascii.eqb c (dchar k)).
Qed.

Lemma num_char_free_minus c : num_char_free c = true -> Ascii.eqb "-" c = false.
Proof. unfold num_char_free. intros H. apply andb_prop in H as [H _]. rewrite Ascii.eqb_sym. by destruct (Ascii.eqb c "-"). Qed.

Lemma has_char_format_ymd c y m d :
  num_char_free c = true -> 0 <= y <= 9999 -> 0 <= m <= 99 -> 0 <= d <= 99 ->
  has_char c (format_ymd y m d) = false.
Proof.
  intros Hc Hy Hm Hd. unfold format_ymd, pad4, pad2. cbv [String.append has_char].
  rewrite !num_char_free_dchar by (done || zdiv). by rewrite num_char_free_minus.
Qed.

Lemma has_char_format_date c n :
  num_char_free c = true -> -106751 <= n <= 106751 -> has_char c (format_date n) = false.
Proof.
  intros Hc Hn. destruct (format_date_fields n Hn) as (y & m & d & -> & ?).
  apply has_char_format_ymd; [done|lia..].
Qed.

Lemma has_char_string_of_uint c u :
  num_char_free c = true -> has_char c (NilEmpty.string_of_uint u) = false.
Proof.
  intros Hc. induction u; cbn [NilEmpty.string_of_uint has_char]; rewrite ?IHu; [done|..];
    match goal with |- (Ascii.eqb ?a c || _)%bool = _ =>
      first [ change a with (dchar 0) | change a with (dchar 1) | change a with (dchar 2)
            | change a with (dchar 3) | change a with (dchar 4) | change a with (dchar 5)
            | change a with (dchar 6) | change a with (dchar 7) | change a with (dchar 8)
            | change a with (dchar 9) ] end;
    rewrite num_char_free_dchar by (done || lia); done.
Qed.

Lemma has_char_string_of_uint0 c u :
  num_char_free c = true -> has_char c (NilZero.string_of_uint u) = false.
Proof.
  intros Hc. destruct u; try (apply has_char_string_of_uint; done).
  change (NilZero.string_of_uint Decimal.Nil) with (String (dchar 0) EmptyString).
  cbn [has_char]. by rewrite num_char_free_dchar by (done || lia).
Qed.

Lemma has_char_py_str_int c z : num_char_free c = true -> has_char c (py_str_int z) = false.
Proof.
  intros Hc. unfold py_str_int, NilZero.string_of_int.
  destruct (Z.to_int z) as [u|u]; [|cbn [has_char]; rewrite num_char_free_minus by done];
    by apply has_char_string_of_uint0.
Qed.

Lemma num_char_free_comma : num_char_free "," = true.
Proof. reflexivity. Qed.

Lemma num_char_free_newline : num_char_free newline = true.
Proof. reflexivity. Qed.

Lemma num_char_free_cr : num_char_free cr = true.
Proof. reflexivity. Qed.

Lemma num_char_free_quote : num_char_free quote_char = true.
Proof. reflexivity. Qed.

Lemma num_char_free_plus : num_char_free "+" = true.
Proof. reflexivity. Qed.

(** ** Integer cells *)

(** [str] of an [int64] is an [int64] literal of the same value. *)
Lemma parse_int64_py_str_int z : int64_ok z = true -> parse_int64 (py_str_int z) = Some z.
Proof.
  intros Hz. unfold parse_int64, int_literal.
  pose proof (int_of_string_py_str_int z) as Hs.
  pose proof (has_char_py_str_int "+" z num_char_free_plus) as Hp.
  destruct (py_str_int z) as [|c s'] eqn:E; [discriminate|].
  cbn [has_char] in Hp. apply orb_false_elim in Hp as [-> _].
  rewrite Hs. simpl. rewrite DecimalZ.of_to. by rewrite Hz.
Qed.

Lemma cell_of_not_empty s : s <> EmptyString -> cell_of s = Some s.
Proof. unfold cell_of. intros H. destruct (String.eqb_spec s ""); [done|done]. Qed.

Lemma py_str_int_not_empty z : py_str_int z <> EmptyString.
Proof. pose proof (int_of_string_py_str_int z) as H. intros E. rewrite E in H. discriminate. Qed.

Lemma format_date_not_empty n : -106751 <= n <= 106751 -> format_date n <> EmptyString.
Proof. intros Hn. destruct (format_date_fields n Hn) as (y & m & d & -> & _). discriminate. Qed.

(** A line of the written file is not blank: it has a delimiter. *)
Lemma all_ws_row_line r : all_ws (row_line r) = false.
Proof. unfold row_line. by rewrite all_ws_app, andb_false_r. Qed.

Lemma has_char_date_text c d : num_char_free c = true -> date_ok d -> has_char c (date_text d) = false.
Proof. intros Hc Hd. destruct d as [d|]; [by apply has_char_format_date|done]. Qed.

(** The cell [read_csv] makes of a printed date: [NaN] for [NaT]. *)
Lemma cell_of_date_text d : date_ok d -> cell_of (date_text d) = format_date <$> d.
Proof. destruct d as [d|]; [|done]. intros Hd. by apply cell_of_not_empty, format_date_not_empty. Qed.

Lemma has_char_row_line c r :
  num_char_free c = true -> Ascii.eqb "," c = false -> loadable r -> has_char c (row_line r) = false.
Proof.
  intros Hc Hcomma (Hd & _). unfold row_line. rewrite has_char_app. cbn [has_char]. rewrite has_char_app.
  cbn [has_char]. by rewrite Hcomma, has_char_date_text, !has_char_py_str_int.
Qed.

Lemma plain_row_line r : loadable r -> plain_line (row_line r) = true.
Proof.
  intros Hr. unfold plain_line. rewrite all_ws_row_line.
  by rewrite !has_char_row_line by (done || apply num_char_free_quote || apply num_char_free_newline
                                      || apply num_char_free_cr).
Qed.

Lemma split_row_line r :
  loadable r ->
  split_on "," (row_line r) = [date_text (raw_dteday r); py_str_int (raw_weekday r); py_str_int (raw_cnt r)].
Proof.
  intros (Hd & _). unfold row_line.
  rewrite split_on_app by (apply has_char_date_text; [apply num_char_free_comma|done]).
  rewrite split_on_app by (apply has_char_py_str_int, num_char_free_comma).
  rewrite split_on_single by (apply has_char_py_str_int, num_char_free_comma). done.
Qed.

Lemma tokenize_row_line k r :
  loadable r -> tokenize_line 3 (k, split_on "," (row_line r)) = inr (k, row_cells r).
Proof.
  intros Hr. unfold tokenize_line. cbn [fst snd]. rewrite (split_row_line r Hr). simpl.
  destruct Hr as (Hd & _).
  by rewrite cell_of_date_text, !cell_of_not_empty by (apply py_str_int_not_empty || done).
Qed.

Lemma tokenize_line_fits n k fs : (length fs <= n)%nat -> exists b, tokenize_line n (k, fs) = inr b.
Proof. intros H. unfold tokenize_line. cbn [fst snd]. destruct (Nat.ltb_spec n (length fs)); [lia|eauto]. Qed.

Lemma tokenize_line_long n k fs : (n < length fs)%nat -> tokenize_line n (k, fs) = inl (ParserError k n (length fs)).
Proof. intros H. unfold tokenize_line. cbn [fst snd]. by destruct (Nat.ltb_spec n (length fs)); [|lia]. Qed.

(** [read_csv] on lines without quotes, blank lines or carriage returns:
    the header and the data lines numbered from 2, split at [','],
    checked against the expected number of fields. *)
Lemma read_csv_write_lines h ls :
  Forall (fun l => plain_line l = true) (h :: ls) ->
  let body := combine (seq 2 (length ls)) (map (split_on ",") ls) in
  let n := expected_fields (split_on "," h) body in
  read_csv (write_lines (h :: ls)) =
  (rows ← mapM (tokenize_line n) body;
   inr (mkCsv (split_on "," h) (map (drop_index (n - length (split_on "," h))) rows))).
Proof.
  intros H body n. unfold read_csv. rewrite tokenize_write_lines by done.
  cbn [length seq combine map]. by destruct (mapM _ _).
Qed.

(** A file written with CR LF line ends loads as with LF. *)
Lemma load_crlf ls :
  Forall (fun l => plain_line l = true) ls -> load (write_lines_with crlf ls) = load (write_lines ls).
Proof. intros H. unfold load, read_csv. by rewrite tokenize_crlf. Qed.

Lemma drop_index_0 rows : map (drop_index 0) rows = rows.
Proof. rewrite <- (map_id rows) at 2. apply map_ext. by intros [k cs]. Qed.

(** [read_csv] reads the rows of a written file back into their cells,
    under any plain header of three names. *)
Lemma read_csv_write_header h rows :
  plain_line h = true -> length (split_on "," h) = 3%nat -> Forall loadable rows ->
  read_csv (write_lines (h :: map row_line rows)) = inr (mkCsv (split_on "," h) (csv_rows (written_csv rows))).
Proof.
  intros Hh H3 Hrows. rewrite read_csv_write_lines.
  2:{ constructor; [done|]. apply Forall_map. eapply Forall_impl; [done|]. apply plain_row_line. }
  cbn zeta. rewrite !length_map, map_map, combine_map_r.
  replace (expected_fields _ _) with 3%nat.
  2:{ destruct rows as [|r rows]; [done|]. inversion Hrows; subst. cbn. by rewrite ?split_row_line, H3. }
  rewrite (mapM_map_inr _ (fun p => (fst p, split_on "," (row_line (snd p)))) (fun p => (fst p, row_cells (snd p)))).
  - cbn. by rewrite H3, drop_index_0.
  - intros [i r] Hin. apply in_combine_r in Hin. apply tokenize_row_line.
    rewrite List.Forall_forall in Hrows. auto.
Qed.

(** [read_csv] reads a written file back into its cells. *)
Lemma read_csv_write_csv rows : Forall loadable rows -> read_csv (write_csv rows) = inr (written_csv rows).
Proof. intros H. by apply read_csv_write_header. Qed.

Lemma column_written hdr rows name i :
  index_of name hdr = Some i ->
  column (mkCsv hdr (csv_rows (written_csv rows))) name =
  Some (map (fun p => (fst p, nth i (row_cells (snd p)) None)) (combine (seq 2 (length rows)) rows)).
Proof. intros Hi. unfold column. cbn [csv_header csv_rows written_csv]. rewrite Hi. simpl. by rewrite map_map. Qed.

Lemma int_column_written hdr rows name i (sel : RawRow -> Z) :
  index_of name hdr = Some i ->
  (forall r, nth i (row_cells r) None = Some (py_str_int (sel r))) ->
  Forall (fun r => int64_ok (sel r) = true) rows ->
  int_column (mkCsv hdr (csv_rows (written_csv rows))) name = inr (map sel rows).
Proof.
  intros Hi Hsel Hok. unfold int_column. rewrite (column_written _ _ _ _ Hi).
  replace (map sel rows) with (map (fun p => sel (snd p)) (combine (seq 2 (length rows)) rows))
    by (rewrite <- map_map, map_snd_combine; [done|by rewrite length_seq]).
  apply mapM_map_inr. intros [k r] Hin. apply in_combine_r in Hin. unfold int_cell. cbn [fst snd].
  rewrite Hsel. simpl. rewrite parse_int64_py_str_int; [done|].
  rewrite List.Forall_forall in Hok. auto.
Qed.

Lemma zip_with_raw rows cnts :
  zip_with (fun d wc => mkRaw d (fst wc) (snd wc)) (map raw_dteday rows) (combine (map raw_weekday rows) cnts) =
  zip_with (fun r c => mkRaw (raw_dteday r) (raw_weekday r) c) rows cnts.
Proof. revert cnts. induction rows as [|r rows IH]; intros [|c cnts]; cbn; f_equal; auto. Qed.

(** A text [read_csv] reads as the cells of well-formed rows, under a
    header with [dteday] and [weekday] first, loads as those rows with
    the counts [int_column] reads for [cnt]. *)
Lemma load_cells text hdr rows cnts :
  Forall loadable rows -> index_of "dteday" hdr = Some 0%nat -> index_of "weekday" hdr = Some 1%nat ->
  int_column (mkCsv hdr (csv_rows (written_csv rows))) "cnt" = inr cnts ->
  read_csv text = inr (mkCsv hdr (csv_rows (written_csv rows))) ->
  load text = inr (hdr, zip_with (fun r c => mkRaw (raw_dteday r) (raw_weekday r) c) rows cnts).
Proof.
  intros Hrows Hd Hw Hc Hread. pose proof Hrows as Hl. rewrite List.Forall_forall in Hl.
  unfold load. rewrite Hread. bind_simp.
  rewrite (column_written _ rows "dteday" 0 Hd). cbn [default fmap option_fmap option_map id].
  bind_simp.
  rewrite (mapM_map_inr _ _ (fun p => raw_dteday (snd p))).
  2:{ intros [k r] Hin. apply in_combine_r, Hl in Hin as (Hdok & _). unfold date_cell. cbn [fst snd nth row_cells].
      destruct (raw_dteday r) as [d|]; [|done]. cbn [fmap option_fmap option_map].
      by rewrite format_date_read_back. }
  bind_simp.
  rewrite (int_column_written _ rows "weekday" 1 raw_weekday); [bind_simp|done|done|].
  2:{ eapply Forall_impl; [exact Hrows|]. by intros r (_ & ? & _). }
  rewrite Hc. bind_simp. rewrite <- map_map, map_snd_combine by (by rewrite length_seq).
  by rewrite zip_with_raw.
Qed.

Lemma zip_with_repeat_r {A B C} (f : A -> B -> C) (l : list A) (b : B) :
  zip_with f l (repeat b (length l)) = map (fun a => f a b) l.
Proof. induction l; cbn; f_equal; auto. Qed.

Lemma zip_with_raw_cnt rows : zip_with (fun r c => mkRaw (raw_dteday r) (raw_weekday r) c) rows (map raw_cnt rows) = rows.
Proof. induction rows as [|[d w c] rows IH]; cbn; f_equal; auto. Qed.

(** A text [read_csv] reads as the cells of well-formed rows loads as
    those rows. *)
Lemma load_written text rows :
  Forall loadable rows -> read_csv text = inr (written_csv rows) -> load text = inr (csv_columns, rows).
Proof.
  intros Hrows Hread. rewrite <- (zip_with_raw_cnt rows).
  apply (load_cells _ csv_columns); [done|done|done| |exact Hread].
  apply (int_column_written _ _ _ 2); [done|done|]. eapply Forall_impl; [exact Hrows|]. by intros r (_ & _ & ?).
Qed.

(** [load] reads a written file back as its rows. *)
Lemma load_write_csv_rows rows : Forall loadable rows -> load (write_csv rows) = inr (csv_columns, rows).
Proof. intros H. apply load_written; [done|]. by apply read_csv_write_csv. Qed.

(** ** A file with an index column and no name for it *)

Lemma plain_index_line i r :
  plain_field i = true -> loadable r -> plain_line (i ++ String "," (row_line r))%string = true.
Proof.
  intros Hi Hr. rewrite plain_field_has_char in Hi.
  destruct (has_char newline i) eqn:A, (has_char cr i) eqn:B, (has_char quote_char i) eqn:C; try done.
  unfold plain_line. rewrite all_ws_app, !has_char_app, A, B, C. cbn [all_ws has_char is_ws].
  rewrite andb_false_r.
  by rewrite !has_char_row_line by (done || apply num_char_free_quote || apply num_char_free_newline
                                      || apply num_char_free_cr).
Qed.

Lemma tokenize_index_line k i r :
  has_char "," i = false -> loadable r ->
  tokenize_line 4 (k, split_on "," (i ++ String "," (row_line r))%string) = inr (k, cell_of i :: row_cells r).
Proof.
  intros Hi Hr. rewrite split_on_app, (split_row_line r Hr) by done. unfold tokenize_line. cbn.
  destruct Hr as (Hd & _).
  by rewrite (cell_of_date_text (raw_dteday r)), !(cell_of_not_empty (py_str_int _))
    by (apply py_str_int_not_empty || done).
Qed.

(** [read_csv] on a file whose data lines have one leading field more
    than the header: the cells of the rows, the index dropped. *)
Lemma read_csv_write_indexed idx rows :
  rows <> [] -> length idx = length rows -> Forall loadable rows -> Forall (fun i => plain_field i = true) idx ->
  read_csv (write_lines ("dteday,weekday,cnt" :: map (fun p => (fst p ++ String "," (row_line (snd p)))%string)
                                                     (combine idx rows)))
  = inr (written_csv rows).
Proof.
  intros Hne Hlen Hrows Hidx. rewrite read_csv_write_lines.
  2:{ constructor; [reflexivity|]. apply Forall_map, List.Forall_forall. intros [i r] Hin.
      rewrite List.Forall_forall in Hrows, Hidx.
      apply plain_index_line; [apply Hidx; exact (in_combine_l _ _ _ _ Hin)|apply Hrows; exact (in_combine_r _ _ _ _ Hin)]. }
  cbn zeta. change (split_on "," "dteday,weekday,cnt") with csv_columns.
  rewrite !length_map, length_combine, Hlen, Nat.min_id, map_map, combine_map_r.
  replace (expected_fields csv_columns _) with 4%nat.
  2:{ destruct idx as [|i idx], rows as [|r rows]; try done. inversion Hrows; subst. inversion Hidx as [|? ? Hi]; subst.
      rewrite plain_field_has_char in Hi. cbn. rewrite split_on_app, split_row_line by (done || by destruct (has_char "," i), (has_char quote_char i), (has_char cr i), (has_char newline i)).
      done. }
  rewrite (mapM_map_inr _ (fun p => (fst p, split_on "," (fst (snd p) ++ String "," (row_line (snd (snd p))))%string))
                         (fun p => (fst p, cell_of (fst (snd p)) :: row_cells (snd (snd p))))).
  - cbn. f_equal. unfold written_csv. f_equal. rewrite map_map. unfold drop_index. cbn [fst snd drop].
    rewrite <- (combine_combine_snd (seq 2 (length rows)) idx rows Hlen), map_map. done.
  - intros [k [i r]] Hin. pose proof (in_combine_r _ _ _ _ Hin) as Hin'.
    rewrite List.Forall_forall in Hrows, Hidx. cbn [fst snd].
    apply tokenize_index_line; [|apply Hrows; exact (in_combine_r _ _ _ _ Hin')].
    specialize (Hidx i (in_combine_l _ _ _ _ Hin')). rewrite plain_field_has_char in Hidx.
    by destruct (has_char "," i), (has_char quote_char i), (has_char cr i), (has_char newline i).
Qed.

(** * Properties *)

(** C26. Refinement: the script run on the text of a file written from
    well-formed rows, some of them with an empty ([NaT]) date, is the run
    [Dashboard.run_script] on the rows that have a date; its errors are
    the run's errors. *)
Theorem run_file_write_csv rows widget :
  Forall loadable rows ->
  run_file (write_csv rows) widget =
  match run_script (present_rows rows) widget with inl e => inl (ScriptFailed e) | inr v => inr v end.
Proof.
  intros H. unfold run_file. rewrite load_write_csv_rows by done. bind_simp.
  rewrite run_script_nat_present. destruct (run_script (present_rows rows) widget); bind_simp; reflexivity.
Qed.

(** C28. The loader does not check the schema: a file of well-formed
    rows whose third column is named [total] instead of [cnt] loads, its
    frame has the rows' dates and weekdays; a run on it with a date range
    and a dated row raises [KeyError: 'cnt'] on line 71 instead of showing
    the dashboard. *)
Theorem run_file_missing_column rows s e :
  Forall loadable rows ->
  (exists rs, load (write_lines ("dteday,weekday,total" :: map row_line rows)) = inr (["dteday"; "weekday"; "total"], rs) /\
     map raw_dteday rs = map raw_dteday rows /\ map raw_weekday rs = map raw_weekday rows) /\
  (present_rows rows <> [] ->
   run_file (write_lines ("dteday,weekday,total" :: map row_line rows)) [s; e] = inl (KeyError "cnt")).
Proof.
  intros Hrows.
  assert (Hl : load (write_lines ("dteday,weekday,total" :: map row_line rows)) =
               inr (["dteday"; "weekday"; "total"], map (fun r => mkRaw (raw_dteday r) (raw_weekday r) 0) rows)).
  { rewrite <- (zip_with_repeat_r (fun r c => mkRaw (raw_dteday r) (raw_weekday r) c) rows 0). apply load_cells; [done|done|done| |by apply read_csv_write_header].
    unfold int_column, column. cbn. by rewrite length_map, length_combine, length_seq, Nat.min_id. }
  split; [eexists; split; [exact Hl|]; by rewrite !map_map|].
  intros Hne. unfold run_file. rewrite Hl. bind_simp. rewrite run_script_nat_present, run_script_two.
  destruct (bounds _) as [[lo hi]|] eqn:Hb.
  - bind_simp. rewrite bool_decide_eq_false_2; [done|]. apply (bool_decide_unpack _). vm_compute. exact I.
  - apply bounds_None in Hb. contradict Hne. clear Hl Hrows. revert Hb. unfold present_rows.
    induction rows as [|[[d|] w c] rows IH]; cbn; [done|discriminate|exact IH].
Qed.

(** C29. A data line with more fields than expected stops [read_csv]
    with [ParserError], naming the first such line: expected is the
    larger of the header's count and the first data line's (whose extra
    leading fields are an index, line 2 is never rejected). *)
Theorem load_parser_error h r1 ls1 l ls2 :
  Forall (fun l => plain_line l = true) (h :: r1 :: ls1 ++ l :: ls2) ->
  Forall (fun l' => length (split_on "," l') <= Nat.max (length (split_on "," h)) (length (split_on "," r1)))%nat ls1 ->
  (Nat.max (length (split_on "," h)) (length (split_on "," r1)) < length (split_on "," l))%nat ->
  load (write_lines (h :: r1 :: ls1 ++ l :: ls2)) =
  inl (ParserError (3 + length ls1)%nat (Nat.max (length (split_on "," h)) (length (split_on "," r1)))
                   (length (split_on "," l))).
Proof.
  intros Hls H1 Hl. unfold load. rewrite read_csv_write_lines by done. cbn zeta.
  cbn [length seq combine map expected_fields].
  rewrite length_app, map_app. cbn [length]. rewrite seq_app, combine_app by (by rewrite length_seq, length_map).
  cbn [seq combine map].
  set (n := Nat.max (length (split_on "," h)) (length (split_on "," r1))) in *.
  assert (E : mapM (tokenize_line n)
     ((2%nat, split_on "," r1) :: combine (seq 3 (length ls1)) (map (split_on ",") ls1) ++
      ((3 + length ls1)%nat, split_on "," l) :: combine (seq (S (3 + length ls1)) (length ls2)) (map (split_on ",") ls2))
     = inl (ParserError (3 + length ls1)%nat n (length (split_on "," l)))).
  { apply mapM_inl. eexists ((2%nat, split_on "," r1) :: _), _, _. split; [reflexivity|]. split.
    - constructor; [apply tokenize_line_fits; lia|].
      apply List.Forall_forall. intros [i fs] Hin. apply in_combine_r, in_map_iff in Hin as (l' & <- & Hin).
      apply tokenize_line_fits. rewrite List.Forall_forall in H1. auto.
    - by apply tokenize_line_long. }
  rewrite E. reflexivity.
Qed.

(** C16. Implicit index: when the data lines have one leading field
    more than the header (a file written with its index and no name for
    it), [read_csv] makes that field the index, line 49 drops it, and
    the rows load as they were written. *)
Theorem load_implicit_index idx rows :
  rows <> [] -> length idx = length rows -> Forall loadable rows -> Forall (fun i => plain_field i = true) idx ->
  load (write_lines ("dteday,weekday,cnt" :: map (fun p => (fst p ++ String "," (row_line (snd p)))%string)
                                                 (combine idx rows)))
  = inr (csv_columns, rows).
Proof. intros Hne Hlen Hrows Hidx. apply load_written; [done|]. by apply read_csv_write_indexed. Qed.

(** C21. A quote opened at the start of a line and never closed: after
    reading the lines before it, [read_csv] raises [ParserError]
    ("EOF inside string"), after the header and the lines before it. *)
Theorem load_open_quote h ls s :
  Forall (fun l => plain_line l = true) (h :: ls) ->
  Forall (fun l => length (split_on "," l) = length (split_on "," h)) ls ->
  has_char quote_char s = false ->
  load (write_lines (h :: ls) ++ String quote_char s) = inl (ParserEOF (S (length ls))).
Proof.
  intros Hls Heq Hs. unfold load, read_csv. rewrite tokenize_open_quote by done.
  cbn [length seq combine map].
  replace (expected_fields _ _) with (length (split_on "," h)).
  2:{ destruct ls as [|l ls]; [done|]. inversion Heq; subst. cbn. lia. }
  destruct (mapM_Forall_inr (tokenize_line (length (split_on "," h)))
              (combine (seq 2 (length ls)) (map (split_on ",") ls))) as (rows & Hrows).
  { apply List.Forall_forall. intros [k fs] Hin. apply in_combine_r, in_map_iff in Hin as (l & <- & Hin).
    apply tokenize_line_fits. rewrite List.Forall_forall in Heq. by rewrite Heq. }
  rewrite Hrows. reflexivity.
Qed.

(** A stray trailing delimiter on the first data line: that line is
    not rejected, its first field becomes the index, and every line is
    read one column to the right ([dteday] holds the weekdays). *)
Example read_csv_trailing_comma :
  read_csv (write_lines ["dteday,weekday,cnt"; "2011-01-01,6,985,"; "2011-01-02,0,801"]) =
  inr (mkCsv csv_columns [(2%nat, [Some "6"; Some "985"; None]); (3%nat, [Some "0"; Some "801"; None])]).
Proof. vm_compute. reflexivity. Qed.

(** Witnesses. *)

Lemma run_file_write_csv_witness :
  Forall loadable [mkRaw (Some 18628) 4 100; mkRaw None 6 7; mkRaw (Some 18629) 5 50] /\
  run_file (write_csv [mkRaw (Some 18628) 4 100; mkRaw None 6 7; mkRaw (Some 18629) 5 50]) [18628; 18629] =
  match run_script (present_rows [mkRaw (Some 18628) 4 100; mkRaw None 6 7; mkRaw (Some 18629) 5 50]) [18628; 18629] with
  | inl e => inl (ScriptFailed e) | inr v => inr v end.
Proof.
  assert (H : Forall loadable [mkRaw (Some 18628) 4 100; mkRaw None 6 7; mkRaw (Some 18629) 5 50]).
  { repeat constructor; unfold loadable, date_ok; cbn; repeat split; (lia || reflexivity). }
  split; [exact H|]. apply run_file_write_csv. exact H.
Defined.

Lemma run_file_missing_column_witness :
  run_file (write_lines ["dteday,weekday,total"; "2011-01-07,4,1050"; ",5,990"]) [14981; 14981] = inl (KeyError "cnt").
Proof.
  change ["dteday,weekday,total"; "2011-01-07,4,1050"; ",5,990"]%string
    with ("dteday,weekday,total"%string :: map row_line [mkRaw (Some 14981) 4 1050; mkRaw None 5 990]).
  apply (run_file_missing_column [mkRaw (Some 14981) 4 1050; mkRaw None 5 990]).
  - repeat constructor; unfold loadable, date_ok; cbn; repeat split; (lia || reflexivity).
  - discriminate.
Defined.

Lemma load_parser_error_witness :
  Forall (fun l => plain_line l = true)
    ("dteday,cnt" :: "2011-01-07,5" :: ["2011-01-08,6"] ++ "2011-01-09,7,8" :: ["2011-01-10,9"]) /\
  load (write_lines ("dteday,cnt" :: "2011-01-07,5" :: ["2011-01-08,6"] ++ "2011-01-09,7,8" :: ["2011-01-10,9"])) =
  inl (ParserError (3 + length ["2011-01-08,6"])%nat
         (Nat.max (length (split_on "," "dteday,cnt")) (length (split_on "," "2011-01-07,5")))
         (length (split_on "," "2011-01-09,7,8"))).
Proof.
  assert (H : Forall (fun l => plain_line l = true)
    ("dteday,cnt" :: "2011-01-07,5" :: ["2011-01-08,6"] ++ "2011-01-09,7,8" :: ["2011-01-10,9"]))
    by (repeat constructor).
  split; [exact H|]. apply load_parser_error; [exact H|repeat constructor|cbn; lia].
Defined.

Lemma load_implicit_index_witness :
  load (write_lines ("dteday,weekday,cnt" :: map (fun p => (fst p ++ String "," (row_line (snd p)))%string)
          (combine ["0"; "1"] [mkRaw (Some 14981) 4 985; mkRaw None 5 801])))
  = inr (csv_columns, [mkRaw (Some 14981) 4 985; mkRaw None 5 801]).
Proof.
  apply load_implicit_index; [discriminate|reflexivity| |repeat constructor].
  repeat constructor; unfold loadable, date_ok; cbn; repeat split; lia || reflexivity.
Defined.

Lemma load_open_quote_witness :
  load (write_lines ["dteday,cnt"; "2011-01-07,5"] ++ String quote_char "2011-01-08,6")
  = inl (ParserEOF (S (length ["2011-01-07,5"]))).
Proof. apply load_open_quote; [repeat constructor|repeat constructor|reflexivity]. Defined.

End Loader.
