(* ===== verification/Page.v ===== *)
(** * The page the script draws (lines 8-10, 55-65, 75-137)

    Streamlit turns every [st.*] call of a run into an element of the
    page, in the order of the calls, and an exception stops the run: the
    page keeps what was drawn before it, followed by the exception.  The
    model records the calls as a list of [Elem]s: the header (line 10),
    the sidebar logo and date widget (lines 57-65), the metric (line 76),
    the two subheaders and the two figures handed to [st.pyplot] (lines
    79-96 and 99-137).  A figure is what the script builds with seaborn
    and matplotlib: its size, its bars (category, value, colour from the
    palette, in row order), its text labels, title and axis labels.  Font
    sizes, tick styles and [sns.set(style='dark')] are styling and are
    not recorded.

    [Page] is the monad of a run that draws: the elements drawn so far
    and then either an exception or a value.  [dashboard] is the module
    body in that monad, statement by statement, from the file's text and
    the widget value; it reads the file (Loader), converts and sorts the
    dates, draws the sidebar, unpacks the widget, filters, runs the two
    helpers and draws the metric and the charts.

    The theorems: what the page shows when the file or the widget makes
    the run fail;
    the colours of the day-type chart, which follow the position of a bar
    and not its day type. *)

From Stdlib Require Import ZArith Lia List String.
From stdpp Require Import base list strings.
From S2P Require Import Prelude Frame Filter Daily DayType Season Dashboard Missing Loader.
Import ListNotations Frame Filter Daily DayType Season Dashboard Missing Loader.
Open Scope Z_scope.

Module Page.

(** ** What the script draws *)

(** One bar of a seaborn bar plot: its category ([NaN] for [None]), its
    value and its colour. *)
Record Bar := mkBar {
  bar_category : option string;
  bar_value : Z;
  bar_color : string
}.

(** A matplotlib figure as the script fills it. *)
Record Figure := mkFigure {
  fig_size : Z * Z;
  fig_horizontal : bool;
  fig_bars : list Bar;
  fig_texts : list BarLabel;
  fig_title : string;
  fig_xlabel : option string;
  fig_ylabel : option string
}.

(** The Streamlit calls of the script. *)
Inductive Elem :=
  | Header (text : string)
  | SidebarImage (url : string)
  | DateInput (label : string) (min_value max_value : Date) (value : list Date)
  | Metric (label : string) (value : Z)
  | Subheader (text : string)
  | Pyplot (fig : Figure).

Definition page_title : string := ":sparkles: Selamat Datang di Dashboard Sepeda :sparkles:".
Definition logo_url : string :=
  "https://github.com/DewieLisaPutri/ProjectDicodingStreamlit/blob/main/image.png".
Definition date_label : string := "Rentang Waktu".
Definition metric_label : string := "Total Orders".
Definition day_type_subheader : string :=
  "Jumlah Penyewaan Berdasarkan Jenis Hari (Weekday vs Weekend) ".
Definition season_subheader : string := "Jumlah Penyewaan Berdasarkan Musim ".

(** ** The day-type chart (lines 80-96) *)

(** [colors = ["#66b3ff", "#ff9999"]]: "for Weekday and Weekend". *)
Definition colors : list string := ["#66b3ff"; "#ff9999"].

(** The colour seaborn gives the [i]-th category from a palette list:
    the categories take the colours in order, cycling. *)
Definition palette_color (pal : list string) (i : nat) : string :=
  nth (i mod length pal) pal "".

(** [sns.barplot(x="day_type", y="total_rentals", data=weekday_weekend_df,
    palette=colors, ax=ax)]: one bar per row, in row order. *)
Definition day_type_bars (t : list ByDayType) : list Bar :=
  zip_with (fun r i => mkBar (Some (by_day_type r)) (by_total_rentals r) (palette_color colors i))
           t (seq 0 (length t)).

Definition day_type_figure (t : list ByDayType) : Figure :=
  mkFigure (10, 6) false (day_type_bars t) []
           "Total Penyewaan Sepeda: Weekday vs Weekend" (Some "Jenis Hari") (Some "Jumlah Penyewa").

(** ** The season chart (lines 113-137) *)

(** [sns.barplot(x="cnt", y="season", data=season_df, palette=colors_)],
    the value labels of lines 126-127, and [plt.xlabel(None)],
    [plt.ylabel(None)] removing the axis labels seaborn set. *)
Definition season_figure (rows : list SeasonRow) : Figure :=
  mkFigure (10, 5) true (map (fun p => mkBar (season (fst p)) (season_cnt (fst p)) (snd p)) (bar_colors rows))
           (bar_labels rows) "Total Penyewaan Sepeda Berdasarkan Musim" None None.

(** ** A run that draws *)

(** The elements drawn, then an exception or a value. *)
Definition Page (A : Type) : Type := list Elem * (AppError + A).

#[export] Instance page_ret : MRet Page := fun A a => ([], inr a).
#[export] Instance page_bind : MBind Page := fun A B k m =>
  match m with
  | (out, inl e) => (out, inl e)
  | (out, inr a) => let '(out', r) := k a in (out ++ out', r)
  end.

(** [st.*]: draw one element. *)
Definition emit (e : Elem) : Page unit := ([e], inr tt).

(** A step that draws nothing and may raise. *)
Definition lift {A} (r : AppError + A) : Page A := ([], r).

(** [min_date] and [max_date] of the sorted frame (lines 52-53), which
    skip [NaT]; the model stops at [NaT] bounds (no date at all). *)
Definition date_bounds (all_df : list RawRow) : AppError + (Date * Date) :=
  match date_min_nat all_df, date_max_nat all_df with
  | Some lo, Some hi => inr (lo, hi)
  | _, _ => inl (ScriptFailed NoDates)
  end.

(** A helper reading a column the file lacks raises [KeyError]. *)
Definition require_column (header : list string) (col : string) : Page unit :=
  if bool_decide (col ∈ header) then mret () else lift (inl (KeyError col)).

(** The module body of dashboard.py. *)
Definition dashboard (text : string) (widget : list Date) : Page View :=
  emit (Header page_title);;
  '(header, rows) ← lift (load text);
  let all_df := sort_values_nat rows in
  '(min_date, max_date) ← lift (date_bounds all_df);
  emit (SidebarImage logo_url);;
  emit (DateInput date_label min_date max_date [min_date; max_date]);;
  '(start_date, end_date) ← lift (match unpack2 widget with
                                   | inl e => inl (ScriptFailed e) | inr p => inr p end);
  let main_df := filter_range_nat all_df start_date end_date in
  require_column header "cnt";;
  require_column header "weekday";;
  let '(main_df', daily_orders_df, weekday_weekend_df) := prepare_frames main_df in
  let total_orders := sum64 (map total_rentals daily_orders_df) in
  emit (Metric metric_label total_orders);;
  emit (Subheader day_type_subheader);;
  emit (Pyplot (day_type_figure weekday_weekend_df));;
  emit (Subheader season_subheader);;
  emit (Pyplot (season_figure season_df));;
  mret (mkView min_date max_date main_df' daily_orders_df weekday_weekend_df total_orders season_df).

(** The elements before the widget is read, and after a successful run. *)
Definition page_top (lo hi : Date) : list Elem :=
  [Header page_title; SidebarImage logo_url; DateInput date_label lo hi [lo; hi]].

Definition page_body (v : View) : list Elem :=
  [Metric metric_label (total_orders v); Subheader day_type_subheader;
   Pyplot (day_type_figure (weekday_weekend_df v)); Subheader season_subheader;
   Pyplot (season_figure (season_table v))].

(** Run the steps of a page program whose outcome is known. *)
Ltac page_simp := cbn [mbind page_bind emit lift mret page_ret fst snd app].

(** ** The monad laws *)

Lemma page_bind_ret_l {A B} (a : A) (k : A -> Page B) : (mret a ≫= k) = k a.
Proof. cbn. by destruct (k a). Qed.

Lemma page_bind_ret_r {A} (m : Page A) : (m ≫= mret) = m.
Proof. destruct m as [out [e|a]]; cbn; [done|]. by rewrite app_nil_r. Qed.

Lemma page_bind_assoc {A B C} (m : Page A) (k : A -> Page B) (k' : B -> Page C) :
  ((m ≫= k) ≫= k') = (m ≫= fun a => k a ≫= k').
Proof.
  destruct m as [out [e|a]]; cbn; [done|]. destruct (k a) as [out' [e|b]]; cbn; [done|].
  destruct (k' b) as [out'' r]. by rewrite app_assoc.
Qed.

(** ** The run, case by case *)

(** [dashboard] unfolded: what is drawn before each exception, and the
    whole page of a run that does not raise. *)
Lemma dashboard_spec text widget :
  dashboard text widget =
  match load text with
  | inl e => ([Header page_title], inl e)
  | inr (header, rows) =>
      match date_bounds (sort_values_nat rows) with
      | inl e => ([Header page_title], inl e)
      | inr (lo, hi) =>
          match unpack2 widget with
          | inl e => (page_top lo hi, inl (ScriptFailed e))
          | inr (s, e) =>
              if bool_decide ("cnt"%string ∈ header) then
                if bool_decide ("weekday"%string ∈ header) then
                  let '(m, daily, by_day_type) := prepare_frames (filter_range_nat (sort_values_nat rows) s e) in
                  let v := mkView lo hi m daily by_day_type (sum64 (map total_rentals daily)) season_df in
                  (page_top lo hi ++ page_body v, inr v)
                else (page_top lo hi, inl (KeyError "weekday"))
              else (page_top lo hi, inl (KeyError "cnt"))
          end
      end
  end.
Proof.
  unfold dashboard, require_column.
  destruct (load text) as [?|[header rows]]; [done|]. page_simp.
  destruct (date_bounds _) as [?|[lo hi]]; page_simp; [done|].
  destruct (unpack2 widget) as [?|[s e]]; page_simp; [done|].
  destruct (bool_decide (_ ∈ header)), (bool_decide (_ ∈ header)); page_simp; try done.
Qed.

Lemma date_bounds_sorted rows :
  date_bounds (sort_values_nat rows) =
  match bounds (present_rows rows) with Some p => inr p | None => inl (ScriptFailed NoDates) end.
Proof.
  unfold date_bounds, bounds, date_min_nat, date_max_nat. rewrite present_sort.
  by destruct (date_min (sort_by_date (present_rows rows))), (date_max (sort_by_date (present_rows rows))).
Qed.

(** ** The day-type chart *)

(** The column [day_type] of the weekday/weekend table: the day types
    present, in pandas' sorted order. *)
Lemma weekday_weekend_table_keys df : map by_day_type (weekday_weekend_table df) = day_type_keys df.
Proof.
  unfold weekday_weekend_table, create_weekday_weekend_df, groupby_sum. cbn [snd].
  rewrite !map_map, (map_ext _ id) by done. rewrite map_id. apply day_type_group_keys.
Qed.

(** Bar [i] takes the [i]-th colour, whatever its category. *)
Lemma day_type_bars_colors t n :
  map (fun b => (bar_category b, bar_color b))
      (zip_with (fun r i => mkBar (Some (by_day_type r)) (by_total_rentals r) (palette_color colors i))
                t (seq n (length t))) =
  zip_with (fun k i => (Some k, palette_color colors i)) (map by_day_type t) (seq n (length t)).
Proof. revert n. induction t as [|r t IH]; intros n; [done|]. cbn. f_equal. apply IH. Qed.

(** * Properties *)

(** C17. What the page shows when the run fails: a file that does not
    load leaves only the header above the exception; on a loaded,
    non-empty dataset, a half-picked range (one date) leaves the header,
    the logo and the widget, and so does a file without a [cnt] column
    once a range is picked: no metric and no chart. *)
Theorem dashboard_error_pages text widget :
  (forall e, load text = inl e -> dashboard text widget = ([Header page_title], inl e)) /\
  (forall header rows lo hi, load text = inr (header, rows) -> bounds (present_rows rows) = Some (lo, hi) ->
   (forall d, widget = [d] -> dashboard text widget = (page_top lo hi, inl (ScriptFailed (UnpackError 1)))) /\
   (forall s e, widget = [s; e] -> "cnt"%string ∉ header ->
    dashboard text widget = (page_top lo hi, inl (KeyError "cnt")))).
Proof.
  rewrite dashboard_spec. split; [by intros e ->|].
  intros header rows lo hi -> Hb. rewrite date_bounds_sorted, Hb. split.
  - by intros d ->.
  - intros s e -> Hc. cbn. by rewrite bool_decide_eq_false_2.
Qed.

(** C27. The colours of the day-type chart follow the position of a bar,
    not its day type: with both kinds of day in range, Weekday is blue
    and Weekend pink as the comment of line 82 intends, but a range of
    weekend days only draws its Weekend bar in the Weekday blue. *)
Theorem day_type_chart_colors df :
  map (fun b => (bar_category b, bar_color b)) (fig_bars (day_type_figure (weekday_weekend_table df))) =
  match existsb (fun r => weekday r <? 5) df, existsb (fun r => 5 <=? weekday r) df with
  | true, true => [(Some "Weekday"%string, "#66b3ff"%string); (Some "Weekend"%string, "#ff9999"%string)]
  | true, false => [(Some "Weekday"%string, "#66b3ff"%string)]
  | false, true => [(Some "Weekend"%string, "#66b3ff"%string)]
  | false, false => []
  end.
Proof.
  cbn [day_type_figure fig_bars]. unfold day_type_bars. rewrite day_type_bars_colors.
  rewrite <- (length_map by_day_type), weekday_weekend_table_keys. unfold day_type_keys.
  by destruct (existsb _ df), (existsb _ df).
Qed.

End Page.
